(** * Hospital-management backend: appointment, doctor, patient and auth logic

    A shallow embedding of the arithmetic and request-handling code of the
    Express/Mongoose backend (models/Doctor.js, models/Appointment.js,
    models/Patient.js, models/PaymentMethod.js, middleware/auth.js,
    routes/patientRoutes.js, routes/doctorRoutes.js,
    routes/appointmentRoutes.js, controllers/appointmentController.js),
    followed by the properties proved about it. *)

From Stdlib Require Import ZArith List String Ascii Bool Lia QArith Qround.
From Stdlib Require Import DecimalString DecimalN DecimalZ.
Import ListNotations.

Open Scope string_scope.
Open Scope Z_scope.

(** ** The fragment of JavaScript the backend relies on *)

Module JS.

(** A JavaScript number restricted to the values the time arithmetic can
    produce: an integer, or NaN ([None]). *)
Definition num := option Z.
Definition NaN : num := None.

Definition add (a b : num) : num :=
  match a, b with Some x, Some y => Some (x + y)%Z | _, _ => NaN end.

Definition mul (a b : num) : num :=
  match a, b with Some x, Some y => Some (x * y)%Z | _, _ => NaN end.

(** Every comparison with NaN is false. *)
Definition lt (a b : num) : bool :=
  match a, b with Some x, Some y => (x <? y)%Z | _, _ => false end.

Definition le (a b : num) : bool :=
  match a, b with Some x, Some y => (x <=? y)%Z | _, _ => false end.

Definition gt (a b : num) : bool := lt b a.
Definition ge (a b : num) : bool := le b a.

(** [s.split(sep)] for a one-character separator. *)
Fixpoint split (sep : ascii) (s : string) : list string :=
  match s with
  | EmptyString => [EmptyString]
  | String c rest =>
      if Ascii.eqb c sep then EmptyString :: split sep rest
      else match split sep rest with
           | [] => [String c EmptyString]
           | w :: ws => String c w :: ws
           end
  end.

(** [Number(s)] on strings: an unsigned decimal numeral denotes its value and
    the empty string denotes 0; every other string is read as NaN.
    (JavaScript also reads signed, fractional, exponent and radix-prefixed
    numerals and ignores surrounding whitespace; none of these occurs in a
    time of day, and they are outside this integer model.) *)
Definition Number (s : string) : num :=
  match NilEmpty.uint_of_string s with
  | Some u => Some (Z.of_N (N.of_uint u))
  | None => NaN
  end.

(** Array destructuring [const [a, b] = xs]: a missing element is
    [undefined], which arithmetic turns into NaN. *)
Definition elem (xs : list num) (i : nat) : num := nth i xs NaN.

(** The idiom used throughout the models:
    [const [h, m] = t.split(':').map(Number); h * 60 + m]. *)
Definition minutesOf (t : string) : num :=
  let parts := map Number (split ":" t) in
  add (mul (elem parts 0) (Some 60)) (elem parts 1).

(** [n.toString()] for an integer. *)
Definition toString (n : Z) : string := NilZero.string_of_int (Z.to_int n).

Fixpoint repeat0 (k : nat) : string :=
  match k with O => EmptyString | S k' => String "0" (repeat0 k') end.

(** [s.padStart(len, '0')]. *)
Definition padStart0 (len : nat) (s : string) : string :=
  (repeat0 (len - String.length s)%nat ++ s)%string.

(** [s.startsWith(p)]. *)
Definition startsWith (p s : string) : bool := String.prefix p s.

(** [s.replace(pat, '')] with a string pattern: the first occurrence of
    [pat] is removed. *)
Fixpoint removeFirst (pat s : string) : string :=
  if String.prefix pat s then
    String.substring (String.length pat) (String.length s - String.length pat)%nat s
  else match s with
       | EmptyString => EmptyString
       | String c rest => String c (removeFirst pat rest)
       end.

(** [xs.includes(x)] on an array of strings. *)
Definition includes (xs : list string) (x : string) : bool :=
  existsb (String.eqb x) xs.

(** Truthiness of an optional string: [undefined], [null] and [''] are
    falsy. *)
Definition truthy (s : option string) : bool :=
  match s with
  | None => false
  | Some EmptyString => false
  | Some _ => true
  end.

(** Whitespace, for the characters of the ASCII range. *)
Definition isSpace (c : ascii) : bool :=
  let n := N_of_ascii c in (n =? 32)%N || ((9 <=? n)%N && (n <=? 13)%N).

Fixpoint trimStart (s : string) : string :=
  match s with
  | EmptyString => EmptyString
  | String c rest => if isSpace c then trimStart rest else s
  end.

Fixpoint trimEnd (s : string) : string :=
  match s with
  | EmptyString => EmptyString
  | String c rest =>
      match trimEnd rest with
      | EmptyString => if isSpace c then EmptyString else String c EmptyString
      | rest' => String c rest'
      end
  end.

(** [s.trim()]. *)
Definition trim (s : string) : string := trimEnd (trimStart s).

Definition lowerChar (c : ascii) : ascii :=
  let n := N_of_ascii c in
  if (65 <=? n)%N && (n <=? 90)%N then ascii_of_N (n + 32) else c.

(** [s.toLowerCase()], for the letters of the ASCII range. *)
Fixpoint toLowerCase (s : string) : string :=
  match s with
  | EmptyString => EmptyString
  | String c rest => String (lowerChar c) (toLowerCase rest)
  end.

Definition isDigit (c : ascii) : bool :=
  let n := N_of_ascii c in (48 <=? n)%N && (n <=? 57)%N.


End JS.

(** ** models/Doctor.js *)

Module Doctor.

(** The [availability] sub-document of the doctor schema. *)
Record Availability := {
  workingDays : list string;
  startTime : string;
  endTime : string;
  breakStart : string;
  breakEnd : string;
  slotDuration : Z
}.

(** [rating.breakdown]: one counter per star value, keys 1 to 5. *)
Record Breakdown := { b1 : Z; b2 : Z; b3 : Z; b4 : Z; b5 : Z }.

(** The [rating] sub-document; [average] holds the value left by the schema
    setter. *)
Record Rating := {
  average : Q;
  totalReviews : Z;
  breakdown : Breakdown
}.

Record t := {
  availability : Availability;
  isAvailable : bool;
  status : string;
  rating : Rating
}.

(** The schema's [match] on the four time fields:
    [/^([0-1]?[0-9]|2[0-3]):[0-5][0-9]$/]. *)
Definition isMinuteTens (c : ascii) : bool :=
  let n := N_of_ascii c in (48 <=? n)%N && (n <=? 53)%N.

Definition isHourUnits (tens units : ascii) : bool :=
  ((Ascii.eqb tens "0" || Ascii.eqb tens "1") && JS.isDigit units)
  || (Ascii.eqb tens "2"
      && (let n := N_of_ascii units in (48 <=? n)%N && (n <=? 51)%N)).

Definition matchTime (s : string) : bool :=
  match s with
  | String h (String c (String m1 (String m2 EmptyString))) =>
      JS.isDigit h && Ascii.eqb c ":" && isMinuteTens m1 && JS.isDigit m2
  | String h1 (String h2 (String c (String m1 (String m2 EmptyString)))) =>
      isHourUnits h1 h2 && Ascii.eqb c ":" && isMinuteTens m1 && JS.isDigit m2
  | _ => false
  end.

(** The schema's [enum: [15, 20, 30, 45, 60]] on [slotDuration]. *)
Definition slotDurationEnum : list Z := [15; 20; 30; 45; 60].

(** An availability sub-document that passes schema validation. *)
Definition validAvailability (a : Availability) : bool :=
  matchTime (startTime a) && matchTime (endTime a)
  && matchTime (breakStart a) && matchTime (breakEnd a)
  && existsb (Z.eqb (slotDuration a)) slotDurationEnum.

(** The object returned by [checkAvailability]. *)
Record AvailabilityResult := {
  available : bool;
  reason : option string
}.

Section WithDates.

(** Dates are opaque here; [weekdayLong d] stands for
    [new Date(d).toLocaleString('en', { weekday: 'long' }).toLowerCase()]. *)
Variable Date : Type.
Variable weekdayLong : Date -> string.

Definition checkAvailability (this : t) (date : Date) (time : string)
  : AvailabilityResult :=
  if negb (isAvailable this) || negb (String.eqb (status this) "active") then
    {| available := false; reason := Some "Doctor is not available" |}
  else
    let dayName := weekdayLong date in
    if negb (JS.includes (workingDays (availability this)) dayName) then
      {| available := false; reason := Some "Doctor does not work on this day" |}
    else
      let appointmentTime := JS.minutesOf time in
      let workStart := JS.minutesOf (startTime (availability this)) in
      let workEnd := JS.minutesOf (endTime (availability this)) in
      let breakStart_ := JS.minutesOf (breakStart (availability this)) in
      let breakEnd_ := JS.minutesOf (breakEnd (availability this)) in
      if JS.lt appointmentTime workStart || JS.ge appointmentTime workEnd then
        {| available := false; reason := Some "Outside working hours" |}
      else if JS.ge appointmentTime breakStart_
              && JS.lt appointmentTime breakEnd_ then
        {| available := false; reason := Some "During break time" |}
      else
        {| available := true; reason := None |}.

(** The template literal of [generateTimeSlots]:
    [`${hour.toString().padStart(2,'0')}:${minute.toString().padStart(2,'0')}`]
    with [hour = Math.floor(currentTime / 60)] and
    [minute = currentTime % 60]. *)
Definition timeString (currentTime : Z) : string :=
  let hour := currentTime / 60 in
  let minute := Z.rem currentTime 60 in
  (JS.padStart0 2 (JS.toString hour) ++ ":"
   ++ JS.padStart0 2 (JS.toString minute))%string.

(** The constants and the two mutable variables of the [while] loop. *)
Record LoopEnv := {
  env_slotDuration : JS.num;
  env_endTime : JS.num;
  env_breakStart : JS.num;
  env_breakEnd : JS.num
}.

Record LoopState := {
  currentTime : JS.num;
  slots : list string
}.

(** [currentTime + slotDuration <= endTime]. *)
Definition loopGuard (e : LoopEnv) (st : LoopState) : bool :=
  JS.le (JS.add (currentTime st) (env_slotDuration e)) (env_endTime e).

(** One pass through the loop body. *)
Definition loopBody (e : LoopEnv) (st : LoopState) : LoopState :=
  if JS.ge (currentTime st) (env_breakStart e)
     && JS.lt (currentTime st) (env_breakEnd e) then
    {| currentTime := env_breakEnd e; slots := slots st |}
  else
    {| currentTime := JS.add (currentTime st) (env_slotDuration e);
       slots := slots st
                ++ [match currentTime st with
                    | Some c => timeString c
                    | None => "NaN:NaN"
                    end] |}.

(** The [while] loop, run for at most [fuel] tests of its guard; [None]
    when the fuel does not suffice to reach a false guard. *)
Fixpoint while (fuel : nat) (e : LoopEnv) (st : LoopState)
  : option LoopState :=
  match fuel with
  | O => None
  | S fuel' =>
      if loopGuard e st then while fuel' e (loopBody e st) else Some st
  end.

Definition loopEnvOf (a : Availability) : LoopEnv :=
  {| env_slotDuration := Some (slotDuration a);
     env_endTime := JS.minutesOf (endTime a);
     env_breakStart := JS.minutesOf (breakStart a);
     env_breakEnd := JS.minutesOf (breakEnd a) |}.

Definition generateTimeSlots (fuel : nat) (this : t) (date : Date)
  : option (list string) :=
  let dayName := weekdayLong date in
  if negb (JS.includes (workingDays (availability this)) dayName) then Some []
  else
    let a := availability this in
    match while fuel (loopEnvOf a)
            {| currentTime := JS.minutesOf (startTime a); slots := [] |} with
    | Some st => Some (slots st)
    | None => None
    end.

End WithDates.

(** The [set] option of [rating.average]:
    [value => Math.round(value * 10) / 10], with [Math.round] rounding
    halves up. *)
Definition mathRound (x : Q) : Z := Qfloor (x + (1 # 2))%Q.

Definition averageSetter (value : Q) : Q :=
  (inject_Z (mathRound (value * inject_Z 10)) / inject_Z 10)%Q.

Definition getCount (b : Breakdown) (k : Z) : Z :=
  if k =? 1 then b1 b else if k =? 2 then b2 b else if k =? 3 then b3 b
  else if k =? 4 then b4 b else b5 b.

(** [breakdown[k] = v] for a key between 1 and 5. *)
Definition setCount (b : Breakdown) (k v : Z) : Breakdown :=
  if k =? 1 then {| b1 := v; b2 := b2 b; b3 := b3 b; b4 := b4 b; b5 := b5 b |}
  else if k =? 2 then
    {| b1 := b1 b; b2 := v; b3 := b3 b; b4 := b4 b; b5 := b5 b |}
  else if k =? 3 then
    {| b1 := b1 b; b2 := b2 b; b3 := v; b4 := b4 b; b5 := b5 b |}
  else if k =? 4 then
    {| b1 := b1 b; b2 := b2 b; b3 := b3 b; b4 := v; b5 := b5 b |}
  else {| b1 := b1 b; b2 := b2 b; b3 := b3 b; b4 := b4 b; b5 := v |}.

(** [Object.entries(breakdown)]: integer-like keys come in ascending
    order. *)
Definition entries (b : Breakdown) : list (Z * Z) :=
  [(1, b1 b); (2, b2 b); (3, b3 b); (4, b4 b); (5, b5 b)].

Definition values (b : Breakdown) : list Z := map snd (entries b).

(** What a call of [updateRating] leaves behind: the error thrown, if any,
    and the rating sub-document afterwards. *)
Record UpdateOutcome := {
  thrown : option string;
  ratingAfter : Rating
}.

Definition updateRating (this : Rating) (newRating : Z) : UpdateOutcome :=
  if (newRating <? 1) || (newRating >? 5) then
    {| thrown := Some "Rating must be between 1 and 5"; ratingAfter := this |}
  else
    let breakdown' :=
      setCount (breakdown this) newRating
               (getCount (breakdown this) newRating + 1) in
    let totalRatings :=
      fold_left (fun sum count => sum + count) (values breakdown') 0 in
    let totalScore :=
      fold_left (fun sum '(rating, count) => sum + rating * count)
                (entries breakdown') 0 in
    {| thrown := None;
       ratingAfter :=
         {| average :=
              averageSetter (inject_Z totalScore / inject_Z totalRatings)%Q;
            totalReviews := totalRatings;
            breakdown := breakdown' |} |}.

End Doctor.

(** ** models/Appointment.js *)

Module Appointment.

(** A stored appointment document, with the fields the scheduling code
    reads.  Dates are timestamps; identifiers are strings. *)
Record t := {
  _id : string;
  appointmentId : string;
  patient : string;
  patientId : string;
  doctor : string;
  doctorId : string;
  appointmentDate : Z;
  appointmentTime : string;
  duration : Z;
  status : string;
  reason : string
}.

(** The schema's [enum] on [status]. *)
Definition statusEnum : list string :=
  ["scheduled"; "confirmed"; "checked-in"; "in-progress"; "completed";
   "cancelled"; "no-show"].

(** The [$in] list of [findConflicts]. *)
Definition conflictStatuses : list string :=
  ["scheduled"; "confirmed"; "checked-in"; "in-progress"].

(** [apt.duration || 30]. *)
Definition aptDuration (apt : t) : Z :=
  if duration apt =? 0 then 30 else duration apt.

Definition findConflicts (collection : list t) (doctorId_ : string)
    (date : Z) (time : string) (duration_ : option Z)
    (excludeAppointmentId : option string) : list t :=
  let duration_ := match duration_ with Some d => d | None => 30 end in
  let appointmentDate_ := date in
  let startTime := JS.minutesOf time in
  let endTime := JS.add startTime (Some duration_) in
  let filter_ (apt : t) : bool :=
    String.eqb (doctorId apt) doctorId_
    && (appointmentDate apt =? appointmentDate_)
    && JS.includes conflictStatuses (status apt)
    && match excludeAppointmentId with
       | Some ex => if JS.truthy (Some ex) then negb (String.eqb (_id apt) ex)
                    else true
       | None => true
       end in
  let appointments := filter filter_ collection in
  filter (fun apt =>
            let aptStartTime := JS.minutesOf (appointmentTime apt) in
            let aptEndTime := JS.add aptStartTime (Some (aptDuration apt)) in
            JS.lt startTime aptEndTime && JS.gt endTime aptStartTime)
         appointments.

(** A document as handed to [new Appointment(...)] or
    [Appointment.create(...)]: any field may be missing. *)
Record Draft := {
  d_appointmentId : option string;
  d_patient : option string;
  d_patientId : option string;
  d_doctor : option string;
  d_doctorId : option string;
  d_appointmentDate : option Z;
  d_appointmentTime : option string;
  d_duration : option Z;
  d_status : option string;
  d_reason : option string
}.

Inductive SaveError := ValidationError | DuplicateKey.

(** A [required] string path: present and not empty. *)
Definition requiredString (s : option string) : option string :=
  if JS.truthy s then s else None.

(** Schema defaults and validators that run on [save]: the [required]
    paths (with [trim] on [reason]), [min]/[max] on [duration] and the
    [enum] on [status]; the other enumerated paths are taken at their
    defaults.
    [newId] is the [_id] the driver assigns and [defaultAppointmentId] the
    value the schema default produces at that moment. *)
Definition validate (newId defaultAppointmentId : string) (d : Draft)
  : option t :=
  match requiredString (d_patient d), requiredString (d_patientId d),
        requiredString (d_doctor d), requiredString (d_doctorId d),
        d_appointmentDate d, requiredString (d_appointmentTime d),
        requiredString (option_map JS.trim (d_reason d)) with
  | Some p, Some pid, Some doc, Some did, Some date, Some time, Some r =>
      let dur := match d_duration d with Some n => n | None => 30 end in
      let st := match d_status d with Some s => s | None => "scheduled" end in
      if (15 <=? dur) && (dur <=? 120) && JS.includes statusEnum st then
        Some {| _id := newId;
                appointmentId :=
                  match d_appointmentId d with
                  | Some a => a
                  | None => defaultAppointmentId
                  end;
                patient := p; patientId := pid; doctor := doc;
                doctorId := did; appointmentDate := date;
                appointmentTime := time; duration := dur; status := st;
                reason := r |}
      else None
  | _, _, _, _, _, _, _ => None
  end.

(** Inserting a new document: validation, then the unique index on
    [appointmentId]. *)
Definition insert (newId defaultAppointmentId : string) (d : Draft)
    (collection : list t) : SaveError + list t :=
  match validate newId defaultAppointmentId d with
  | None => inl ValidationError
  | Some apt =>
      if existsb (fun a => String.eqb (appointmentId a) (appointmentId apt))
                 collection
      then inl DuplicateKey
      else inr (collection ++ [apt])%list
  end.

Definition draftOf (apt : t) : Draft :=
  {| d_appointmentId := Some (appointmentId apt);
     d_patient := Some (patient apt);
     d_patientId := Some (patientId apt);
     d_doctor := Some (doctor apt);
     d_doctorId := Some (doctorId apt);
     d_appointmentDate := Some (appointmentDate apt);
     d_appointmentTime := Some (appointmentTime apt);
     d_duration := Some (duration apt);
     d_status := Some (status apt);
     d_reason := Some (reason apt) |}.

(** Saving a loaded document after modification: validation, then the
    stored copy with the same [_id] is replaced. *)
Definition update (apt : Draft) (id : string) (collection : list t)
  : SaveError + list t :=
  match validate id "" apt with
  | None => inl ValidationError
  | Some apt' =>
      inr (map (fun a => if String.eqb (_id a) id then apt' else a)
               collection)
  end.

Definition findById (collection : list t) (id : string) : option t :=
  find (fun a => String.eqb (_id a) id) collection.

End Appointment.

(** ** models/Patient.js *)

Module Patient.

(** A stored patient document, with the fields the handlers and the
    validators read.  [dateOfBirth] is a timestamp; it is optional here
    because the [age] virtual provides for its absence. *)
Record t := {
  _id : string;
  patientId : string;
  user : option string;
  firstName : string;
  lastName : string;
  dateOfBirth : option Z;
  gender : string;
  idNumber : string;
  email : string;
  phone : string;
  address : string;
  city : string;
  emergencyName : string;
  emergencyPhone : string;
  emergencyRelationship : string;
  paymentMethod : string;
  maritalStatus : option string
}.

Section Calendar.

(** [Date.prototype.getFullYear], [getMonth] (0 to 11) and [getDate] of a
    timestamp, in the server's time zone. *)
Variables getFullYear getMonth getDate : Z -> Z.

(** The [age] virtual; [now] is the value of [new Date()] and [None] is
    [null]. *)
Definition age (now : Z) (this : t) : option Z :=
  match dateOfBirth this with
  | None => None
  | Some birthDate =>
      let today := now in
      let age := getFullYear today - getFullYear birthDate in
      let monthDiff := getMonth today - getMonth birthDate in
      if (monthDiff <? 0)
         || ((monthDiff =? 0) && (getDate today <? getDate birthDate))
      then Some (age - 1)
      else Some age
  end.

End Calendar.

Definition genderEnum : list string :=
  ["male"; "female"; "other"; "prefer-not-to-say"].

Definition paymentMethodEnum : list string :=
  ["insurance"; "sha"; "cash"; "bank"; "mobile"; "credit"; "debit"; "other"].

Definition maritalStatusEnum : list string :=
  ["single"; "married"; "divorced"; "widowed"; ""].

(** The [lowercase: true, trim: true] setters of the [email] path; Mongoose
    applies them to assigned values and to query filters alike. *)
Definition emailSetter (s : string) : string := JS.trim (JS.toLowerCase s).

(** A document as handed to [new Patient(...)]. *)
Record Draft := {
  d_patientId : option string;
  d_user : option string;
  d_firstName : option string;
  d_lastName : option string;
  d_dateOfBirth : option Z;
  d_gender : option string;
  d_idNumber : option string;
  d_email : option string;
  d_phone : option string;
  d_address : option string;
  d_city : option string;
  d_emergencyName : option string;
  d_emergencyPhone : option string;
  d_emergencyRelationship : option string;
  d_paymentMethod : option string;
  d_maritalStatus : option string
}.

Inductive SaveError := ValidationError | DuplicateKey.

Definition requiredString (s : option string) : option string :=
  if JS.truthy s then s else None.

Definition requiredEnum (allowed : list string) (s : option string)
  : option string :=
  match requiredString s with
  | Some v => if JS.includes allowed v then Some v else None
  | None => None
  end.

(** Setters, defaults and validators that run on [save].  [newId] is the
    [_id] the driver assigns and [generatedPatientId] the value
    [generatePatientId()] returns at that moment.  Paths that cannot fail
    validation in either handler ([bloodType], which both normalise to a
    value of its enum, and the optional ones) are left out. *)
Definition validate (newId generatedPatientId : string) (d : Draft)
  : option t :=
  match requiredString (match d_patientId d with
                        | Some p => Some p
                        | None => Some generatedPatientId
                        end),
        requiredString (option_map JS.trim (d_firstName d)),
        requiredString (option_map JS.trim (d_lastName d)),
        d_dateOfBirth d,
        requiredEnum genderEnum (d_gender d),
        requiredString (d_idNumber d),
        requiredString (option_map emailSetter (d_email d)) with
  | Some pid, Some fn, Some ln, Some dob, Some g, Some idn, Some em =>
      match requiredString (d_phone d), requiredString (d_address d),
            requiredString (d_city d), requiredString (d_emergencyName d),
            requiredString (d_emergencyPhone d),
            requiredString (d_emergencyRelationship d),
            requiredEnum paymentMethodEnum (d_paymentMethod d) with
      | Some ph, Some ad, Some ci, Some en, Some ep, Some er, Some pm =>
          let ms := d_maritalStatus d in
          if match ms with
             | Some m => JS.includes maritalStatusEnum m
             | None => true
             end then
            Some {| _id := newId; patientId := pid; user := d_user d;
                    firstName := fn; lastName := ln; dateOfBirth := Some dob;
                    gender := g; idNumber := idn; email := em; phone := ph;
                    address := ad; city := ci; emergencyName := en;
                    emergencyPhone := ep; emergencyRelationship := er;
                    paymentMethod := pm; maritalStatus := ms |}
          else None
      | _, _, _, _, _, _, _ => None
      end
  | _, _, _, _, _, _, _ => None
  end.

(** [save()] of a new document: validation, then the unique indexes on
    [patientId], [idNumber] and [email]. *)
Definition insert (newId generatedPatientId : string) (d : Draft)
    (collection : list t) : SaveError + list t :=
  match validate newId generatedPatientId d with
  | None => inl ValidationError
  | Some p =>
      if existsb (fun q => String.eqb (patientId q) (patientId p)
                           || String.eqb (idNumber q) (idNumber p)
                           || String.eqb (email q) (email p)) collection
      then inl DuplicateKey
      else inr (collection ++ [p])%list
  end.

(** [Patient.findOne({ $or: [{ email }, { idNumber }] })]; a filter value
    that is [undefined] matches no stored document, since both paths are
    required. *)
Definition findOneByEmailOrIdNumber (collection : list t)
    (email_ idNumber_ : option string) : option t :=
  find (fun p =>
          match email_ with
          | Some e => String.eqb (email p) (emailSetter e)
          | None => false
          end
          || match idNumber_ with
             | Some i => String.eqb (idNumber p) i
             | None => false
             end)
       collection.

Definition findOneByPatientId (collection : list t) (pid : string)
  : option t :=
  find (fun p => String.eqb (patientId p) pid) collection.


End Patient.

(** ** routes/patientRoutes.js: creating patients *)

Module PatientRoutes.

(** What a handler sends back. *)
Record Response := { statusCode : Z; message : string }.

Section Handlers.

(** [new Date(s)] for a request string; [None] is an invalid date. *)
Variable parseDate : string -> option Z.

(** The body of [POST /api/patients], shaped like the schema. *)
Record PatientData := {
  pd_patientId : option string;
  pd_firstName : option string;
  pd_lastName : option string;
  pd_dateOfBirth : option string;
  pd_gender : option string;
  pd_idNumber : option string;
  pd_email : option string;
  pd_phone : option string;
  pd_address : option string;
  pd_city : option string;
  pd_emergencyName : option string;
  pd_emergencyPhone : option string;
  pd_emergencyRelationship : option string;
  pd_paymentMethod : option string;
  pd_maritalStatus : option string
}.

Definition castDate (s : option string) : option Z :=
  match s with Some v => parseDate v | None => None end.

(** [POST /api/patients]. *)
Definition createPatient (newId generatedPatientId : string)
    (patientData : PatientData) (collection : list Patient.t)
  : Response * list Patient.t :=
  match Patient.findOneByEmailOrIdNumber collection
          (pd_email patientData) (pd_idNumber patientData) with
  | Some _ =>
      ({| statusCode := 400;
          message := "Patient with this email or ID number already exists" |},
       collection)
  | None =>
      let patient :=
        {| Patient.d_patientId := pd_patientId patientData;
           Patient.d_user := None;
           Patient.d_firstName := pd_firstName patientData;
           Patient.d_lastName := pd_lastName patientData;
           Patient.d_dateOfBirth := castDate (pd_dateOfBirth patientData);
           Patient.d_gender := pd_gender patientData;
           Patient.d_idNumber := pd_idNumber patientData;
           Patient.d_email := pd_email patientData;
           Patient.d_phone := pd_phone patientData;
           Patient.d_address := pd_address patientData;
           Patient.d_city := pd_city patientData;
           Patient.d_emergencyName := pd_emergencyName patientData;
           Patient.d_emergencyPhone := pd_emergencyPhone patientData;
           Patient.d_emergencyRelationship :=
             pd_emergencyRelationship patientData;
           Patient.d_paymentMethod := pd_paymentMethod patientData;
           Patient.d_maritalStatus := pd_maritalStatus patientData |} in
      match Patient.insert newId generatedPatientId patient collection with
      | inr collection' =>
          ({| statusCode := 201; message := "" |}, collection')
      | inl _ =>
          ({| statusCode := 500; message := "Error creating patient" |},
           collection)
      end
  end.

(** The fields [POST /api/patients/register] destructures from the
    body. *)
Record RegisterBody := {
  rb_firstName : option string;
  rb_lastName : option string;
  rb_dateOfBirth : option string;
  rb_gender : option string;
  rb_idNumber : option string;
  rb_email : option string;
  rb_phone : option string;
  rb_address : option string;
  rb_city : option string;
  rb_emergencyContact : option string;
  rb_emergencyPhone : option string;
  rb_emergencyRelationship : option string;
  rb_paymentMethod : option string;
  rb_maritalStatus : option string
}.

(** [x ? x.trim() : 'Not provided']. *)
Definition trimOrNotProvided (x : option string) : string :=
  match x with
  | Some v => if JS.truthy x then JS.trim v else "Not provided"
  | None => "Not provided"
  end.

(** [x || dflt]. *)
Definition orDefault (x : option string) (dflt : string) : string :=
  match x with
  | Some v => if JS.truthy x then v else dflt
  | None => dflt
  end.

(** [POST /api/patients/register]. *)
Definition register (newId generatedPatientId : string)
    (body : RegisterBody) (collection : list Patient.t)
  : Response * list Patient.t :=
  match rb_firstName body, rb_lastName body, rb_dateOfBirth body,
        rb_gender body, rb_idNumber body, rb_email body, rb_phone body,
        rb_address body, rb_city body with
  | Some firstName, Some lastName, Some dateOfBirth, Some gender,
    Some idNumber, Some email, Some phone, Some address, Some city =>
      if negb (JS.truthy (Some firstName)) || negb (JS.truthy (Some lastName))
         || negb (JS.truthy (Some dateOfBirth))
         || negb (JS.truthy (Some gender)) || negb (JS.truthy (Some idNumber))
         || negb (JS.truthy (Some email)) || negb (JS.truthy (Some phone))
         || negb (JS.truthy (Some address)) || negb (JS.truthy (Some city))
      then
        ({| statusCode := 400; message := "Missing required fields" |},
         collection)
      else
        match Patient.findOneByEmailOrIdNumber collection
                (Some (JS.trim (JS.toLowerCase email)))
                (Some (JS.trim idNumber)) with
        | Some _ =>
            ({| statusCode := 400;
                message :=
                  "Patient with this email or ID number already exists" |},
             collection)
        | None =>
            let newPatient :=
              {| Patient.d_patientId := None;
                 Patient.d_user := None;
                 Patient.d_firstName := Some (JS.trim firstName);
                 Patient.d_lastName := Some (JS.trim lastName);
                 Patient.d_dateOfBirth := parseDate dateOfBirth;
                 Patient.d_gender := Some gender;
                 Patient.d_idNumber := Some (JS.trim idNumber);
                 Patient.d_email := Some (JS.trim (JS.toLowerCase email));
                 Patient.d_phone := Some (JS.trim phone);
                 Patient.d_address := Some (JS.trim address);
                 Patient.d_city := Some (JS.trim city);
                 Patient.d_emergencyName :=
                   Some (trimOrNotProvided (rb_emergencyContact body));
                 Patient.d_emergencyPhone :=
                   Some (trimOrNotProvided (rb_emergencyPhone body));
                 Patient.d_emergencyRelationship :=
                   Some (trimOrNotProvided (rb_emergencyRelationship body));
                 Patient.d_paymentMethod :=
                   Some (orDefault (rb_paymentMethod body) "cash");
                 Patient.d_maritalStatus :=
                   Some (orDefault (rb_maritalStatus body) "single") |} in
            match Patient.insert newId generatedPatientId newPatient
                    collection with
            | inr collection' =>
                ({| statusCode := 201;
                    message := "Patient registered successfully" |},
                 collection')
            | inl Patient.ValidationError =>
                ({| statusCode := 400; message := "Validation failed" |},
                 collection)
            | inl Patient.DuplicateKey =>
                ({| statusCode := 400;
                    message :=
                      "Patient with this email or ID number already exists" |},
                 collection)
            end
        end
  | _, _, _, _, _, _, _, _, _ =>
      ({| statusCode := 400; message := "Missing required fields" |},
       collection)
  end.

End Handlers.

End PatientRoutes.

(** ** Authentication and authorization middleware *)

Module Auth.

(** The claims a token carries, as far as the middleware reads them. *)
Record Payload := { p_id : string; p_role : option string }.

(** The outcome of [jwt.verify]: the decoded payload, or the error it
    throws. *)
Inductive Verified :=
| Decoded (payload : Payload)
| JsonWebTokenError
| TokenExpiredError.

(** What the middleware attaches to the request ([req.user],
    [req.patient]). *)
Record ReqUser := { u_id : string; u_role : option string }.

(** A middleware either answers the request itself or calls [next()]. *)
Inductive Outcome :=
| Rejected (statusCode : Z) (message : string)
| Next (user : ReqUser).

(** An account found by [findById]; [isActive] may be missing. *)
Record Account := { acc_id : string; acc_isActive : option bool }.

Section WithJwt.

(** [jwt.verify(token, secret)] with the server's secret. *)
Variable verify : string -> Verified.

(** [Patient.findById], [Doctor.findById] or [User.findById], chosen by
    the role in the token. *)
Variable findById : option string -> string -> option Account.

(** [authHeader && authHeader.split(' ')[1]] of patientRoutes.js. *)
Definition tokenOfHeader (authHeader : option string) : option string :=
  match authHeader with
  | Some h => if JS.truthy authHeader then nth_error (JS.split " " h) 1
              else authHeader
  | None => None
  end.

(** [authenticateToken] of routes/patientRoutes.js. *)
Definition authenticateToken (authHeader : option string) : Outcome :=
  let token := tokenOfHeader authHeader in
  match token with
  | Some tok =>
      if negb (JS.truthy token) then Rejected 401 "Access token required"
      else
        match verify tok with
        | Decoded patient =>
            Next {| u_id := p_id patient; u_role := p_role patient |}
        | _ => Rejected 403 "Invalid or expired token"
        end
  | None => Rejected 401 "Access token required"
  end.

(** Token extraction of middleware/auth.js. *)
Definition tokenOfAuthorization (authorization : option string)
  : option string :=
  match authorization with
  | Some h =>
      if JS.truthy authorization && JS.startsWith "Bearer" h then
        nth_error (JS.split " " h) 1
      else if JS.truthy authorization then Some (JS.removeFirst "Bearer " h)
      else None
  | None => None
  end.

(** [auth] of middleware/auth.js, the universal authentication
    middleware. *)
Definition auth (authorization : option string) : Outcome :=
  let token := tokenOfAuthorization authorization in
  match token with
  | Some tok =>
      if negb (JS.truthy token) then
        Rejected 401 "Access denied. No token provided."
      else
        match verify tok with
        | Decoded decoded =>
            match findById (p_role decoded) (p_id decoded) with
            | None => Rejected 401 "User no longer exists"
            | Some user =>
                match acc_isActive user with
                | Some false =>
                    Rejected 401
                      "Account is deactivated. Please contact administration."
                | _ => Next {| u_id := acc_id user;
                               u_role := p_role decoded |}
                end
            end
        | JsonWebTokenError => Rejected 401 "Invalid token"
        | TokenExpiredError =>
            Rejected 401 "Token has expired. Please login again."
        end
  | None => Rejected 401 "Access denied. No token provided."
  end.

End WithJwt.

(** [roles.includes(req.user.role)]. *)
Definition roleIncluded (roles : list string) (role : option string) : bool :=
  match role with
  | Some r => JS.includes roles r
  | None => false
  end.

(** [authorize(...roles)] of middleware/auth.js; [None] is a request on
    which no [req.user] was set. *)
Definition authorize (roles : list string) (reqUser : option ReqUser)
  : Outcome :=
  match reqUser with
  | None => Rejected 401 "Authentication required"
  | Some u =>
      if negb (roleIncluded roles (u_role u)) then
        Rejected 403 "Access denied."
      else Next u
  end.





End Auth.

(** ** Appointment write operations *)

Module AppointmentWrites.

Record Db := {
  patients : list Patient.t;
  appointments : list Appointment.t
}.

Definition withAppointments (db : Db) (apts : list Appointment.t) : Db :=
  {| patients := patients db; appointments := apts |}.


(** The body of [POST /api/patients/:patientId/appointments/book]. *)
Record BookBody := {
  bb_doctorId : option string;
  bb_appointmentDate : option Z;
  bb_appointmentTime : option string;
  bb_reason : option string
}.

(** [POST /:patientId/appointments/book] of routes/patientRoutes.js;
    [generatedAppointmentId] is the identifier built from the clock and
    [Math.random()]. *)
Definition book (newId generatedAppointmentId : string)
    (patientId : string) (body : BookBody) (db : Db) : Z * Db :=
  match Patient.findOneByPatientId (patients db) patientId with
  | None => (404, db)
  | Some patient =>
      let appointment :=
        {| Appointment.d_appointmentId := Some generatedAppointmentId;
           Appointment.d_patient := Some (Patient._id patient);
           Appointment.d_patientId := Some (Patient.patientId patient);
           Appointment.d_doctor := None;
           Appointment.d_doctorId := bb_doctorId body;
           Appointment.d_appointmentDate := bb_appointmentDate body;
           Appointment.d_appointmentTime := bb_appointmentTime body;
           Appointment.d_duration := Some 30;
           Appointment.d_status := Some "scheduled";
           Appointment.d_reason := bb_reason body |} in
      match Appointment.insert newId "" appointment (appointments db) with
      | inr apts => (201, withAppointments db apts)
      | inl _ => (500, db)
      end
  end.

(** [PUT /appointments/:appointmentId/reschedule] of
    routes/patientRoutes.js. *)
Definition reschedule (appointmentId : string) (newDate : Z)
    (newTime : string) (db : Db) : Z * Db :=
  match Appointment.findById (appointments db) appointmentId with
  | None => (404, db)
  | Some appointment =>
      let conflictingAppointment :=
        find (fun a =>
                String.eqb (Appointment.doctorId a)
                           (Appointment.doctorId appointment)
                && (Appointment.appointmentDate a =? newDate)
                && String.eqb (Appointment.appointmentTime a) newTime
                && JS.includes ["scheduled"; "confirmed"]
                                   (Appointment.status a)
                && negb (String.eqb (Appointment._id a) appointmentId))
             (appointments db) in
      match conflictingAppointment with
      | Some _ => (409, db)
      | None =>
          let d := Appointment.draftOf appointment in
          let d' :=
            {| Appointment.d_appointmentId := Appointment.d_appointmentId d;
               Appointment.d_patient := Appointment.d_patient d;
               Appointment.d_patientId := Appointment.d_patientId d;
               Appointment.d_doctor := Appointment.d_doctor d;
               Appointment.d_doctorId := Appointment.d_doctorId d;
               Appointment.d_appointmentDate := Some newDate;
               Appointment.d_appointmentTime := Some newTime;
               Appointment.d_duration := Appointment.d_duration d;
               Appointment.d_status := Some "rescheduled";
               Appointment.d_reason := Appointment.d_reason d |} in
          match Appointment.update d' appointmentId (appointments db) with
          | inr apts => (200, withAppointments db apts)
          | inl _ => (500, db)
          end
      end
  end.




(** Two stored appointments double-book a doctor when they are distinct
    documents of the same doctor and date, both with a status that counts
    for conflicts, and their intervals meet. *)
Definition doubleBooked (a b : Appointment.t) : bool :=
  negb (String.eqb (Appointment._id a) (Appointment._id b))
  && String.eqb (Appointment.doctorId a) (Appointment.doctorId b)
  && (Appointment.appointmentDate a =? Appointment.appointmentDate b)
  && JS.includes Appointment.conflictStatuses (Appointment.status a)
  && JS.includes Appointment.conflictStatuses (Appointment.status b)
  && match JS.minutesOf (Appointment.appointmentTime a),
           JS.minutesOf (Appointment.appointmentTime b) with
     | Some sa, Some sb =>
         (sa <? sb + Appointment.aptDuration b)
         && (sb <? sa + Appointment.aptDuration a)
     | _, _ => false
     end.

Definition noDoubleBooking (db : Db) : Prop :=
  forall a b, In a (appointments db) -> In b (appointments db) ->
              doubleBooked a b = false.

End AppointmentWrites.

(** ** Sample data *)

Module Samples.

(** A day number read as a weekday, and a date written [yyyymmdd] read
    through calendar getters. *)
Definition weekdayOfDay (d : Z) : string :=
  if d mod 7 =? 0 then "sunday"
  else if d mod 7 =? 6 then "saturday"
  else "monday".

Definition yearOf (d : Z) : Z := d / 10000.
Definition monthOf (d : Z) : Z := (d / 100) mod 100 - 1.
Definition dayOf (d : Z) : Z := d mod 100.

Definition doctor : Doctor.t :=
  {| Doctor.availability :=
       {| Doctor.workingDays := ["monday"; "tuesday"; "wednesday"];
          Doctor.startTime := "09:00";
          Doctor.endTime := "17:00";
          Doctor.breakStart := "13:00";
          Doctor.breakEnd := "14:00";
          Doctor.slotDuration := 30 |};
     Doctor.isAvailable := true;
     Doctor.status := "active";
     Doctor.rating :=
       {| Doctor.average := (9 # 2)%Q;
          Doctor.totalReviews := 2;
          Doctor.breakdown :=
            {| Doctor.b1 := 0; Doctor.b2 := 0; Doctor.b3 := 0;
               Doctor.b4 := 1; Doctor.b5 := 1 |} |} |}.

Definition appointment (id time status_ : string) (duration_ : Z)
  : Appointment.t :=
  {| Appointment._id := id;
     Appointment.appointmentId := ("APT" ++ id)%string;
     Appointment.patient := "p1";
     Appointment.patientId := "PAT001";
     Appointment.doctor := "d1";
     Appointment.doctorId := "DOC001";
     Appointment.appointmentDate := 20250310;
     Appointment.appointmentTime := time;
     Appointment.duration := duration_;
     Appointment.status := status_;
     Appointment.reason := "checkup" |}.

Definition appointmentBook : list Appointment.t :=
  [appointment "a1" "09:00" "scheduled" 30;
   appointment "a2" "09:30" "cancelled" 30;
   appointment "a3" "10:00" "confirmed" 45].






Definition parseDate (s : string) : option Z :=
  match s with
  | EmptyString => None
  | _ => Some 19900101
  end.

(** A body for [POST /api/patients] whose idNumber carries a leading
    space, and a registration that sends the same idNumber. *)
Definition patientData : PatientRoutes.PatientData :=
  {| PatientRoutes.pd_patientId := None;
     PatientRoutes.pd_firstName := Some "Amina";
     PatientRoutes.pd_lastName := Some "Otieno";
     PatientRoutes.pd_dateOfBirth := Some "1990-01-01";
     PatientRoutes.pd_gender := Some "female";
     PatientRoutes.pd_idNumber := Some " 123";
     PatientRoutes.pd_email := Some "a@x.com";
     PatientRoutes.pd_phone := Some "0700000000";
     PatientRoutes.pd_address := Some "1 Main St";
     PatientRoutes.pd_city := Some "Nairobi";
     PatientRoutes.pd_emergencyName := Some "Kin";
     PatientRoutes.pd_emergencyPhone := Some "0711111111";
     PatientRoutes.pd_emergencyRelationship := Some "sibling";
     PatientRoutes.pd_paymentMethod := Some "cash";
     PatientRoutes.pd_maritalStatus := None |}.

Definition registerBody : PatientRoutes.RegisterBody :=
  {| PatientRoutes.rb_firstName := Some "Brian";
     PatientRoutes.rb_lastName := Some "Mwangi";
     PatientRoutes.rb_dateOfBirth := Some "1985-05-05";
     PatientRoutes.rb_gender := Some "male";
     PatientRoutes.rb_idNumber := Some " 123";
     PatientRoutes.rb_email := Some "b@x.com";
     PatientRoutes.rb_phone := Some "0722222222";
     PatientRoutes.rb_address := Some "2 Side St";
     PatientRoutes.rb_city := Some "Kisumu";
     PatientRoutes.rb_emergencyContact := None;
     PatientRoutes.rb_emergencyPhone := None;
     PatientRoutes.rb_emergencyRelationship := None;
     PatientRoutes.rb_paymentMethod := None;
     PatientRoutes.rb_maritalStatus := None |}.

(** The collection after the first request. *)
Definition patientsAfterCreate : list Patient.t :=
  snd (PatientRoutes.createPatient parseDate "p1" "PAT000001" patientData []).

Definition storedPatient : Patient.t :=
  {| Patient._id := "p1"; Patient.patientId := "PAT000001";
     Patient.user := None; Patient.firstName := "Amina";
     Patient.lastName := "Otieno"; Patient.dateOfBirth := Some 19900101;
     Patient.gender := "female"; Patient.idNumber := " 123";
     Patient.email := "a@x.com"; Patient.phone := "0700000000";
     Patient.address := "1 Main St"; Patient.city := "Nairobi";
     Patient.emergencyName := "Kin"; Patient.emergencyPhone := "0711111111";
     Patient.emergencyRelationship := "sibling";
     Patient.paymentMethod := "cash"; Patient.maritalStatus := None |}.

(** A registration that repeats the stored email in upper case. *)
Definition registerSameEmail : PatientRoutes.RegisterBody :=
  {| PatientRoutes.rb_firstName := Some "Brian";
     PatientRoutes.rb_lastName := Some "Mwangi";
     PatientRoutes.rb_dateOfBirth := Some "1985-05-05";
     PatientRoutes.rb_gender := Some "male";
     PatientRoutes.rb_idNumber := Some "456";
     PatientRoutes.rb_email := Some " A@X.com";
     PatientRoutes.rb_phone := Some "0722222222";
     PatientRoutes.rb_address := Some "2 Side St";
     PatientRoutes.rb_city := Some "Kisumu";
     PatientRoutes.rb_emergencyContact := None;
     PatientRoutes.rb_emergencyPhone := None;
     PatientRoutes.rb_emergencyRelationship := None;
     PatientRoutes.rb_paymentMethod := None;
     PatientRoutes.rb_maritalStatus := None |}.

(** A verifier that accepts one token, finds one expired, and rejects the
    rest. *)
Definition verify (token : string) : Auth.Verified :=
  if String.eqb token "good" then
    Auth.Decoded {| Auth.p_id := "p1"; Auth.p_role := Some "patient" |}
  else if String.eqb token "old" then Auth.TokenExpiredError
  else Auth.JsonWebTokenError.

Definition findById (role : option string) (id : string)
  : option Auth.Account :=
  Some {| Auth.acc_id := id; Auth.acc_isActive := Some true |}.

Definition patient : Patient.t :=
  {| Patient._id := "p1"; Patient.patientId := "PAT000001";
     Patient.user := None; Patient.firstName := "Amina";
     Patient.lastName := "Otieno"; Patient.dateOfBirth := Some 19900615;
     Patient.gender := "female"; Patient.idNumber := "123";
     Patient.email := "a@x.com"; Patient.phone := "0700000000";
     Patient.address := "1 Main St"; Patient.city := "Nairobi";
     Patient.emergencyName := "Kin"; Patient.emergencyPhone := "0711111111";
     Patient.emergencyRelationship := "sibling";
     Patient.paymentMethod := "cash"; Patient.maritalStatus := None |}.

End Samples.

(** ** models/Doctor.js: the [nextAvailable] virtual *)

Module DoctorVirtuals.

Definition upperChar (c : ascii) : ascii :=
  let n := N_of_ascii c in
  if (97 <=? n)%N && (n <=? 122)%N then ascii_of_N (n - 32) else c.

(** [s.charAt(0).toUpperCase() + s.slice(1)], for the letters of the ASCII
    range. *)
Definition capitalize (s : string) : string :=
  match s with
  | EmptyString => EmptyString
  | String c rest => String (upperChar c) rest
  end.

(** The [days] array of the virtual. *)
Definition days : list string :=
  ["sunday"; "monday"; "tuesday"; "wednesday"; "thursday"; "friday";
   "saturday"].

(** [xs.indexOf(x)], counting from [i]; -1 when [x] is absent. *)
Fixpoint indexFrom (i : Z) (xs : list string) (x : string) : Z :=
  match xs with
  | [] => -1
  | y :: rest => if String.eqb y x then i else indexFrom (i + 1) rest x
  end.

Definition indexOf (xs : list string) (x : string) : Z := indexFrom 0 xs x.

Section WithClock.

(** The clock: [weekdayLong d] stands for
    [d.toLocaleString('en', { weekday: 'long' }).toLowerCase()], and the
    two getters for [d.getHours()] and [d.getMinutes()]. *)
Variable Date : Type.
Variable weekdayLong : Date -> string.
Variables getHours getMinutes : Date -> Z.

(** The part of the virtual that looks at today's schedule; [None] when it
    falls through to the search for the next working day. *)
Definition todayAnswer (currentTime : Z) (a : Doctor.Availability)
  : option string :=
  let startTime := JS.minutesOf (Doctor.startTime a) in
  let endTime := JS.minutesOf (Doctor.endTime a) in
  let breakStart := JS.minutesOf (Doctor.breakStart a) in
  let breakEnd := JS.minutesOf (Doctor.breakEnd a) in
  if JS.lt (Some currentTime) startTime then
    Some ("Today at " ++ Doctor.startTime a)%string
  else if JS.ge (Some currentTime) breakStart
          && JS.lt (Some currentTime) breakEnd then
    Some ("Today at " ++ Doctor.breakEnd a)%string
  else if JS.lt (Some currentTime) endTime then Some "Available Now"
  else None.

(** The [for (let i = 1; i <= 7; i++)] loop: the first [i] whose day is a
    working day. *)
Definition nextWorkingDay (currentDayIndex : Z) (workingDays : list string)
  : option string :=
  let dayAt (i : Z) : string :=
    nth (Z.to_nat (Z.rem (currentDayIndex + i) 7)) days "undefined" in
  option_map dayAt
    (find (fun i => JS.includes workingDays (dayAt i)) [1; 2; 3; 4; 5; 6; 7]).

(** The [nextAvailable] virtual at the moment [now]; [None] is [null]. *)
Definition nextAvailable (now : Date) (this : Doctor.t) : option string :=
  if negb (Doctor.isAvailable this) then None
  else
    let a := Doctor.availability this in
    let currentDay := weekdayLong now in
    let currentTime := getHours now * 60 + getMinutes now in
    let todaySchedule := JS.includes (Doctor.workingDays a) currentDay in
    match (if todaySchedule then todayAnswer currentTime a else None) with
    | Some answer => Some answer
    | None =>
        let currentDayIndex := indexOf days currentDay in
        match nextWorkingDay currentDayIndex (Doctor.workingDays a) with
        | Some nextDay =>
            Some ("Next " ++ capitalize nextDay ++ " at "
                  ++ Doctor.startTime a)%string
        | None => Some "Not Available"
        end
    end.

End WithClock.

(** The schema defaults of the [rating] sub-document. *)
Definition defaultRating : Doctor.Rating :=
  {| Doctor.average := 0%Q;
     Doctor.totalReviews := 0;
     Doctor.breakdown := {| Doctor.b1 := 0; Doctor.b2 := 0; Doctor.b3 := 0;
                            Doctor.b4 := 0; Doctor.b5 := 0 |} |}.

(** A run of [updateRating] calls, each on the rating the previous one
    left; the errors thrown along the way are collected. *)
Fixpoint rateAll (ratings : list Z) (this : Doctor.Rating)
  : list string * Doctor.Rating :=
  match ratings with
  | [] => ([], this)
  | r :: rest =>
      let o := Doctor.updateRating this r in
      let '(errors, final) := rateAll rest (Doctor.ratingAfter o) in
      (match Doctor.thrown o with
       | Some e => e :: errors
       | None => errors
       end, final)
  end.

End DoctorVirtuals.

(** ** routes/doctorRoutes.js *)

Module DoctorRoutes.

(** [n.toString()] of a number that may be NaN. *)
Definition numToString (n : JS.num) : string :=
  match n with
  | Some z => JS.toString z
  | None => "NaN"
  end.

(** [formatTimeForDisplay(timeString)]; [None] is the TypeError thrown when
    the string has no colon, [minutes] then being [undefined]. *)
Definition formatTimeForDisplay (timeString : string) : option string :=
  let parts := map JS.Number (JS.split ":" timeString) in
  let hours := JS.elem parts 0 in
  match nth_error parts 1 with
  | None => None
  | Some minutes =>
      let ampm := if JS.ge hours (Some 12) then "PM" else "AM" in
      let displayHours :=
        match hours with
        | Some h => if Z.rem h 12 =? 0 then 12 else Z.rem h 12
        | None => 12
        end in
      Some (JS.toString displayHours ++ ":"
            ++ JS.padStart0 2 (numToString minutes) ++ " " ++ ampm)%string
  end.

(** A doctor document as the availability route reads it; its other paths
    are taken to pass the validators on [save()], as they did when the
    document was stored. *)
Record DoctorDoc := {
  doc_id : string;
  doc_user : string;
  doc_isAvailable : bool
}.

Definition findById (doctors : list DoctorDoc) (id : string)
  : option DoctorDoc :=
  find (fun d => String.eqb (doc_id d) id) doctors.



End DoctorRoutes.

(** ** routes/appointmentRoutes.js and the cancel route *)

Module AppointmentRoutes.

Import AppointmentWrites.

(** A doctor document as the appointment routes read it. *)
Record DoctorRef := {
  dr_id : string;
  dr_doctorId : string
}.

Definition findDoctorById (doctors : list DoctorRef) (id : string)
  : option DoctorRef :=
  find (fun d => String.eqb (dr_id d) id) doctors.

(** The fields [POST /] destructures from the body; [type],
    [consultationType], [symptoms] and [priority] are left at their
    defaults.  A date is given as the timestamp [new Date(...)] reads from
    it, strings are JSON strings and [duration] is a JSON integer. *)
Record CreateBody := {
  cb_patientId : option string;
  cb_doctorId : option string;
  cb_appointmentDate : option Z;
  cb_appointmentTime : option string;
  cb_reason : option string;
  cb_duration : option Z
}.

(** [POST /] of routes/appointmentRoutes.js. *)
Definition create (newId defaultAppointmentId : string)
    (doctors : list DoctorRef) (body : CreateBody) (db : Db) : Z * Db :=
  match cb_patientId body, cb_doctorId body, cb_appointmentDate body,
        cb_appointmentTime body, cb_reason body with
  | Some patientId, Some doctorId, Some appointmentDate,
    Some appointmentTime, Some reason =>
      if negb (JS.truthy (Some patientId)) || negb (JS.truthy (Some doctorId))
         || negb (JS.truthy (Some appointmentTime))
         || negb (JS.truthy (Some reason))
      then (400, db)
      else
        match Patient.findOneByPatientId (patients db) patientId with
        | None => (404, db)
        | Some patient =>
            match findDoctorById doctors doctorId with
            | None => (404, db)
            | Some doctor =>
                let duration :=
                  match cb_duration body with Some n => n | None => 30 end in
                match Appointment.findConflicts (appointments db) doctorId
                        appointmentDate appointmentTime (Some duration)
                        None with
                | _ :: _ => (409, db)
                | [] =>
                    let appointment :=
                      {| Appointment.d_appointmentId := None;
                         Appointment.d_patient := Some (Patient._id patient);
                         Appointment.d_patientId :=
                           Some (Patient.patientId patient);
                         Appointment.d_doctor := Some (dr_id doctor);
                         Appointment.d_doctorId := Some (dr_doctorId doctor);
                         Appointment.d_appointmentDate := Some appointmentDate;
                         Appointment.d_appointmentTime := Some appointmentTime;
                         Appointment.d_duration := Some duration;
                         Appointment.d_status := Some "scheduled";
                         Appointment.d_reason := Some reason |} in
                    match Appointment.insert newId defaultAppointmentId
                            appointment (appointments db) with
                    | inr apts => (201, withAppointments db apts)
                    | inl Appointment.ValidationError => (400, db)
                    | inl Appointment.DuplicateKey => (500, db)
                    end
                end
            end
        end
  | _, _, _, _, _ => (400, db)
  end.

(** The fields [PUT /:id] destructures from the body, the enumerated ones
    apart; a date is given as the timestamp [new Date(...)] reads from
    it. *)
Record UpdateBody := {
  ub_appointmentDate : option Z;
  ub_appointmentTime : option string;
  ub_duration : option Z;
  ub_status : option string;
  ub_reason : option string
}.

(** Truthiness of an optional number. *)
Definition truthyNumber (n : option Z) : bool :=
  match n with
  | Some z => negb (z =? 0)
  | None => false
  end.

(** [x || y] on strings and on numbers. *)
Definition orString (x : option string) (y : string) : string :=
  match x with
  | Some v => if JS.truthy x then v else y
  | None => y
  end.

Definition orNumber (x : option Z) (y : Z) : Z :=
  match x with
  | Some v => if truthyNumber x then v else y
  | None => y
  end.

(** [PUT /:id] of routes/appointmentRoutes.js. *)
Definition update (id : string) (body : UpdateBody) (db : Db) : Z * Db :=
  match Appointment.findById (appointments db) id with
  | None => (404, db)
  | Some appointment =>
      let conflict :=
        match ub_appointmentDate body, JS.truthy (ub_appointmentTime body) with
        | None, false => false
        | _, _ =>
            let newDate :=
              match ub_appointmentDate body with
              | Some d => d
              | None => Appointment.appointmentDate appointment
              end in
            let newTime :=
              orString (ub_appointmentTime body)
                       (Appointment.appointmentTime appointment) in
            let newDuration :=
              orNumber (ub_duration body) (Appointment.duration appointment) in
            match Appointment.findConflicts (appointments db)
                    (Appointment.doctorId appointment) newDate newTime
                    (Some newDuration) (Some (Appointment._id appointment))
            with
            | _ :: _ => true
            | [] => false
            end
        end in
      if conflict then (409, db)
      else
        let d := Appointment.draftOf appointment in
        let d' :=
          {| Appointment.d_appointmentId := Appointment.d_appointmentId d;
             Appointment.d_patient := Appointment.d_patient d;
             Appointment.d_patientId := Appointment.d_patientId d;
             Appointment.d_doctor := Appointment.d_doctor d;
             Appointment.d_doctorId := Appointment.d_doctorId d;
             Appointment.d_appointmentDate :=
               match ub_appointmentDate body with
               | Some nd => Some nd
               | None => Appointment.d_appointmentDate d
               end;
             Appointment.d_appointmentTime :=
               Some (orString (ub_appointmentTime body)
                              (Appointment.appointmentTime appointment));
             Appointment.d_duration :=
               Some (orNumber (ub_duration body)
                              (Appointment.duration appointment));
             Appointment.d_status :=
               Some (orString (ub_status body)
                              (Appointment.status appointment));
             Appointment.d_reason :=
               Some (orString (ub_reason body)
                              (Appointment.reason appointment)) |} in
        match Appointment.update d' id (appointments db) with
        | inr apts => (200, withAppointments db apts)
        | inl _ => (500, db)
        end
  end.

(** [PUT /appointments/:appointmentId/cancel] of routes/patientRoutes.js.
    With a reason the handler assigns [cancelledBy: 'patient'] to a path
    of type ObjectId; the value does not cast, the document is marked
    invalid and [save()] is refused. *)
Definition cancel (appointmentId : string) (reason : option string)
    (db : Db) : Z * Db :=
  match Appointment.findById (appointments db) appointmentId with
  | None => (404, db)
  | Some appointment =>
      let d := Appointment.draftOf appointment in
      let d' :=
        {| Appointment.d_appointmentId := Appointment.d_appointmentId d;
           Appointment.d_patient := Appointment.d_patient d;
           Appointment.d_patientId := Appointment.d_patientId d;
           Appointment.d_doctor := Appointment.d_doctor d;
           Appointment.d_doctorId := Appointment.d_doctorId d;
           Appointment.d_appointmentDate := Appointment.d_appointmentDate d;
           Appointment.d_appointmentTime := Appointment.d_appointmentTime d;
           Appointment.d_duration := Appointment.d_duration d;
           Appointment.d_status := Some "cancelled";
           Appointment.d_reason := Appointment.d_reason d |} in
      if JS.truthy reason then (500, db)
      else
        match Appointment.update d' appointmentId (appointments db) with
        | inr apts => (200, withAppointments db apts)
        | inl _ => (500, db)
        end
  end.

(** A stored document that passes the validators again unchanged, as every
    document written by [save()] does. *)
Definition storedValid (a : Appointment.t) : bool :=
  JS.truthy (Some (Appointment.patient a))
  && JS.truthy (Some (Appointment.patientId a))
  && JS.truthy (Some (Appointment.doctor a))
  && JS.truthy (Some (Appointment.doctorId a))
  && JS.truthy (Some (Appointment.appointmentTime a))
  && JS.truthy (Some (JS.trim (Appointment.reason a)))
  && (15 <=? Appointment.duration a) && (Appointment.duration a <=? 120)
  && JS.includes Appointment.statusEnum (Appointment.status a).

End AppointmentRoutes.

(** ** models/PaymentMethod.js and the payment-method routes *)

Module PaymentMethod.

(** A stored payment method, with the paths that carry validators or
    defaults and the ones the routes read. *)
Record t := {
  _id : string;
  patientId : string;
  type : string;
  isPrimary : bool;
  status : string
}.

Definition typeEnum : list string :=
  ["insurance"; "cash"; "bank"; "mobile"; "credit"; "debit"].

Definition statusEnum : list string := ["active"; "inactive"].

(** A document as handed to [new PaymentMethod(...)]. *)
Record Draft := {
  d_patientId : option string;
  d_type : option string;
  d_isPrimary : option bool;
  d_status : option string
}.

(** Defaults and validators that run on [save]: [patientId] and [type] are
    required, [type] and [status] are enumerated, [isPrimary] defaults to
    [false] and [status] to ['active']. *)
Definition validate (newId : string) (d : Draft) : option t :=
  match d_patientId d, d_type d with
  | Some pid, Some ty =>
      let st := match d_status d with Some s => s | None => "active" end in
      if JS.truthy (Some pid) && JS.truthy (Some ty)
         && JS.includes typeEnum ty && JS.includes statusEnum st
      then Some {| _id := newId; patientId := pid; type := ty;
                   isPrimary := match d_isPrimary d with
                                | Some b => b
                                | None => false
                                end;
                   status := st |}
      else None
  | _, _ => None
  end.

(** [PaymentMethod.updateMany({ patientId }, { isPrimary: false })]. *)
Definition clearPrimary (patientId_ : string) (collection : list t)
  : list t :=
  map (fun m => if String.eqb (patientId m) patientId_
                then {| _id := _id m; patientId := patientId m;
                        type := type m; isPrimary := false;
                        status := status m |}
                else m)
      collection.

Definition findById (collection : list t) (id : string) : option t :=
  find (fun m => String.eqb (_id m) id) collection.

(** The validators on a loaded document. *)
Definition storedValid (m : t) : bool :=
  JS.truthy (Some (patientId m)) && JS.truthy (Some (type m))
  && JS.includes typeEnum (type m) && JS.includes statusEnum (status m).

(** [save()] of a loaded document on which [isPrimary = true] was
    assigned.  [loaded] is the document as [findById] returned it: when it
    was primary already the assignment changes nothing, no path is
    modified and nothing is written; otherwise [isPrimary] is written to
    the stored copy. *)
Definition savePrimary (loaded : t) (collection : list t) : option (list t) :=
  if storedValid loaded then
    if isPrimary loaded then Some collection
    else Some (map (fun m => if String.eqb (_id m) (_id loaded)
                             then {| _id := _id m; patientId := patientId m;
                                     type := type m; isPrimary := true;
                                     status := status m |}
                             else m)
                   collection)
  else None.

End PaymentMethod.

Module PaymentRoutes.

(** The body of [POST /:patientId/payment-methods], spread over the new
    document after [patientId]: a [patientId] in the body replaces the
    one of the route.  [isPrimary], when present, is a JSON boolean. *)
Record PaymentData := {
  pd_patientId : option string;
  pd_type : option string;
  pd_isPrimary : option bool;
  pd_status : option string
}.

(** [POST /:patientId/payment-methods] of routes/patientRoutes.js: the
    status sent and the collection afterwards. *)
Definition addPaymentMethod (newId : string) (patients : list Patient.t)
    (patientId : string) (paymentData : PaymentData)
    (methods : list PaymentMethod.t) : Z * list PaymentMethod.t :=
  match Patient.findOneByPatientId patients patientId with
  | None => (404, methods)
  | Some patient =>
      let methods1 :=
        match pd_isPrimary paymentData with
        | Some true => PaymentMethod.clearPrimary patientId methods
        | _ => methods
        end in
      let paymentMethod :=
        {| PaymentMethod.d_patientId :=
             match pd_patientId paymentData with
             | Some p => Some p
             | None => Some patientId
             end;
           PaymentMethod.d_type := pd_type paymentData;
           PaymentMethod.d_isPrimary := pd_isPrimary paymentData;
           PaymentMethod.d_status := pd_status paymentData |} in
      match PaymentMethod.validate newId paymentMethod with
      | Some m => (200, (methods1 ++ [m])%list)
      | None => (500, methods1)
      end
  end.

(** [PUT /payment-methods/:methodId/primary] of routes/patientRoutes.js. *)
Definition setPrimary (methodId : string) (methods : list PaymentMethod.t)
  : Z * list PaymentMethod.t :=
  match PaymentMethod.findById methods methodId with
  | None => (404, methods)
  | Some paymentMethod =>
      let methods1 :=
        PaymentMethod.clearPrimary (PaymentMethod.patientId paymentMethod)
                                   methods in
      match PaymentMethod.savePrimary paymentMethod methods1 with
      | Some methods2 => (200, methods2)
      | None => (500, methods1)
      end
  end.

End PaymentRoutes.

(** ** middleware/auth.js: the role and department guards *)

Module AuthGuards.

Import Auth.

(** [req.user.role !== role]. *)
Definition roleIs (u : ReqUser) (role : string) : bool :=
  match u_role u with
  | Some r => String.eqb r role
  | None => false
  end.

Definition patientOnly (reqUser : option ReqUser) : Outcome :=
  match reqUser with
  | Some u =>
      if negb (roleIs u "patient") then
        Rejected 403 "Access denied. Patient privileges required."
      else Next u
  | None => Rejected 403 "Access denied. Patient privileges required."
  end.

Definition doctorOnly (reqUser : option ReqUser) : Outcome :=
  match reqUser with
  | Some u =>
      if negb (roleIs u "doctor") then
        Rejected 403 "Access denied. Doctor privileges required."
      else Next u
  | None => Rejected 403 "Access denied. Doctor privileges required."
  end.

Definition staffOnly (reqUser : option ReqUser) : Outcome :=
  let staffRoles := ["nurse"; "receptionist"; "lab_technician"] in
  match reqUser with
  | Some u =>
      if negb (roleIncluded staffRoles (u_role u)) then
        Rejected 403 "Access denied. Staff privileges required."
      else Next u
  | None => Rejected 403 "Access denied. Staff privileges required."
  end.

Definition medicalStaffOnly (reqUser : option ReqUser) : Outcome :=
  let medicalRoles := ["doctor"; "nurse"] in
  match reqUser with
  | Some u =>
      if negb (roleIncluded medicalRoles (u_role u)) then
        Rejected 403 "Access denied. Medical staff privileges required."
      else Next u
  | None => Rejected 403 "Access denied. Medical staff privileges required."
  end.

Definition receptionistOrHigher (reqUser : option ReqUser) : Outcome :=
  let allowedRoles := ["receptionist"; "nurse"; "doctor"] in
  match reqUser with
  | Some u =>
      if negb (roleIncluded allowedRoles (u_role u)) then
        Rejected 403
          "Access denied. Receptionist or higher privileges required."
      else Next u
  | None =>
      Rejected 403
        "Access denied. Receptionist or higher privileges required."
  end.

(** [requireDepartment(...departments)]; [department] is
    [req.user.department], which [auth] sets only when the account has
    one. *)
Definition requireDepartment (departments : list string)
    (reqUser : option ReqUser) (department : option string) : Outcome :=
  match reqUser with
  | None => Rejected 401 "Authentication required"
  | Some u =>
      if roleIs u "patient" then Next u
      else if negb (JS.truthy department)
              || negb (roleIncluded departments department)
      then Rejected 403 "Access denied."
      else Next u
  end.

(** The kind of value found in [req.user.id]: [auth] stores the account's
    [_id], an ObjectId; the temporary middlewares of the doctor routes
    store a string. *)
Inductive IdKind := ObjectIdValue | StringValue.

(** [req.user.id === req.params.patientId]: strict equality with a
    string; an object is never strictly equal to a string. *)
Definition strictEqualsParam (kind : IdKind) (id param : string) : bool :=
  match kind with
  | ObjectIdValue => false
  | StringValue => String.eqb id param
  end.

(** [canAccessPatient]; [kind] is the kind of value the middleware in
    front stored in [req.user.id] and [patientIdParam] is
    [req.params.patientId]. *)
Definition canAccessPatient (reqUser : option ReqUser) (kind : IdKind)
    (patientIdParam : string) : Outcome :=
  match reqUser with
  | None => Rejected 401 "Authentication required"
  | Some u =>
      if roleIs u "patient"
         && strictEqualsParam kind (u_id u) patientIdParam
      then Next u
      else
        let medicalRoles := ["doctor"; "nurse"] in
        if roleIncluded medicalRoles (u_role u) then Next u
        else if roleIs u "receptionist" then Next u
        else Rejected 403 "Access denied to patient data"
  end.

(** Whether a middleware let the request through. *)
Definition admitted (o : Outcome) : bool :=
  match o with
  | Next _ => true
  | Rejected _ _ => false
  end.

Definition statusOf (o : Outcome) : option Z :=
  match o with
  | Next _ => None
  | Rejected code _ => Some code
  end.

End AuthGuards.

(** ** Patient methods and the blood-type helpers *)

Module PatientMethods.

Section Calendar.

Variables getFullYear getMonth getDate : Z -> Z.

(** [isMinor]: [this.age < 18]; a null age compares as 0. *)
Definition isMinor (now : Z) (this : Patient.t) : bool :=
  match Patient.age getFullYear getMonth getDate now this with
  | Some age => age <? 18
  | None => 0 <? 18
  end.

End Calendar.

(** [s.toUpperCase()], for the letters of the ASCII range. *)
Fixpoint toUpperCase (s : string) : string :=
  match s with
  | EmptyString => EmptyString
  | String c rest =>
      String (DoctorVirtuals.upperChar c) (toUpperCase rest)
  end.

(** The schema's [enum] on [bloodType], which is also the list
    [validBloodTypes] of the route helper. *)
Definition validBloodTypes : list string :=
  ["A+"; "A-"; "B+"; "B-"; "AB+"; "AB-"; "O+"; "O-"; "Unknown"].

Definition bloodTypeMap : list (string * string) :=
  [("a+", "A+"); ("a-", "A-"); ("b+", "B+"); ("b-", "B-");
   ("ab+", "AB+"); ("ab-", "AB-"); ("o+", "O+"); ("o-", "O-");
   ("unknown", "Unknown"); ("none", "Unknown"); ("", "Unknown")].

Fixpoint lookup (key : string) (m : list (string * string)) : option string :=
  match m with
  | [] => None
  | (k, v) :: rest => if String.eqb k key then Some v else lookup key rest
  end.

(** [normalizeBloodType] of routes/patientRoutes.js, on a string or an
    absent value.  (For the key ['constructor'], which the object literal
    inherits, the lookup yields a function; it is not a valid blood type
    either way, and the result is the same.) *)
Definition normalizeBloodType (bloodType : option string) : string :=
  match bloodType with
  | None => "Unknown"
  | Some b =>
      if negb (JS.truthy bloodType) || String.eqb (JS.trim b) "" then "Unknown"
      else
        let normalized :=
          match lookup (JS.toLowerCase b) bloodTypeMap with
          | Some v => v
          | None => toUpperCase b
          end in
        if JS.includes validBloodTypes normalized then normalized
        else "Unknown"
  end.

(** The [set] function of the schema's [bloodType] path. *)
Definition bloodTypeSetter (bloodType : option string) : string :=
  match bloodType with
  | None => "Unknown"
  | Some b =>
      if negb (JS.truthy bloodType) || String.eqb b "Unknown"
         || String.eqb b ""
      then "Unknown"
      else toUpperCase b
  end.

(** The blood-type step of the [pre('save')] hook; its assignment goes
    through the setter of the path again. *)
Definition preSaveBloodType (bloodType : string) : string :=
  if JS.truthy (Some bloodType) && negb (String.eqb bloodType "Unknown")
  then bloodTypeSetter (Some (toUpperCase bloodType))
  else bloodType.

(** What is stored, and whether it passes the [enum], when a handler
    assigns [v] to [bloodType] and saves. *)
Definition storedBloodType (v : option string) : string :=
  preSaveBloodType (bloodTypeSetter v).

End PatientMethods.

(** ** Sample data for the routes *)

Module RouteSamples.

(** Two clocks over day numbers: half past ten, and six in the evening. *)
Definition morningHours (d : Z) : Z := 10.
Definition morningMinutes (d : Z) : Z := 30.
Definition eveningHours (d : Z) : Z := 18.
Definition eveningMinutes (d : Z) : Z := 0.



Definition doctorsCustomId : list AppointmentRoutes.DoctorRef :=
  [{| AppointmentRoutes.dr_id := "d1";
      AppointmentRoutes.dr_doctorId := "DOC001" |}].

Definition db : AppointmentWrites.Db :=
  {| AppointmentWrites.patients := [Samples.patient];
     AppointmentWrites.appointments := Samples.appointmentBook |}.

Definition createBody (doctorId time : string)
  : AppointmentRoutes.CreateBody :=
  {| AppointmentRoutes.cb_patientId := Some "PAT000001";
     AppointmentRoutes.cb_doctorId := Some doctorId;
     AppointmentRoutes.cb_appointmentDate := Some 20250310;
     AppointmentRoutes.cb_appointmentTime := Some time;
     AppointmentRoutes.cb_reason := Some "checkup";
     AppointmentRoutes.cb_duration := None |}.


Definition method (id patientId : string) (isPrimary : bool)
  : PaymentMethod.t :=
  {| PaymentMethod._id := id; PaymentMethod.patientId := patientId;
     PaymentMethod.type := "cash"; PaymentMethod.isPrimary := isPrimary;
     PaymentMethod.status := "active" |}.

Definition methods : list PaymentMethod.t :=
  [method "m1" "PAT000001" true; method "m2" "PAT000001" false;
   method "m3" "PAT000002" true].

Definition paymentData (patientId : option string) (type : string)
  : PaymentRoutes.PaymentData :=
  {| PaymentRoutes.pd_patientId := patientId;
     PaymentRoutes.pd_type := Some type;
     PaymentRoutes.pd_isPrimary := Some true;
     PaymentRoutes.pd_status := None |}.

End RouteSamples.

(** * Properties *)

(** ** Reading and printing times *)

Module JSFacts.
Import JS.

Fixpoint allDigits (s : string) : bool :=
  match s with
  | EmptyString => true
  | String c r => isDigit c && allDigits r
  end.

Lemma isDigit_not_colon c : isDigit c = true -> Ascii.eqb c ":" = false.
Proof.
  intros H. destruct (Ascii.eqb_spec c ":") as [->|]; [discriminate H|reflexivity].
Qed.

Definition digitVal (c : ascii) : Z := Z.of_N (N_of_ascii c) - 48.

Lemma isDigit_cases c :
  isDigit c = true ->
  In c ["0"; "1"; "2"; "3"; "4"; "5"; "6"; "7"; "8"; "9"]%char.
Proof.
  destruct c as [[|] [|] [|] [|] [|] [|] [|] [|]]; intros H;
    try discriminate H; simpl; tauto.
Qed.

Lemma digitVal_range c : isDigit c = true -> 0 <= digitVal c <= 9.
Proof.
  intros H. apply isDigit_cases in H. simpl in H.
  repeat (destruct H as [<-|H]; [vm_compute; split; discriminate|]).
  contradiction.
Qed.

Lemma Number_digit c :
  isDigit c = true -> Number (String c "") = Some (digitVal c).
Proof.
  intros H. apply isDigit_cases in H. simpl in H.
  repeat (destruct H as [<-|H]; [reflexivity|]). contradiction.
Qed.

Lemma Number_two_digits c1 c2 :
  isDigit c1 = true -> isDigit c2 = true ->
  Number (String c1 (String c2 "")) = Some (10 * digitVal c1 + digitVal c2).
Proof.
  intros H1 H2. apply isDigit_cases in H1, H2. simpl in H1, H2.
  repeat (destruct H1 as [<-|H1];
          [repeat (destruct H2 as [<-|H2]; [reflexivity|]); contradiction|]).
  contradiction.
Qed.

Lemma split_digit_cons c s :
  isDigit c = true ->
  split ":" (String c s) =
  match split ":" s with [] => [String c ""] | w :: ws => String c w :: ws end.
Proof. intros H. simpl. now rewrite (isDigit_not_colon _ H). Qed.

Lemma split_colon_cons s : split ":" (String ":" s) = "" :: split ":" s.
Proof. reflexivity. Qed.

Lemma split_empty : split ":" "" = [""].
Proof. reflexivity. Qed.

Ltac split_andb H :=
  repeat match type of H with
         | (_ && _ = true) =>
             let H' := fresh H in apply andb_prop in H as [H H']
         end.

Lemma minutesOf_HMM a c d :
  isDigit a = true -> isDigit c = true -> isDigit d = true ->
  minutesOf (String a (String ":" (String c (String d "")))) =
  Some (digitVal a * 60 + (10 * digitVal c + digitVal d)).
Proof.
  intros Ha Hc Hd. unfold minutesOf.
  rewrite (split_digit_cons a), split_colon_cons, (split_digit_cons c),
    (split_digit_cons d), split_empty by assumption.
  cbn [map elem nth].
  now rewrite Number_digit, Number_two_digits by assumption.
Qed.

Lemma minutesOf_HHMM a b d e :
  isDigit a = true -> isDigit b = true ->
  isDigit d = true -> isDigit e = true ->
  minutesOf (String a (String b (String ":" (String d (String e ""))))) =
  Some ((10 * digitVal a + digitVal b) * 60 + (10 * digitVal d + digitVal e)).
Proof.
  intros Ha Hb Hd He. unfold minutesOf.
  rewrite (split_digit_cons a), (split_digit_cons b), split_colon_cons,
    (split_digit_cons d), (split_digit_cons e), split_empty by assumption.
  cbn [map elem nth].
  now rewrite !Number_two_digits by assumption.
Qed.


Lemma isMinuteTens_digit c :
  Doctor.isMinuteTens c = true -> isDigit c = true /\ digitVal c <= 5.
Proof.
  unfold Doctor.isMinuteTens, isDigit, digitVal. intros H.
  apply andb_prop in H as [H1 H2].
  apply N.leb_le in H1, H2. split.
  - apply andb_true_intro; split; apply N.leb_le; lia.
  - lia.
Qed.

Lemma isHourUnits_digits a b :
  Doctor.isHourUnits a b = true ->
  isDigit a = true /\ isDigit b = true /\ 10 * digitVal a + digitVal b <= 23.
Proof.
  unfold Doctor.isHourUnits. intros H.
  apply orb_prop in H as [H|H]; apply andb_prop in H as [H1 H2].
  - pose proof (digitVal_range _ H2).
    apply orb_prop in H1 as [H1|H1]; apply Ascii.eqb_eq in H1; subst a;
      (split; [reflexivity|split; [assumption|]]);
      change (digitVal "0") with 0; change (digitVal "1") with 1; lia.
  - apply Ascii.eqb_eq in H1. subst a.
    apply andb_prop in H2 as [H2 H3]. apply N.leb_le in H2, H3.
    split; [reflexivity|]. split.
    + unfold isDigit. apply andb_true_intro; split; apply N.leb_le; lia.
    + change (digitVal "2") with 2. unfold digitVal. lia.
Qed.

(** A time accepted by the doctor schema reads as a minute of the day. *)
Lemma minutesOf_matchTime s :
  Doctor.matchTime s = true ->
  exists v, 0 <= v <= 1439 /\ minutesOf s = Some v.
Proof.
  intros H.
  destruct s as [|a [|b [|c [|d [|e [|f s]]]]]]; try discriminate H;
    cbn [Doctor.matchTime] in H; split_andb H.
  - apply Ascii.eqb_eq in H2. subst b.
    apply isMinuteTens_digit in H1 as [H1 H1'].
    pose proof (digitVal_range _ H). pose proof (digitVal_range _ H1).
    pose proof (digitVal_range _ H0).
    eexists. split; [|now apply minutesOf_HMM]. lia.
  - apply Ascii.eqb_eq in H2. subst c.
    apply isMinuteTens_digit in H1 as [H1 H1'].
    apply isHourUnits_digits in H as (Ha & Hb & Hab).
    pose proof (digitVal_range _ Ha). pose proof (digitVal_range _ Hb).
    pose proof (digitVal_range _ H1). pose proof (digitVal_range _ H0).
    eexists. split; [|now apply minutesOf_HHMM]. lia.
Qed.

Lemma Number_nonneg s v : Number s = Some v -> 0 <= v.
Proof.
  unfold Number. destruct (NilEmpty.uint_of_string s); intros [= <-]. lia.
Qed.

Lemma minutesOf_nonneg s v : minutesOf s = Some v -> 0 <= v.
Proof.
  unfold minutesOf, add, mul, elem.
  destruct (nth 0 _ _) as [h|] eqn:Eh; [|discriminate].
  destruct (nth 1 _ _) as [m|] eqn:Em; [|discriminate].
  intros [= <-].
  assert (Hin : forall i x, nth i (map Number (split ":" s)) NaN = Some x ->
                            0 <= x).
  { intros i x Hx.
    destruct (Nat.lt_ge_cases i (List.length (map Number (split ":" s))))
      as [Hlt|Hge].
    - pose proof (nth_In _ NaN Hlt) as Hi. rewrite Hx in Hi.
      apply in_map_iff in Hi as (w & Hw & _). eapply Number_nonneg; eauto.
    - rewrite nth_overflow in Hx by assumption. discriminate. }
  pose proof (Hin _ _ Eh). pose proof (Hin _ _ Em). lia.
Qed.

Lemma allDigits_app a b :
  allDigits (a ++ b) = allDigits a && allDigits b.
Proof.
  induction a as [|c a IH]; simpl; [reflexivity|].
  now rewrite IH, andb_assoc.
Qed.

Lemma allDigits_repeat0 k : allDigits (repeat0 k) = true.
Proof. induction k; simpl; auto. Qed.

Lemma allDigits_string_of_uint d :
  allDigits (NilEmpty.string_of_uint d) = true.
Proof. induction d; simpl; auto. Qed.

(** Printing a natural number gives a non-empty numeral that reads back as
    the number. *)
Lemma toString_numeral n :
  0 <= n ->
  exists u, toString n = NilEmpty.string_of_uint u /\ u <> Decimal.Nil
            /\ Z.of_N (N.of_uint u) = n.
Proof.
  intros Hn. unfold toString. destruct n as [|p|p]; [| |lia].
  - exists Decimal.zero. repeat split. discriminate.
  - exists (Pos.to_uint p). cbn [Z.to_int NilZero.string_of_int].
    pose proof (DecimalPos.Unsigned.to_uint_nonnil p) as Hnn.
    repeat split; auto.
    + unfold NilZero.string_of_uint. destruct (Pos.to_uint p); congruence.
    + unfold N.of_uint. now rewrite DecimalPos.Unsigned.of_to.
Qed.

Lemma Number_repeat0 k s : Number (repeat0 k ++ s) = Number s.
Proof.
  induction k as [|k IH]; [reflexivity|].
  unfold Number in *. cbn [repeat0 append NilEmpty.uint_of_string].
  destruct (NilEmpty.uint_of_string (repeat0 k ++ s)) as [u|];
    destruct (NilEmpty.uint_of_string s) as [u'|]; try discriminate;
    cbn [uint_of_char]; auto.
Qed.

Lemma Number_pad_toString n :
  0 <= n -> Number (padStart0 2 (toString n)) = Some n.
Proof.
  intros Hn. destruct (toString_numeral n Hn) as (u & -> & _ & Hu).
  unfold padStart0. rewrite Number_repeat0. unfold Number.
  now rewrite NilEmpty.usu, Hu.
Qed.

Lemma allDigits_pad_toString n :
  0 <= n -> allDigits (padStart0 2 (toString n)) = true.
Proof.
  intros Hn. destruct (toString_numeral n Hn) as (u & -> & _ & _).
  unfold padStart0.
  now rewrite allDigits_app, allDigits_repeat0, allDigits_string_of_uint.
Qed.

Lemma split_allDigits s : allDigits s = true -> split ":" s = [s].
Proof.
  induction s as [|c s IH]; [reflexivity|]. simpl allDigits. intros H.
  apply andb_prop in H as [Hc Hs].
  now rewrite split_digit_cons, IH by assumption.
Qed.

Lemma split_allDigits_colon a b :
  allDigits a = true -> allDigits b = true ->
  split ":" (a ++ String ":" b) = [a; b].
Proof.
  intros Ha Hb. induction a as [|c a IH].
  - cbn [append]. now rewrite split_colon_cons, split_allDigits.
  - simpl in Ha. apply andb_prop in Ha as [Hc Ha].
    cbn [append]. now rewrite split_digit_cons, IH by assumption.
Qed.

(** Every slot label reads back as the minute it was printed from. *)
Lemma minutesOf_timeString t :
  0 <= t -> minutesOf (Doctor.timeString t) = Some t.
Proof.
  intros Ht. unfold Doctor.timeString, minutesOf.
  assert (Hh : 0 <= t / 60) by (apply Z.div_pos; lia).
  assert (Hm : 0 <= Z.rem t 60) by (apply Z.rem_nonneg; lia).
  change (":" ++ padStart0 2 (toString (Z.rem t 60)))%string
    with (String ":" (padStart0 2 (toString (Z.rem t 60)))).
  rewrite split_allDigits_colon by now apply allDigits_pad_toString.
  cbn [map elem nth]. rewrite !Number_pad_toString by assumption.
  cbn [mul add]. f_equal. rewrite Z.rem_mod_nonneg by lia.
  pose proof (Z.div_mod t 60). lia.
Qed.

(** The shape of a zero-padded [HH:MM] label. *)
Definition isPaddedTime (s : string) : bool :=
  match s with
  | String h1 (String h2 (String c (String m1 (String m2 EmptyString)))) =>
      isDigit h1 && isDigit h2 && Ascii.eqb c ":" && isDigit m1 && isDigit m2
  | _ => false
  end.

Definition minutesUpTo (n : nat) : list Z := map Z.of_nat (seq 0 n).

Lemma minutesUpTo_In n t : 0 <= t < Z.of_nat n -> In t (minutesUpTo n).
Proof.
  intros Ht. unfold minutesUpTo. apply in_map_iff.
  exists (Z.to_nat t). split; [lia|]. apply in_seq. lia.
Qed.

Lemma timeString_padded_table :
  forallb (fun t => isPaddedTime (Doctor.timeString t)) (minutesUpTo 1440)
  = true.
Proof. vm_compute. reflexivity. Qed.

(** Within a day the label has exactly two digits on either side. *)
Lemma isPaddedTime_timeString t :
  0 <= t < 1440 -> isPaddedTime (Doctor.timeString t) = true.
Proof.
  intros Ht. pose proof timeString_padded_table as H.
  rewrite forallb_forall in H. apply H. now apply minutesUpTo_In.
Qed.

End JSFacts.

(** ** The slot loop of [generateTimeSlots] *)

Module SlotLoop.
Import JS Doctor.
#[local] Open Scope list_scope.

(** Consecutive elements are at least [d] apart. *)
Fixpoint spaced (d : Z) (ts : list Z) : Prop :=
  match ts with
  | [] => True
  | t :: rest =>
      match rest with
      | [] => True
      | t' :: _ => t + d <= t'
      end /\ spaced d rest
  end.

Lemma spaced_snoc d ts c :
  spaced d ts -> Forall (fun t => t + d <= c) ts -> spaced d (ts ++ [c]).
Proof.
  induction ts as [|t ts IH]; intros Hs Hf; [simpl; auto|].
  inversion Hf as [|? ? Ht Hf']; subst. destruct Hs as [Hhd Hs].
  cbn [app spaced]. split; [|now apply IH].
  destruct ts as [|t' ts]; [exact Ht|exact Hhd].
Qed.

Lemma spaced_pairwise d ts :
  0 <= d -> spaced d ts ->
  forall i j ti tj, (i < j)%nat ->
    nth_error ts i = Some ti -> nth_error ts j = Some tj -> ti + d <= tj.
Proof.
  intros Hd. induction ts as [|t ts IH]; intros Hs i j ti tj Hij Hi Hj.
  - destruct i; discriminate.
  - destruct Hs as [Hhd Hs]. destruct j as [|j]; [lia|].
    destruct i as [|i].
    + cbn in Hi, Hj. injection Hi as <-.
      destruct ts as [|t' ts]; [destruct j; discriminate|].
      destruct j as [|j].
      * cbn in Hj. injection Hj as <-. exact Hhd.
      * assert (t' + d <= tj)
          by (eapply (IH Hs 0%nat (S j)); [lia|reflexivity|exact Hj]).
        lia.
    + cbn in Hi, Hj. eapply (IH Hs i j); eauto. lia.
Qed.

Section Loop.

Variable e : LoopEnv.
Variable d : Z.
Hypothesis d_pos : 0 < d.
Hypothesis e_duration : env_slotDuration e = Some d.

(** When the guard holds the clock is a number and a whole slot fits. *)
Lemma loopGuard_true st :
  loopGuard e st = true ->
  exists c fin, currentTime st = Some c /\ env_endTime e = Some fin
                /\ c + d <= fin.
Proof.
  unfold loopGuard. rewrite e_duration.
  destruct (currentTime st) as [c|]; [|discriminate].
  destruct (env_endTime e) as [fin|]; [|discriminate].
  cbn. intros H. apply Z.leb_le in H. eauto.
Qed.

(** Each pass through the body moves the clock strictly forward. *)
Lemma loopBody_advances st :
  loopGuard e st = true ->
  JS.lt (currentTime st) (currentTime (loopBody e st)) = true.
Proof.
  intros Hg. destruct (loopGuard_true _ Hg) as (c & fin & Hc & _ & _).
  unfold loopBody. rewrite Hc, e_duration.
  destruct (JS.ge (Some c) (env_breakStart e) && JS.lt (Some c) (env_breakEnd e))
    eqn:Hb; cbn [currentTime].
  - apply andb_prop in Hb as [_ Hb]. exact Hb.
  - cbn. apply Z.ltb_lt. lia.
Qed.

(** Fuel that always suffices from a given state. *)
Definition enoughFuel (st : LoopState) : nat :=
  match currentTime st, env_endTime e with
  | Some c, Some fin => S (Z.to_nat (fin - c))
  | _, _ => 1
  end.

Lemma while_terminates fuel st :
  (enoughFuel st <= fuel)%nat ->
  exists st', while fuel e st = Some st' /\ loopGuard e st' = false.
Proof.
  revert st. induction fuel as [|fuel IH]; intros st Hf.
  - unfold enoughFuel in Hf.
    destruct (currentTime st), (env_endTime e); lia.
  - cbn [while]. destruct (loopGuard e st) eqn:Hg; [|eauto].
    apply IH.
    pose proof (loopBody_advances _ Hg) as Hadv.
    destruct (loopGuard_true _ Hg) as (c & fin & Hc & Hfin & Hle).
    unfold enoughFuel in *. rewrite Hc, Hfin in Hf. rewrite Hfin.
    rewrite Hc in Hadv.
    destruct (currentTime (loopBody e st)) as [c'|]; [|discriminate Hadv].
    cbn in Hadv. apply Z.ltb_lt in Hadv. lia.
Qed.

Lemma while_more_fuel fuel fuel' st st' :
  while fuel e st = Some st' -> (fuel <= fuel')%nat ->
  while fuel' e st = Some st'.
Proof.
  revert fuel' st. induction fuel as [|fuel IH]; intros fuel' st H Hle;
    [discriminate|].
  destruct fuel' as [|fuel']; [lia|]. cbn [while] in *.
  destruct (loopGuard e st); [|exact H]. apply IH; [exact H|lia].
Qed.

(** Invariant reasoning: a property kept by every guarded pass holds on
    exit. *)
Lemma while_invariant (I : LoopState -> Prop) :
  (forall st, I st -> loopGuard e st = true -> I (loopBody e st)) ->
  forall fuel st st', I st -> while fuel e st = Some st' -> I st'.
Proof.
  intros Hstep. induction fuel as [|fuel IH]; intros st st' Hi H;
    [discriminate|].
  cbn [while] in H. destruct (loopGuard e st) eqn:Hg.
  - eapply IH; [|exact H]. now apply Hstep.
  - now injection H as <-.
Qed.

(** The state invariant: the labels pushed so far are the printed forms of
    minutes [ts] that satisfy [P], lie [d] apart, and end before the
    clock; the clock never falls below [lo]. *)
Variable lo : Z.
Variable P : Z -> Prop.
Hypothesis breakEnd_lo :
  forall c b, lo <= c -> env_breakEnd e = Some b -> c < b -> lo <= b.
Hypothesis P_push :
  forall c fin, lo <= c -> env_endTime e = Some fin -> c + d <= fin ->
    JS.ge (Some c) (env_breakStart e) && JS.lt (Some c) (env_breakEnd e)
    = false ->
    P c.

Definition slotsInv (st : LoopState) : Prop :=
  exists ts, slots st = map timeString ts /\ spaced d ts
    /\ Forall (fun t => lo <= t /\ P t) ts
    /\ match currentTime st with
       | Some c => lo <= c /\ Forall (fun t => t + d <= c) ts
       | None => ts = []
       end.

Lemma slotsInv_step st :
  slotsInv st -> loopGuard e st = true -> slotsInv (loopBody e st).
Proof.
  intros (ts & Hsl & Hsp & HP & Hcur) Hg.
  destruct (loopGuard_true _ Hg) as (c & fin & Hc & Hfin & Hle).
  rewrite Hc in Hcur. destruct Hcur as [Hlo Hbefore].
  unfold loopBody. rewrite Hc, e_duration.
  destruct (JS.ge (Some c) (env_breakStart e) && JS.lt (Some c) (env_breakEnd e))
    eqn:Hb.
  - exists ts. cbn [slots currentTime]. repeat split; auto.
    apply andb_prop in Hb as [_ Hb].
    destruct (env_breakEnd e) as [b|] eqn:Eb; [|discriminate Hb].
    cbn in Hb. apply Z.ltb_lt in Hb. split.
    + eapply breakEnd_lo; eauto.
    + eapply Forall_impl; [|exact Hbefore]. cbn. intros; lia.
  - exists (ts ++ [c]). cbn [slots currentTime JS.add].
    split; [now rewrite Hsl, map_app|].
    split; [now apply spaced_snoc|].
    split.
    { apply Forall_app; split; [exact HP|].
      constructor; [|constructor]. split; [exact Hlo|].
      eapply P_push; eauto. }
    split; [lia|].
    apply Forall_app; split.
    + eapply Forall_impl; [|exact Hbefore]. cbn. intros; lia.
    + constructor; [lia|constructor].
Qed.

Lemma slotsInv_exit fuel start st' :
  (forall c, start = Some c -> lo <= c) ->
  while fuel e {| currentTime := start; slots := [] |} = Some st' ->
  exists ts, slots st' = map timeString ts /\ spaced d ts
             /\ Forall (fun t => lo <= t /\ P t) ts.
Proof.
  intros Hstart H.
  assert (Hinv : slotsInv st').
  { eapply (while_invariant slotsInv); [exact slotsInv_step| |exact H].
    exists []. cbn. repeat split; auto.
    destruct start; [split; auto|reflexivity]. }
  destruct Hinv as (ts & Hsl & Hsp & HP & _). eauto.
Qed.

End Loop.
End SlotLoop.

(** ** Doctor availability: slots and availability checks *)

Section DoctorSlots.
Import JS Doctor SlotLoop.
#[local] Open Scope list_scope.

Variable Date : Type.
Variable weekdayLong : Date -> string.

Let generateTimeSlots := Doctor.generateTimeSlots Date weekdayLong.
Let checkAvailability := Doctor.checkAvailability Date weekdayLong.

Lemma generateTimeSlots_working fuel this date :
  includes (workingDays (availability this)) (weekdayLong date) = true ->
  generateTimeSlots fuel this date =
  option_map slots
    (while fuel (loopEnvOf (availability this))
       {| currentTime := minutesOf (startTime (availability this));
          slots := [] |}).
Proof.
  intros Hd. unfold generateTimeSlots, Doctor.generateTimeSlots.
  rewrite Hd. cbn [negb]. now destruct (while _ _ _).
Qed.

Lemma generateTimeSlots_returns this date :
  0 < slotDuration (availability this) ->
  exists n, forall fuel, (n <= fuel)%nat ->
    exists result, generateTimeSlots fuel this date = Some result.
Proof.
  intros Hd.
  destruct (includes (workingDays (availability this)) (weekdayLong date))
    eqn:Hday.
  - set (st0 := {| currentTime := minutesOf (startTime (availability this));
                   slots := [] |}).
    exists (enoughFuel (loopEnvOf (availability this)) st0). intros fuel Hf.
    destruct (while_terminates (loopEnvOf (availability this)) _ Hd eq_refl
                fuel st0 Hf) as (st' & Hw & _).
    exists (slots st'). rewrite generateTimeSlots_working by assumption.
    fold st0. now rewrite Hw.
  - exists 0%nat. intros fuel _. exists [].
    unfold generateTimeSlots, Doctor.generateTimeSlots. now rewrite Hday.
Qed.

Lemma validAvailability_times a :
  validAvailability a = true ->
  (exists start, 0 <= start <= 1439 /\ minutesOf (startTime a) = Some start)
  /\ (exists fin, 0 <= fin <= 1439 /\ minutesOf (endTime a) = Some fin)
  /\ (exists bs, 0 <= bs <= 1439 /\ minutesOf (breakStart a) = Some bs)
  /\ (exists be, 0 <= be <= 1439 /\ minutesOf (breakEnd a) = Some be)
  /\ In (slotDuration a) slotDurationEnum.
Proof.
  unfold validAvailability. intros H.
  apply andb_prop in H as [H H5]. apply andb_prop in H as [H H4].
  apply andb_prop in H as [H H3]. apply andb_prop in H as [H1 H2].
  repeat split; try now apply JSFacts.minutesOf_matchTime.
  apply existsb_exists in H5 as (x & Hx & Hxe).
  apply Z.eqb_eq in Hxe. now rewrite Hxe.
Qed.

Lemma slotDurationEnum_pos d : In d slotDurationEnum -> 0 < d.
Proof.
  unfold slotDurationEnum. simpl. intros H.
  repeat (destruct H as [<-|H]; [lia|]). contradiction.
Qed.

(** C10: for a slot duration permitted by the schema, every pass through
    the loop of [generateTimeSlots] moves [currentTime] strictly forward,
    either by the positive [slotDuration] or by a jump to a [breakEnd] that
    lies strictly ahead, and the loop (hence the method) terminates: from
    every state all sufficiently large fuels reach a state whose guard is
    false. *)
Theorem generateTimeSlots_loop_terminates :
  forall (this : Doctor.t) (date : Date),
    In (slotDuration (availability this)) slotDurationEnum ->
    let e := loopEnvOf (availability this) in
    (forall st, loopGuard e st = true ->
       JS.lt (currentTime st) (currentTime (loopBody e st)) = true
       /\ (currentTime (loopBody e st)
           = JS.add (currentTime st) (Some (slotDuration (availability this)))
           \/ (currentTime (loopBody e st) = env_breakEnd e
               /\ JS.lt (currentTime st) (env_breakEnd e) = true)))
    /\ (forall st, exists n, forall fuel, (n <= fuel)%nat ->
          exists st', while fuel e st = Some st' /\ loopGuard e st' = false)
    /\ (exists n, forall fuel, (n <= fuel)%nat ->
          exists result, generateTimeSlots fuel this date = Some result).
Proof.
  intros this date Hin e.
  pose proof (slotDurationEnum_pos _ Hin) as Hd.
  split; [|split].
  - intros st Hg. split.
    + exact (loopBody_advances e _ Hd eq_refl st Hg).
    + unfold loopBody.
      destruct (JS.ge (currentTime st) (env_breakStart e)
                && JS.lt (currentTime st) (env_breakEnd e)) eqn:Hb.
      * right. apply andb_prop in Hb as [_ Hb]. now split.
      * left. reflexivity.
  - intros st. exists (enoughFuel e st). intros fuel Hf.
    exact (while_terminates e _ Hd eq_refl fuel st Hf).
  - now apply generateTimeSlots_returns.
Qed.

(** C9: with a positive slot duration the slots returned by
    [generateTimeSlots], read as minutes since midnight, are strictly
    increasing, consecutive ones are at least [slotDuration] apart, and so
    the intervals [s, s + slotDuration) of any two of them are disjoint;
    and the method does return such a list. *)
Theorem generateTimeSlots_slots_disjoint :
  forall (this : Doctor.t) (date : Date),
    let d := slotDuration (availability this) in
    0 < d ->
    (exists fuel result, generateTimeSlots fuel this date = Some result)
    /\ forall fuel result,
         generateTimeSlots fuel this date = Some result ->
         exists ts,
           map minutesOf result = map Some ts
           /\ spaced d ts
           /\ forall i j ti tj, (i < j)%nat ->
                nth_error ts i = Some ti -> nth_error ts j = Some tj ->
                ti < tj /\ ti + d <= tj.
Proof.
  intros this date d Hd. split.
  { destruct (generateTimeSlots_returns this date Hd) as (n & Hn).
    exists n. apply Hn. lia. }
  intros fuel result Hres.
  destruct (includes (workingDays (availability this)) (weekdayLong date))
    eqn:Hday.
  - rewrite generateTimeSlots_working in Hres by assumption.
    destruct (while _ _ _) as [st'|] eqn:Hw; [|discriminate].
    injection Hres as <-.
    assert (Hbe : forall c b, 0 <= c ->
              env_breakEnd (loopEnvOf (availability this)) = Some b ->
              c < b -> 0 <= b).
    { intros c b _ Hb _. cbn in Hb. eapply JSFacts.minutesOf_nonneg; eauto. }
    assert (Hst : forall c,
              minutesOf (startTime (availability this)) = Some c -> 0 <= c).
    { intros c Hc. eapply JSFacts.minutesOf_nonneg; eauto. }
    destruct (slotsInv_exit (loopEnvOf (availability this)) d Hd eq_refl
                0 (fun _ => True) Hbe
                (fun _ _ _ _ _ _ => I) fuel _ st' Hst Hw)
      as (ts & Hsl & Hsp & Hlo).
    exists ts. split; [|split; [exact Hsp|]].
      * rewrite Hsl. clear - Hlo.
        induction Hlo as [|t ts [Ht _] _ IH]; [reflexivity|]. cbn [map].
        now rewrite IH, JSFacts.minutesOf_timeString.
      * intros i j ti tj Hij Hi Hj.
        assert (ti + d <= tj)
          by (eapply spaced_pairwise; [| |exact Hij| |]; eauto; lia).
        lia.
  - unfold generateTimeSlots, Doctor.generateTimeSlots in Hres.
    rewrite Hday in Hres. injection Hres as <-.
    exists []. repeat split; auto; destruct i; discriminate.
Qed.

(** C3: on a day that is not a working day [generateTimeSlots] returns the
    empty list; on a working day, for an availability that passes schema
    validation, it returns a list each of whose slots is a zero-padded
    [HH:MM] label that, read as minutes [s] since midnight, satisfies
    [startTime <= s], [s + slotDuration <= endTime] and lies outside
    [breakStart, breakEnd). *)
Theorem generateTimeSlots_slots_within_hours :
  forall (this : Doctor.t) (date : Date),
    let a := availability this in
    (includes (workingDays a) (weekdayLong date) = false ->
     forall fuel, generateTimeSlots fuel this date = Some [])
    /\ (includes (workingDays a) (weekdayLong date) = true ->
        validAvailability a = true ->
        exists start fin bs be,
          minutesOf (startTime a) = Some start
          /\ minutesOf (endTime a) = Some fin
          /\ minutesOf (breakStart a) = Some bs
          /\ minutesOf (breakEnd a) = Some be
          /\ (exists fuel result,
                generateTimeSlots fuel this date = Some result)
          /\ forall fuel result,
               generateTimeSlots fuel this date = Some result ->
               Forall (fun slot =>
                         JSFacts.isPaddedTime slot = true
                         /\ exists s, minutesOf slot = Some s
                              /\ start <= s
                              /\ s + slotDuration a <= fin
                              /\ ~ (bs <= s < be))
                      result).
Proof.
  intros this date a. split.
  { intros Hday fuel. unfold generateTimeSlots, Doctor.generateTimeSlots.
    fold a. now rewrite Hday. }
  intros Hday Hvalid.
  destruct (validAvailability_times a Hvalid)
    as ((start & Hstart & Es) & (fin & Hfin & Ef) & (bs & Hbs & Ebs)
        & (be & Hbe & Ebe) & Hin).
  pose proof (slotDurationEnum_pos _ Hin) as Hd.
  exists start, fin, bs, be. repeat (split; [assumption|]). split.
  { destruct (generateTimeSlots_returns this date Hd) as (n & Hn).
    exists n. apply Hn. lia. }
  intros fuel result Hres.
  rewrite generateTimeSlots_working in Hres by assumption. fold a in Hres.
  destruct (while _ _ _) as [st'|] eqn:Hw; [|discriminate].
  injection Hres as <-.
  assert (Hpush : forall c fin', start <= c ->
            env_endTime (loopEnvOf a) = Some fin' ->
            c + slotDuration a <= fin' ->
            JS.ge (Some c) (env_breakStart (loopEnvOf a))
            && JS.lt (Some c) (env_breakEnd (loopEnvOf a)) = false ->
            c + slotDuration a <= fin /\ ~ (bs <= c < be)).
  { intros c fin' Hc Hfin' Hle Hb. cbn in Hfin'. fold a in Hfin'.
    rewrite Ef in Hfin'. injection Hfin' as <-. split; [exact Hle|].
    cbn in Hb. fold a in Hb. rewrite Ebs, Ebe in Hb. cbn in Hb.
    apply andb_false_iff in Hb as [Hb|Hb];
      [apply Z.leb_gt in Hb|apply Z.ltb_ge in Hb]; lia. }
  assert (Hst : forall c, minutesOf (startTime a) = Some c -> start <= c).
  { rewrite Es. intros c [= <-]. lia. }
  destruct (slotsInv_exit (loopEnvOf a) (slotDuration a) Hd eq_refl
              start
              (fun s => s + slotDuration a <= fin /\ ~ (bs <= s < be))
              (fun c b H1 _ H2 => Z.le_trans _ _ _ H1 (Z.lt_le_incl _ _ H2))
              Hpush fuel _ st' Hst Hw) as (ts & Hsl & _ & HP).
  rewrite Hsl. clear - HP Hstart Hfin Hd.
    induction HP as [|t ts (Ht & Hle & Hbr) _ IH]; constructor; [|exact IH].
    split.
    + apply JSFacts.isPaddedTime_timeString. lia.
    + exists t. rewrite JSFacts.minutesOf_timeString by lia. auto.
Qed.


End DoctorSlots.

(** ** Doctor ratings *)

Module RatingFacts.
Import Doctor.

Definition nonnegCounts (b : Breakdown) : Prop :=
  0 <= b1 b /\ 0 <= b2 b /\ 0 <= b3 b /\ 0 <= b4 b /\ 0 <= b5 b.

Definition countSum (b : Breakdown) : Z := b1 b + b2 b + b3 b + b4 b + b5 b.

Definition weightedSum (b : Breakdown) : Z :=
  1 * b1 b + 2 * b2 b + 3 * b3 b + 4 * b4 b + 5 * b5 b.

Lemma mathRound_quotient s t :
  0 < t ->
  mathRound (inject_Z s / inject_Z t * inject_Z 10) = (20 * s + t) / (2 * t).
Proof.
  intros Ht. unfold mathRound.
  destruct t as [|p|p]; try lia.
  transitivity (Qfloor ((20 * s + Z.pos p) # (2 * p))).
  - apply Qfloor_comp.
    unfold Qeq, Qplus, Qmult, Qdiv, Qinv, inject_Z. cbn [Qnum Qden].
    unfold Qmult. cbn [Qnum Qden]. rewrite ?Pos2Z.inj_mul. ring.
  - reflexivity.
Qed.

(** The setter leaves the tenth nearest to the quotient, halves going
    up. *)
Lemma averageSetter_nearest_tenth s t :
  0 < t ->
  exists n,
    averageSetter (inject_Z s / inject_Z t) = (inject_Z n / inject_Z 10)%Q
    /\ 2 * t * n <= 20 * s + t < 2 * t * (n + 1).
Proof.
  intros Ht. exists ((20 * s + t) / (2 * t)). split.
  - unfold averageSetter. now rewrite mathRound_quotient.
  - pose proof (Z.div_mod (20 * s + t) (2 * t) ltac:(lia)).
    pose proof (Z.mod_pos_bound (20 * s + t) (2 * t) ltac:(lia)).
    nia.
Qed.

(** C5: [updateRating(r)] throws and leaves the rating untouched when the
    integer [r] is below 1 or above 5; otherwise it adds one to
    [breakdown[r]] only, sets [totalReviews] to the sum of the five counts
    and, the counts being non-negative, sets [average] to the weighted sum
    over [totalReviews] as rounded by the schema setter, that is to the
    nearest tenth with halves rounded up. *)
Theorem updateRating_spec :
  forall (this : Rating) (r : Z),
    (r < 1 \/ r > 5 ->
     exists msg, thrown (updateRating this r) = Some msg
                 /\ ratingAfter (updateRating this r) = this)
    /\ (1 <= r <= 5 ->
        let after := ratingAfter (updateRating this r) in
        thrown (updateRating this r) = None
        /\ getCount (breakdown after) r = getCount (breakdown this) r + 1
        /\ (forall k, 1 <= k <= 5 -> k <> r ->
              getCount (breakdown after) k = getCount (breakdown this) k)
        /\ totalReviews after = countSum (breakdown after)
        /\ (nonnegCounts (breakdown this) ->
            0 < totalReviews after
            /\ average after
               = averageSetter (inject_Z (weightedSum (breakdown after))
                                / inject_Z (totalReviews after))
            /\ exists n,
                 average after = (inject_Z n / inject_Z 10)%Q
                 /\ 2 * totalReviews after * n
                    <= 20 * weightedSum (breakdown after)
                       + totalReviews after
                    < 2 * totalReviews after * (n + 1))).
Proof.
  intros this r. split.
  - intros Hr. unfold updateRating.
    assert (Hc : (r <? 1) || (r >? 5) = true).
    { apply orb_true_iff. destruct Hr; [left; apply Z.ltb_lt|right; apply Z.gtb_lt]; lia. }
    rewrite Hc. eexists. split; reflexivity.
  - intros Hr after.
    assert (Hc : (r <? 1) || (r >? 5) = false).
    { apply orb_false_iff. split; [apply Z.ltb_ge|rewrite Z.gtb_ltb; apply Z.ltb_ge]; lia. }
    unfold after, updateRating. rewrite Hc. cbn [thrown ratingAfter breakdown totalReviews average].
    set (b' := setCount (breakdown this) r (getCount (breakdown this) r + 1)).
    assert (Hsum : fold_left (fun sum count => sum + count) (values b') 0
                   = countSum b').
    { unfold values, entries, countSum. cbn. lia. }
    assert (Hw : fold_left (fun sum '(rating, count) => sum + rating * count)
                   (entries b') 0 = weightedSum b').
    { unfold entries, weightedSum. cbn. lia. }
    rewrite Hsum, Hw.
    assert (Hcases : r = 1 \/ r = 2 \/ r = 3 \/ r = 4 \/ r = 5) by lia.
    split; [reflexivity|]. split.
    { unfold b'. destruct Hcases as [->|[->|[->|[->| ->]]]]; reflexivity. }
    split.
    { intros k Hk Hne. unfold b'.
      assert (Hk' : k = 1 \/ k = 2 \/ k = 3 \/ k = 4 \/ k = 5) by lia.
      destruct Hcases as [->|[->|[->|[->| ->]]]];
        destruct Hk' as [->|[->|[->|[->| ->]]]];
        try reflexivity; contradiction. }
    split; [reflexivity|].
    intros (H1 & H2 & H3 & H4 & H5).
    assert (Hpos : 0 < countSum b').
    { unfold b', countSum.
      destruct Hcases as [->|[->|[->|[->| ->]]]]; cbn; lia. }
    split; [exact Hpos|]. split; [reflexivity|].
    apply averageSetter_nearest_tenth. exact Hpos.
Qed.

End RatingFacts.

(** ** Conflict detection *)

Module ConflictFacts.
Import Appointment.
#[local] Open Scope list_scope.



Lemma filter_filter {A} (f g : A -> bool) (l : list A) :
  filter f (filter g l) = filter (fun x => g x && f x) l.
Proof.
  induction l as [|x l IH]; [reflexivity|]. cbn [filter].
  destruct (g x); cbn [filter andb]; [destruct (f x)|]; now rewrite IH.
Qed.

Lemma includes_In xs x : JS.includes xs x = true <-> In x xs.
Proof.
  unfold JS.includes. rewrite existsb_exists. split.
  - intros (y & Hy & He). apply String.eqb_eq in He. now subst.
  - intros H. exists x. split; [exact H|apply String.eqb_refl].
Qed.

Lemma aptDuration_valid apt :
  15 <= duration apt <= 120 -> aptDuration apt = duration apt.
Proof.
  intros H. unfold aptDuration.
  destruct (Z.eqb_spec (duration apt) 0); [lia|reflexivity].
Qed.


End ConflictFacts.

(** ** The patient's age *)

Module AgeFacts.
Import Patient.

(** Calendar days compared as (year, month, day). *)
Definition dayLe (a b : Z * Z * Z) : Prop :=
  let '(y1, m1, d1) := a in
  let '(y2, m2, d2) := b in
  y1 < y2 \/ (y1 = y2 /\ (m1 < m2 \/ (m1 = m2 /\ d1 <= d2))).

(** The birth month/day has not yet occurred in the current year. *)
Definition birthdayPending (todayMonth todayDate birthMonth birthDate : Z)
  : bool :=
  (todayMonth <? birthMonth)
  || ((todayMonth =? birthMonth) && (todayDate <? birthDate)).

Section Calendar.

Variables getFullYear getMonth getDate : Z -> Z.

Let age := Patient.age getFullYear getMonth getDate.

(** C8: without a [dateOfBirth] the [age] virtual is null; with one it is
    the difference of the calendar years of today and of the birth date,
    less one when the birth month/day has not yet occurred this year.
    That number is the count of birthdays reached: the [n]-th birthday is
    not after today and the next one is. *)
Theorem age_spec :
  forall (now : Z) (this : Patient.t),
    (dateOfBirth this = None -> age now this = None)
    /\ (forall birth, dateOfBirth this = Some birth ->
          let years := getFullYear now - getFullYear birth in
          let today := (getFullYear now, getMonth now, getDate now) in
          let birthday n :=
            (getFullYear birth + n, getMonth birth, getDate birth) in
          age now this
          = Some (if birthdayPending (getMonth now) (getDate now)
                                     (getMonth birth) (getDate birth)
                  then years - 1 else years)
          /\ forall n, age now this = Some n <->
                       dayLe (birthday n) today
                       /\ ~ dayLe (birthday (n + 1)) today).
Proof.
  intros now this. split.
  - intros Hnone. unfold age, Patient.age. now rewrite Hnone.
  - intros birth Hb years today birthday.
    assert (Hage : age now this
                   = Some (if birthdayPending (getMonth now) (getDate now)
                                (getMonth birth) (getDate birth)
                           then years - 1 else years)).
    { unfold age, Patient.age, birthdayPending. rewrite Hb. cbn zeta.
      replace (getMonth now - getMonth birth <? 0)
        with (getMonth now <? getMonth birth)
        by (destruct (Z.ltb_spec (getMonth now) (getMonth birth));
            destruct (Z.ltb_spec (getMonth now - getMonth birth) 0);
            reflexivity || lia).
      replace (getMonth now - getMonth birth =? 0)
        with (getMonth now =? getMonth birth)
        by (destruct (Z.eqb_spec (getMonth now) (getMonth birth));
            destruct (Z.eqb_spec (getMonth now - getMonth birth) 0);
            reflexivity || lia).
      now destruct (_ || _). }
    split; [exact Hage|]. intros n. rewrite Hage.
    unfold birthday, today, dayLe, birthdayPending, years.
    destruct (Z.ltb_spec (getMonth now) (getMonth birth));
      destruct (Z.eqb_spec (getMonth now) (getMonth birth));
      destruct (Z.ltb_spec (getDate now) (getDate birth));
      cbn [orb andb]; split;
      try (intros [= <-]; lia); intros [H1 H2]; f_equal; lia.
Qed.

End Calendar.
End AgeFacts.

(** ** Creating patients *)

Module PatientRouteFacts.
Import JS Patient PatientRoutes.
#[local] Open Scope list_scope.

Lemma lowerChar_idem c : lowerChar (lowerChar c) = lowerChar c.
Proof. destruct c as [[|] [|] [|] [|] [|] [|] [|] [|]]; reflexivity. Qed.

Lemma isSpace_lowerChar c : isSpace (lowerChar c) = isSpace c.
Proof. destruct c as [[|] [|] [|] [|] [|] [|] [|] [|]]; reflexivity. Qed.

Lemma toLowerCase_idem s : toLowerCase (toLowerCase s) = toLowerCase s.
Proof.
  induction s as [|c s IH]; [reflexivity|]. cbn [toLowerCase].
  now rewrite lowerChar_idem, IH.
Qed.

Lemma toLowerCase_trimStart s :
  toLowerCase (trimStart s) = trimStart (toLowerCase s).
Proof.
  induction s as [|c s IH]; [reflexivity|]. cbn [toLowerCase trimStart].
  rewrite isSpace_lowerChar. now destruct (isSpace c).
Qed.

Lemma toLowerCase_trimEnd s :
  toLowerCase (trimEnd s) = trimEnd (toLowerCase s).
Proof.
  induction s as [|c s IH]; [reflexivity|]. cbn [toLowerCase trimEnd].
  rewrite <- IH. destruct (trimEnd s) as [|c' r]; cbn [toLowerCase].
  - rewrite isSpace_lowerChar. now destruct (isSpace c).
  - reflexivity.
Qed.

Lemma toLowerCase_trim s : toLowerCase (trim s) = trim (toLowerCase s).
Proof.
  unfold trim. now rewrite toLowerCase_trimEnd, toLowerCase_trimStart.
Qed.

(** No leading whitespace. *)
Definition startsClean (s : string) : bool :=
  match s with
  | EmptyString => true
  | String c _ => negb (isSpace c)
  end.

Lemma trimStart_clean s : startsClean (trimStart s) = true.
Proof.
  induction s as [|c s IH]; [reflexivity|]. cbn [trimStart].
  destruct (isSpace c) eqn:Hc; [exact IH|]. cbn. now rewrite Hc.
Qed.

Lemma trimStart_of_clean s : startsClean s = true -> trimStart s = s.
Proof.
  destruct s as [|c s]; [reflexivity|]. cbn. now destruct (isSpace c).
Qed.

Lemma trimEnd_clean s : startsClean s = true -> startsClean (trimEnd s) = true.
Proof.
  destruct s as [|c s]; [reflexivity|]. cbn [startsClean trimEnd].
  intros Hc. destruct (trimEnd s); [|exact Hc].
  destruct (isSpace c) eqn:E; [discriminate|]. cbn. now rewrite E.
Qed.

Lemma trimEnd_idem s : trimEnd (trimEnd s) = trimEnd s.
Proof.
  induction s as [|c s IH]; [reflexivity|]. cbn [trimEnd].
  destruct (trimEnd s) as [|c' r] eqn:E.
  - destruct (isSpace c) eqn:Hc; [reflexivity|]. cbn. now rewrite Hc.
  - cbn [trimEnd]. cbn [trimEnd] in IH.
    destruct (trimEnd r) as [|c'' r'] eqn:E'.
    + destruct (isSpace c'); [discriminate|]. now rewrite IH.
    + now rewrite IH.
Qed.

Lemma trim_idem s : trim (trim s) = trim s.
Proof.
  unfold trim.
  rewrite (trimStart_of_clean (trimEnd (trimStart s)))
    by (apply trimEnd_clean, trimStart_clean).
  apply trimEnd_idem.
Qed.

(** A stored email is a fixed point of the schema setters. *)
Lemma emailSetter_idem s : emailSetter (emailSetter s) = emailSetter s.
Proof.
  unfold emailSetter.
  now rewrite toLowerCase_trim, toLowerCase_idem, trim_idem.
Qed.

Lemma findOne_some collection em idn p :
  In p collection ->
  (exists e, em = Some e /\ emailSetter e = email p)
  \/ idn = Some (idNumber p) ->
  exists q, findOneByEmailOrIdNumber collection em idn = Some q.
Proof.
  intros Hin Hmatch. unfold findOneByEmailOrIdNumber.
  destruct (find _ collection) as [q|] eqn:Hf; [eauto|].
  exfalso. apply (find_none _ _ Hf) in Hin. apply orb_false_iff in Hin.
  destruct Hin as [H1 H2]. destruct Hmatch as [(e & -> & He)| ->].
  - rewrite He, String.eqb_refl in H1. discriminate.
  - rewrite String.eqb_refl in H2. discriminate.
Qed.

Section Handlers.

Variable parseDate : string -> option Z.

Let createPatient := PatientRoutes.createPatient parseDate.
Let register := PatientRoutes.register parseDate.

(** C7, as the handlers implement it: a create-patient request whose
    email, once lower-cased and trimmed, equals the email of a stored
    patient, or whose idNumber (as sent for [POST /api/patients], trimmed
    for [POST /api/patients/register]) equals the idNumber of a stored
    patient, is answered with status 400 and the collection is left as it
    was. *)
Theorem create_patient_rejects_duplicates :
  forall (newId generatedPatientId : string) (collection : list Patient.t)
         (stored : Patient.t),
    In stored collection ->
    (forall patientData : PatientData,
       (exists e, pd_email patientData = Some e
                  /\ trim (toLowerCase e) = email stored)
       \/ pd_idNumber patientData = Some (idNumber stored) ->
       exists msg,
         createPatient newId generatedPatientId patientData collection
         = ({| statusCode := 400; message := msg |}, collection))
    /\ (forall body : RegisterBody,
          (exists e, rb_email body = Some e
                     /\ trim (toLowerCase e) = email stored)
          \/ (exists i, rb_idNumber body = Some i
                        /\ trim i = idNumber stored) ->
          exists msg,
            register newId generatedPatientId body collection
            = ({| statusCode := 400; message := msg |}, collection)).
Proof.
  intros newId gen collection stored Hin. split.
  - intros pd Hdup. unfold createPatient, PatientRoutes.createPatient.
    destruct (findOne_some collection (pd_email pd) (pd_idNumber pd) stored
                Hin) as (q & ->); [|eauto].
    destruct Hdup as [(e & He & Hs)|Hi]; [left|right; exact Hi].
    exists e. split; [exact He|exact Hs].
  - intros body Hdup. unfold register, PatientRoutes.register.
    destruct (rb_firstName body) as [fn|]; [|eauto].
    destruct (rb_lastName body) as [ln|]; [|eauto].
    destruct (rb_dateOfBirth body) as [dob|]; [|eauto].
    destruct (rb_gender body) as [g|]; [|eauto].
    destruct (rb_idNumber body) as [idn|] eqn:Ei; [|eauto].
    destruct (rb_email body) as [em|] eqn:Ee; [|eauto].
    destruct (rb_phone body) as [ph|]; [|eauto].
    destruct (rb_address body) as [ad|]; [|eauto].
    destruct (rb_city body) as [ci|]; [|eauto].
    destruct (_ || _); [eauto|].
    destruct (findOne_some collection (Some (trim (toLowerCase em)))
                (Some (trim idn)) stored Hin) as (q & ->); [|eauto].
    destruct Hdup as [(e & [= <-] & Hs)|(i & [= <-] & Hs)].
    + left. exists (trim (toLowerCase em)). split; [reflexivity|].
      rewrite <- Hs. apply emailSetter_idem.
    + right. now rewrite Hs.
Qed.

End Handlers.
End PatientRouteFacts.

(** ** Token guards *)

Module AuthFacts.
Import Auth.

Section WithJwt.

Variable verify : string -> Verified.
Variable findById : option string -> string -> option Account.

Let authenticateToken := Auth.authenticateToken verify.
Let auth := Auth.auth verify findById.




End WithJwt.
End AuthFacts.

(** ** Appointment writes and double booking *)

Module WriteFacts.
Import AppointmentWrites.
#[local] Open Scope list_scope.

(** The booking route never sets the required [doctor] path, so its
    [save()] is always refused. *)
Lemma book_never_persists newId gen patientId body db :
  snd (book newId gen patientId body db) = db.
Proof.
  unfold book. destruct (Patient.findOneByPatientId _ _) as [p|];
    [|reflexivity].
  unfold Appointment.insert, Appointment.validate.
  cbn [Appointment.d_patient Appointment.d_patientId Appointment.d_doctor].
  destruct (Appointment.requiredString (Some (Patient._id p)));
    destruct (Appointment.requiredString (Some (Patient.patientId p)));
    reflexivity.
Qed.

(** The reschedule route sets a status outside the schema's enum, so its
    [save()] is always refused. *)
Lemma reschedule_never_persists appointmentId newDate newTime db :
  snd (reschedule appointmentId newDate newTime db) = db.
Proof.
  unfold reschedule.
  destruct (Appointment.findById _ _) as [a|]; [|reflexivity].
  destruct (find _ _); [reflexivity|].
  unfold Appointment.update, Appointment.validate, Appointment.draftOf.
  cbn [Appointment.d_patient Appointment.d_patientId Appointment.d_doctor
       Appointment.d_doctorId Appointment.d_appointmentDate
       Appointment.d_appointmentTime Appointment.d_reason
       Appointment.d_duration Appointment.d_status].
  destruct (Appointment.requiredString (Some (Appointment.patient a)));
    [|reflexivity].
  destruct (Appointment.requiredString (Some (Appointment.patientId a)));
    [|reflexivity].
  destruct (Appointment.requiredString (Some (Appointment.doctor a)));
    [|reflexivity].
  destruct (Appointment.requiredString (Some (Appointment.doctorId a)));
    [|reflexivity].
  destruct (Appointment.requiredString (Some newTime)); [|reflexivity].
  destruct (Appointment.requiredString
              (option_map JS.trim (Some (Appointment.reason a))));
    [|reflexivity].
  replace (JS.includes Appointment.statusEnum "rescheduled") with false
    by reflexivity.
  now rewrite andb_false_r.
Qed.


End WriteFacts.

(** ** Worked examples *)

Module Examples.
Import Samples.
#[local] Open Scope list_scope.

Example slots_of_sample_doctor :
  Doctor.generateTimeSlots Z weekdayOfDay 40 doctor 1
  = Some ["09:00"; "09:30"; "10:00"; "10:30"; "11:00"; "11:30"; "12:00";
          "12:30"; "14:00"; "14:30"; "15:00"; "15:30"; "16:00"; "16:30"].
Proof. vm_compute. reflexivity. Qed.

Example conflicts_in_sample_book :
  map Appointment._id
      (Appointment.findConflicts appointmentBook "DOC001" 20250310 "9:15"
         (Some 60) None)
  = ["a1"; "a3"].
Proof. vm_compute. reflexivity. Qed.


(** A registration whose idNumber equals a stored one, leading space
    included, is answered 201 and a second document is created. *)
Lemma register_accepts_stored_idNumber :
  patientsAfterCreate = [storedPatient]
  /\ PatientRoutes.rb_idNumber registerBody
     = Some (Patient.idNumber storedPatient)
  /\ PatientRoutes.statusCode
       (fst (PatientRoutes.register parseDate "p2" "PAT000002" registerBody
               patientsAfterCreate)) = 201
  /\ List.length
       (snd (PatientRoutes.register parseDate "p2" "PAT000002" registerBody
               patientsAfterCreate)) = 2%nat.
Proof. repeat split. Qed.

Lemma generateTimeSlots_loop_terminates_witness :
  In (Doctor.slotDuration (Doctor.availability doctor)) Doctor.slotDurationEnum
  /\ exists n, forall fuel, (n <= fuel)%nat ->
       exists result,
         Doctor.generateTimeSlots Z weekdayOfDay fuel doctor 1 = Some result.
Proof.
  assert (H : In (Doctor.slotDuration (Doctor.availability doctor))
                 Doctor.slotDurationEnum)
    by (right; right; left; reflexivity).
  split; [exact H|].
  exact (proj2 (proj2 (generateTimeSlots_loop_terminates Z weekdayOfDay
                         doctor 1 H))).
Defined.

Lemma generateTimeSlots_slots_disjoint_witness :
  0 < Doctor.slotDuration (Doctor.availability doctor)
  /\ exists fuel result,
       Doctor.generateTimeSlots Z weekdayOfDay fuel doctor 1 = Some result.
Proof.
  assert (H : 0 < Doctor.slotDuration (Doctor.availability doctor))
    by reflexivity.
  split; [exact H|].
  exact (proj1 (generateTimeSlots_slots_disjoint Z weekdayOfDay doctor 1 H)).
Defined.

Lemma generateTimeSlots_slots_within_hours_witness :
  JS.includes (Doctor.workingDays (Doctor.availability doctor))
                  (weekdayOfDay 1) = true
  /\ Doctor.validAvailability (Doctor.availability doctor) = true
  /\ Doctor.generateTimeSlots Z weekdayOfDay 5 doctor 0 = Some []
  /\ exists start fin bs be,
       JS.minutesOf "09:00" = Some start /\ JS.minutesOf "17:00" = Some fin
       /\ JS.minutesOf "13:00" = Some bs /\ JS.minutesOf "14:00" = Some be.
Proof.
  split; [reflexivity|]. split; [reflexivity|].
  destruct (generateTimeSlots_slots_within_hours Z weekdayOfDay doctor 1)
    as [_ Hworking].
  split.
  - exact (proj1 (generateTimeSlots_slots_within_hours Z weekdayOfDay
                    doctor 0) eq_refl 5%nat).
  - destruct (Hworking eq_refl eq_refl)
      as (start & fin & bs & be & Hs & Hf & Hbs & Hbe & _).
    exists start, fin, bs, be. repeat split; assumption.
Defined.


(** A time string that denotes no minute passes both range tests of
    [checkAvailability], every comparison with NaN being false. *)
Example checkAvailability_unreadable_time :
  JS.minutesOf "noon" = JS.NaN
  /\ Doctor.checkAvailability Z weekdayOfDay doctor 1 "noon"
     = {| Doctor.available := true; Doctor.reason := None |}.
Proof. split; reflexivity. Qed.

Lemma updateRating_spec_witness :
  1 <= 4 <= 5
  /\ RatingFacts.nonnegCounts (Doctor.breakdown (Doctor.rating doctor))
  /\ 0 < Doctor.totalReviews
           (Doctor.ratingAfter (Doctor.updateRating (Doctor.rating doctor) 4))
  /\ Doctor.ratingAfter (Doctor.updateRating (Doctor.rating doctor) 7)
     = Doctor.rating doctor.
Proof.
  assert (Hr : 1 <= 4 <= 5) by lia.
  assert (Hn : RatingFacts.nonnegCounts
                 (Doctor.breakdown (Doctor.rating doctor)))
    by (repeat split; discriminate).
  split; [exact Hr|]. split; [exact Hn|]. split.
  - exact (proj1 (proj2 (proj2 (proj2 (proj2
             (proj2 (RatingFacts.updateRating_spec (Doctor.rating doctor) 4)
                    Hr)))) Hn)).
  - destruct (proj1 (RatingFacts.updateRating_spec (Doctor.rating doctor) 7))
      as (msg & _ & Hsame); [right; lia|exact Hsame].
Defined.



Lemma create_patient_rejects_duplicates_witness :
  In storedPatient patientsAfterCreate
  /\ exists msg,
       PatientRoutes.register parseDate "p2" "PAT000002" registerSameEmail
         patientsAfterCreate
       = ({| PatientRoutes.statusCode := 400; PatientRoutes.message := msg |},
          patientsAfterCreate).
Proof.
  assert (Hin : In storedPatient patientsAfterCreate)
    by (left; reflexivity).
  split; [exact Hin|].
  apply (proj2 (PatientRouteFacts.create_patient_rejects_duplicates
                  parseDate "p2" "PAT000002" patientsAfterCreate
                  storedPatient Hin)).
  left. exists " A@X.com". split; reflexivity.
Defined.

Lemma age_spec_witness :
  Patient.dateOfBirth patient = Some 19900615
  /\ Patient.age yearOf monthOf dayOf 20250310 patient = Some 34.
Proof.
  split; [reflexivity|].
  exact (proj1 (proj2 (AgeFacts.age_spec yearOf monthOf dayOf 20250310
                         patient) 19900615 eq_refl)).
Defined.

End Examples.

(** ** Slot labels: printing, reading and displaying *)

Module LabelFacts.
Import JS.
#[local] Open Scope list_scope.

Lemma timeString_schema_table :
  forallb (fun t => Doctor.matchTime (Doctor.timeString t))
          (JSFacts.minutesUpTo 1440) = true.
Proof. vm_compute. reflexivity. Qed.

(** X1: a slot label reads back as the minute it was printed from, and
    within a day it has the form the doctor schema demands of its own time
    fields. *)
Theorem timeString_round_trip :
  forall t : Z,
    0 <= t ->
    minutesOf (Doctor.timeString t) = Some t
    /\ (t < 1440 -> Doctor.matchTime (Doctor.timeString t) = true).
Proof.
  intros t Ht. split; [now apply JSFacts.minutesOf_timeString|].
  intros Hday. pose proof timeString_schema_table as H.
  rewrite forallb_forall in H. apply H. now apply JSFacts.minutesUpTo_In.
Qed.

(** Reading a 12-hour display label back: [h:MM AM] or [h:MM PM] with [h]
    between 1 and 12. *)
Definition displayMinutes (label : string) : option Z :=
  match split " " label with
  | [hm; ampm] =>
      match map Number (split ":" hm) with
      | [Some h; Some m] =>
          if (1 <=? h) && (h <=? 12) && (0 <=? m) && (m <=? 59) then
            if String.eqb ampm "AM" then Some (h mod 12 * 60 + m)
            else if String.eqb ampm "PM" then Some ((h mod 12 + 12) * 60 + m)
            else None
          else None
      | _ => None
      end
  | _ => None
  end.

Definition displayReadsBack (t : Z) : bool :=
  match DoctorRoutes.formatTimeForDisplay (Doctor.timeString t) with
  | Some label =>
      match displayMinutes label with
      | Some t' => t' =? t
      | None => false
      end
  | None => false
  end.

Lemma display_table :
  forallb displayReadsBack (JSFacts.minutesUpTo 1440) = true.
Proof. vm_compute. reflexivity. Qed.

Lemma displayReadsBack_day t : 0 <= t < 1440 -> displayReadsBack t = true.
Proof.
  intros Ht. pose proof display_table as H. rewrite forallb_forall in H.
  apply H. now apply JSFacts.minutesUpTo_In.
Qed.

(** X2: [formatTimeForDisplay] turns every slot label of a day into a
    12-hour label with the hour between 1 and 12 that reads back as the same
    minute, so distinct slots are displayed differently; on a string of
    digits without a colon it throws. *)
Theorem formatTimeForDisplay_round_trip :
  (forall t, 0 <= t < 1440 ->
     exists label,
       DoctorRoutes.formatTimeForDisplay (Doctor.timeString t) = Some label
       /\ displayMinutes label = Some t)
  /\ (forall t1 t2, 0 <= t1 < 1440 -> 0 <= t2 < 1440 ->
        DoctorRoutes.formatTimeForDisplay (Doctor.timeString t1)
        = DoctorRoutes.formatTimeForDisplay (Doctor.timeString t2) ->
        t1 = t2)
  /\ (forall s, JSFacts.allDigits s = true ->
        DoctorRoutes.formatTimeForDisplay s = None).
Proof.
  assert (Hrt : forall t, 0 <= t < 1440 ->
            exists label,
              DoctorRoutes.formatTimeForDisplay (Doctor.timeString t)
              = Some label
              /\ displayMinutes label = Some t).
  { intros t Ht. pose proof (displayReadsBack_day t Ht) as H.
    unfold displayReadsBack in H.
    destruct (DoctorRoutes.formatTimeForDisplay (Doctor.timeString t))
      as [label|]; [|discriminate].
    exists label. split; [reflexivity|].
    destruct (displayMinutes label) as [t'|]; [|discriminate].
    apply Z.eqb_eq in H. now subst. }
  split; [exact Hrt|]. split.
  - intros t1 t2 H1 H2 Heq.
    destruct (Hrt t1 H1) as (l1 & E1 & D1).
    destruct (Hrt t2 H2) as (l2 & E2 & D2).
    rewrite E1, E2 in Heq. injection Heq as ->. congruence.
  - intros s Hs. unfold DoctorRoutes.formatTimeForDisplay.
    now rewrite JSFacts.split_allDigits.
Qed.

End LabelFacts.

(** ** Slots against the availability check *)

Section SlotsAccepted.
Import JS Doctor SlotLoop.
#[local] Open Scope list_scope.

Variable Date : Type.
Variable weekdayLong : Date -> string.

(** The slots of a working day are the labels of minutes that fit between
    the start and the end of the day and start outside the break. *)
Lemma generated_slots_shape (this : Doctor.t) (date : Date) fuel result :
  let a := availability this in
  validAvailability a = true ->
  Doctor.generateTimeSlots Date weekdayLong fuel this date = Some result ->
  exists start fin bs be ts,
    minutesOf (startTime a) = Some start
    /\ minutesOf (endTime a) = Some fin
    /\ minutesOf (breakStart a) = Some bs
    /\ minutesOf (breakEnd a) = Some be
    /\ 0 <= start
    /\ result = map timeString ts
    /\ Forall (fun t => start <= t
                        /\ t + slotDuration a <= fin /\ ~ (bs <= t < be)) ts.
Proof.
  intros a Hvalid Hres.
  destruct (validAvailability_times a Hvalid)
    as ((start & Hstart & Es) & (fin & Hfin & Ef) & (bs & Hbs & Ebs)
        & (be & Hbe & Ebe) & Hin).
  pose proof (slotDurationEnum_pos _ Hin) as Hd.
  exists start, fin, bs, be.
  destruct (includes (workingDays a) (weekdayLong date)) eqn:Hday.
  - rewrite (generateTimeSlots_working Date weekdayLong) in Hres
      by assumption.
    fold a in Hres.
    destruct (while _ _ _) as [st'|] eqn:Hw; [|discriminate].
    injection Hres as <-.
    assert (Hpush : forall c fin', start <= c ->
              env_endTime (loopEnvOf a) = Some fin' ->
              c + slotDuration a <= fin' ->
              JS.ge (Some c) (env_breakStart (loopEnvOf a))
              && JS.lt (Some c) (env_breakEnd (loopEnvOf a)) = false ->
              c + slotDuration a <= fin /\ ~ (bs <= c < be)).
    { intros c fin' Hc Hfin' Hle Hb. cbn in Hfin'. fold a in Hfin'.
      rewrite Ef in Hfin'. injection Hfin' as <-. split; [exact Hle|].
      cbn in Hb. fold a in Hb. rewrite Ebs, Ebe in Hb. cbn in Hb.
      apply andb_false_iff in Hb as [Hb|Hb];
        [apply Z.leb_gt in Hb|apply Z.ltb_ge in Hb]; lia. }
    assert (Hst : forall c, minutesOf (startTime a) = Some c -> start <= c).
    { rewrite Es. intros c [= <-]. lia. }
    destruct (slotsInv_exit (loopEnvOf a) (slotDuration a) Hd eq_refl
                start
                (fun s => s + slotDuration a <= fin /\ ~ (bs <= s < be))
                (fun c b H1 _ H2 =>
                   Z.le_trans _ _ _ H1 (Z.lt_le_incl _ _ H2))
                Hpush fuel _ st' Hst Hw) as (ts & Hsl & _ & HP).
    exists ts. do 5 (split; [assumption || lia|]).
    split; [exact Hsl|].
    eapply Forall_impl; [|exact HP]. cbn. tauto.
  - unfold Doctor.generateTimeSlots in Hres. fold a in Hres.
    rewrite Hday in Hres. injection Hres as <-.
    exists []. do 5 (split; [assumption || lia|]). split; constructor.
Qed.

(** X3: for a doctor who is available and active and whose availability
    passes schema validation, every slot that [generateTimeSlots] offers
    for a date is accepted by [checkAvailability] for that date. *)
Theorem generated_slots_are_available :
  forall (this : Doctor.t) (date : Date) (fuel : nat)
         (result : list string) (slot : string),
    validAvailability (availability this) = true ->
    isAvailable this = true ->
    status this = "active" ->
    Doctor.generateTimeSlots Date weekdayLong fuel this date = Some result ->
    In slot result ->
    Doctor.checkAvailability Date weekdayLong this date slot
    = {| available := true; reason := None |}.
Proof.
  intros this date fuel result slot Hvalid Hav Hst Hres Hin.
  assert (Hday : includes (workingDays (availability this))
                          (weekdayLong date) = true).
  { destruct (includes _ _) eqn:E; [reflexivity|].
    unfold Doctor.generateTimeSlots in Hres. rewrite E in Hres.
    injection Hres as <-. destruct Hin. }
  destruct (generated_slots_shape this date fuel result Hvalid Hres)
    as (start & fin & bs & be & ts & Es & Ef & Ebs & Ebe & Hs0 & -> & HP).
  apply in_map_iff in Hin as (t & <- & Ht).
  rewrite Forall_forall in HP. destruct (HP t Ht) as (H1 & H2 & H3).
  destruct (validAvailability_times _ Hvalid) as (_ & _ & _ & _ & Hd).
  apply slotDurationEnum_pos in Hd.
  unfold Doctor.checkAvailability.
  rewrite Hav, Hst, Hday, Es, Ef, Ebs, Ebe.
  replace (negb true || negb ("active" =? "active")%string) with false
    by reflexivity.
  cbn [negb].
  rewrite JSFacts.minutesOf_timeString by lia. cbn [JS.lt JS.ge JS.le].
  destruct (Z.ltb_spec t start); [lia|].
  destruct (Z.leb_spec fin t); [lia|]. cbn [orb].
  destruct (Z.leb_spec bs t); destruct (Z.ltb_spec t be);
    cbn [andb]; try reflexivity. exfalso. apply H3. lia.
Qed.

End SlotsAccepted.

(** ** The [nextAvailable] virtual *)

Module NextAvailableFacts.
Import JS Doctor DoctorVirtuals.
#[local] Open Scope list_scope.

Lemma indexOf_days_range x : -1 <= indexOf days x <= 6.
Proof.
  unfold indexOf, days. cbn [indexFrom].
  repeat match goal with
         | |- context [if String.eqb ?a ?b then _ else _] =>
             destruct (String.eqb a b)
         end; cbn; lia.
Qed.

(** The seven passes of the loop visit every day of the week. *)
Lemma nextWorkingDay_none idx wd :
  -1 <= idx <= 6 ->
  nextWorkingDay idx wd = None ->
  Forall (fun d => includes wd d = false) days.
Proof.
  intros Hidx Hnone. unfold nextWorkingDay in Hnone.
  destruct (find _ _) eqn:F; [discriminate|]. clear Hnone.
  pose proof (find_none _ _ F) as Hn. cbv beta in Hn.
  assert (Hc : idx = -1 \/ idx = 0 \/ idx = 1 \/ idx = 2 \/ idx = 3
               \/ idx = 4 \/ idx = 5 \/ idx = 6) by lia.
  unfold days.
  repeat (destruct Hc as [->|Hc]);
    [ .. | subst idx ];
    repeat constructor;
    first [ exact (Hn 1 ltac:(simpl; tauto))
          | exact (Hn 2 ltac:(simpl; tauto))
          | exact (Hn 3 ltac:(simpl; tauto))
          | exact (Hn 4 ltac:(simpl; tauto))
          | exact (Hn 5 ltac:(simpl; tauto))
          | exact (Hn 6 ltac:(simpl; tauto))
          | exact (Hn 7 ltac:(simpl; tauto)) ].
Qed.

Lemma nextWorkingDay_in_days idx wd d :
  -1 <= idx <= 6 -> nextWorkingDay idx wd = Some d -> In d days.
Proof.
  intros Hidx. unfold nextWorkingDay.
  destruct (find _ _) as [i|] eqn:F; [|discriminate]. intros [= <-].
  apply find_some in F as [Hi _].
  assert (1 <= i <= 7) by (simpl in Hi; lia).
  change (In (nth (Z.to_nat (Z.rem (idx + i) 7)) days "undefined") days).
  apply nth_In. change (List.length days) with 7%nat.
  pose proof (Z.rem_bound_pos (idx + i) 7 ltac:(lia) ltac:(lia)). lia.
Qed.

Lemma todayAnswer_cases cur a r :
  todayAnswer cur a = Some r ->
  r = "Available Now" \/ exists s, r = ("Today at " ++ s)%string.
Proof.
  unfold todayAnswer. cbv zeta.
  destruct (JS.lt (Some cur) (minutesOf (startTime a)));
    [intros [= <-]; right; eexists; reflexivity|].
  destruct (JS.ge (Some cur) (minutesOf (breakStart a))
            && JS.lt (Some cur) (minutesOf (breakEnd a)));
    [intros [= <-]; right; eexists; reflexivity|].
  destruct (JS.lt (Some cur) (minutesOf (endTime a)));
    [intros [= <-]; now left|discriminate].
Qed.

Lemma nextWorkingDay_some idx wd d :
  nextWorkingDay idx wd = Some d -> includes wd d = true.
Proof.
  unfold nextWorkingDay. destruct (find _ _) as [i|] eqn:F; [|discriminate].
  intros [= <-]. now apply find_some in F.
Qed.

Section WithClock.

Variable Date : Type.
Variable weekdayLong : Date -> string.
Variables getHours getMinutes : Date -> Z.

Let nextAvailable :=
  DoctorVirtuals.nextAvailable Date weekdayLong getHours getMinutes.

(** X4: the virtual is null exactly for a doctor who is not available;
    for schema-valid hours it says "Available Now" exactly when today is a
    working day and the current minute lies within working hours and
    outside the break, which for an active doctor is exactly when
    [checkAvailability] accepts that weekday and minute. *)
Theorem nextAvailable_now :
  forall (now : Date) (this : Doctor.t),
    let a := availability this in
    let cur := getHours now * 60 + getMinutes now in
    validAvailability a = true ->
    exists start fin bs be,
      minutesOf (startTime a) = Some start
      /\ minutesOf (endTime a) = Some fin
      /\ minutesOf (breakStart a) = Some bs
      /\ minutesOf (breakEnd a) = Some be
      /\ (nextAvailable now this = None <-> isAvailable this = false)
      /\ (nextAvailable now this = Some "Available Now" <->
          isAvailable this = true
          /\ includes (workingDays a) (weekdayLong now) = true
          /\ start <= cur < fin /\ ~ (bs <= cur < be))
      /\ (forall (date : Date) (time : string),
            weekdayLong date = weekdayLong now ->
            minutesOf time = Some cur ->
            status this = "active" ->
            (available (Doctor.checkAvailability Date weekdayLong this date
                          time) = true
             <-> nextAvailable now this = Some "Available Now")).
Proof.
  intros now this a cur Hvalid.
  destruct (validAvailability_times a Hvalid)
    as ((start & _ & Es) & (fin & _ & Ef) & (bs & _ & Ebs)
        & (be & _ & Ebe) & _).
  exists start, fin, bs, be. do 4 (split; [assumption|]).
  assert (Hnow : nextAvailable now this = Some "Available Now" <->
                 isAvailable this = true
                 /\ includes (workingDays a) (weekdayLong now) = true
                 /\ start <= cur < fin /\ ~ (bs <= cur < be)).
  { unfold nextAvailable, DoctorVirtuals.nextAvailable, todayAnswer.
    fold a cur. rewrite Es, Ef, Ebs, Ebe. cbn [JS.lt JS.ge JS.le].
    destruct (isAvailable this); cbn [negb];
      [|split; [discriminate|intros (? & _); discriminate]].
    destruct (includes (workingDays a) (weekdayLong now)).
    - destruct (Z.ltb_spec cur start).
      { split; [discriminate|intros (_ & _ & ? & _); lia]. }
      destruct (Z.leb_spec bs cur); destruct (Z.ltb_spec cur be);
        cbn [andb];
        try (split; [discriminate|intros (_ & _ & _ & Hn); exfalso;
                                  apply Hn; lia]);
        (destruct (Z.ltb_spec cur fin);
         [split; [intros _; repeat split; auto; lia|reflexivity]
         |split; [|intros (_ & _ & ? & _); lia]]);
        destruct (nextWorkingDay _ _); discriminate.
    - split; [|intros (_ & ? & _); discriminate].
      destruct (nextWorkingDay _ _); discriminate. }
  split; [|split; [exact Hnow|]].
  - unfold nextAvailable, DoctorVirtuals.nextAvailable.
    destruct (isAvailable this); cbn [negb];
      [|split; reflexivity].
    split; [|discriminate].
    destruct (if includes _ _ then _ else _); [discriminate|].
    destruct (nextWorkingDay _ _); discriminate.
  - intros date time Hday Htime Hst. rewrite Hnow.
    unfold Doctor.checkAvailability. fold a.
    rewrite Hst, Hday, Htime, Es, Ef, Ebs, Ebe.
    replace (negb ("active" =? "active")%string) with false by reflexivity.
    rewrite orb_false_r. cbn [JS.lt JS.ge JS.le].
    destruct (isAvailable this); cbn [negb];
      [|split; [discriminate|intros (? & _); discriminate]].
    destruct (includes (workingDays a) (weekdayLong now)); cbn [negb];
      [|split; [discriminate|intros (_ & ? & _); discriminate]].
    destruct (Z.ltb_spec cur start); cbn [orb];
      [split; [discriminate|intros (_ & _ & ? & _); lia]|].
    destruct (Z.leb_spec fin cur); cbn [orb];
      [split; [discriminate|intros (_ & _ & ? & _); lia]|].
    destruct (Z.leb_spec bs cur); destruct (Z.ltb_spec cur be);
      cbn [andb available];
      try (split; [discriminate|intros (_ & _ & _ & Hn); exfalso;
                                apply Hn; lia]);
      (split; [intros _; repeat split; auto; lia|reflexivity]).
Qed.

(** X5: for an available doctor, on a day the clock names as one of the
    seven weekdays, the virtual answers "Not Available" exactly when no
    weekday is a working day; and whenever it answers
    "Next <Day> at <startTime>" that day is a working day. *)
Theorem nextAvailable_not_available :
  forall (now : Date) (this : Doctor.t),
    let a := availability this in
    isAvailable this = true ->
    In (weekdayLong now) days ->
    (nextAvailable now this = Some "Not Available" <->
     forall d, In d days -> includes (workingDays a) d = false)
    /\ (forall d, In d days ->
          nextAvailable now this
          = Some ("Next " ++ capitalize d ++ " at " ++ startTime a)%string ->
          includes (workingDays a) d = true).
Proof.
  intros now this a Hav Htoday.
  unfold nextAvailable, DoctorVirtuals.nextAvailable. fold a.
  rewrite Hav. cbn [negb].
  pose proof (indexOf_days_range (weekdayLong now)) as Hidx.
  set (today := if includes (workingDays a) (weekdayLong now)
                then todayAnswer (getHours now * 60 + getMinutes now) a
                else None).
  assert (Htd : forall r, today = Some r ->
                  r = "Available Now"
                  \/ exists s, r = ("Today at " ++ s)%string).
  { unfold today. intros r.
    destruct (includes _ _); [|discriminate].
    intros H. apply todayAnswer_cases in H. exact H. }
  split; [split|].
  - intros H d Hd.
    destruct today as [r|] eqn:Et.
    { injection H as ->. destruct (Htd _ eq_refl) as [E|(s0 & E)];
        discriminate E. }
    destruct (nextWorkingDay _ _) eqn:En; [discriminate H|].
    pose proof (nextWorkingDay_none _ _ Hidx En) as Hall.
    rewrite Forall_forall in Hall. now apply Hall.
  - intros Hnone.
    assert (Et : today = None).
    { unfold today. now rewrite (Hnone _ Htoday). }
    rewrite Et.
    destruct (nextWorkingDay _ _) as [nd|] eqn:En; [|reflexivity].
    pose proof (nextWorkingDay_some _ _ _ En) as Hw.
    rewrite (Hnone nd) in Hw; [discriminate|].
    eapply nextWorkingDay_in_days; eauto.
  - intros d Hd H.
    destruct today as [r|] eqn:Et.
    { injection H as ->. destruct (Htd _ eq_refl) as [E|(s0 & E)];
        discriminate E. }
    destruct (nextWorkingDay _ _) as [nd|] eqn:En; [|discriminate H].
    pose proof (nextWorkingDay_some _ _ _ En) as Hw.
    pose proof (nextWorkingDay_in_days _ _ _ Hidx En) as Hnd.
    injection H as H.
    assert (nd = d); [|now subst].
    unfold days in Hnd, Hd. simpl in Hnd, Hd.
    repeat (destruct Hnd as [<-|Hnd]);
      try contradiction;
      repeat (destruct Hd as [<-|Hd]);
      try contradiction; try reflexivity; discriminate H.
Qed.

End WithClock.
End NextAvailableFacts.

(** ** Runs of ratings *)

Module RatingRunFacts.
Import Doctor DoctorVirtuals RatingFacts.
#[local] Open Scope list_scope.

Lemma updateRating_in_range this r :
  1 <= r <= 5 ->
  let b' := setCount (breakdown this) r (getCount (breakdown this) r + 1) in
  updateRating this r
  = {| thrown := None;
       ratingAfter :=
         {| average := averageSetter (inject_Z (weightedSum b')
                                      / inject_Z (countSum b'));
            totalReviews := countSum b';
            breakdown := b' |} |}.
Proof.
  intros Hr b'. unfold updateRating.
  assert (Hc : (r <? 1) || (r >? 5) = false).
  { apply orb_false_iff.
    split; [apply Z.ltb_ge|rewrite Z.gtb_ltb; apply Z.ltb_ge]; lia. }
  rewrite Hc. fold b'.
  assert (Hsum : fold_left (fun sum count => sum + count) (values b') 0
                 = countSum b').
  { unfold values, entries, countSum. cbn. lia. }
  assert (Hw : fold_left (fun sum '(rating, count) => sum + rating * count)
                 (entries b') 0 = weightedSum b').
  { unfold entries, weightedSum. cbn. lia. }
  now rewrite Hsum, Hw.
Qed.

Lemma setCount_effect b r :
  1 <= r <= 5 ->
  let b' := setCount b r (getCount b r + 1) in
  (forall k, 1 <= k <= 5 ->
     getCount b' k = getCount b k + (if k =? r then 1 else 0))
  /\ countSum b' = countSum b + 1
  /\ weightedSum b' = weightedSum b + r
  /\ (nonnegCounts b -> nonnegCounts b').
Proof.
  intros Hr.
  assert (Hc : r = 1 \/ r = 2 \/ r = 3 \/ r = 4 \/ r = 5) by lia.
  destruct Hc as [->|[->|[->|[->| ->]]]]; cbv zeta;
    (split; [intros k Hk;
             assert (Hk' : k = 1 \/ k = 2 \/ k = 3 \/ k = 4 \/ k = 5) by lia;
             destruct Hk' as [->|[->|[->|[->| ->]]]]; cbn; lia|]);
    unfold countSum, weightedSum, nonnegCounts;
    cbn [setCount getCount Z.eqb Pos.eqb b1 b2 b3 b4 b5];
    (split; [lia|split; [lia|intros (? & ? & ? & ? & ?); repeat split; lia]]).
Qed.

Lemma weightedSum_bounds b :
  nonnegCounts b -> countSum b <= weightedSum b <= 5 * countSum b.
Proof. unfold nonnegCounts, countSum, weightedSum. lia. Qed.

(** X6: a run of ratings, each between 1 and 5, on a rating whose counts
    are non-negative never throws; afterwards every count has grown by the
    number of times its star value occurred, [totalReviews] is the
    previous sum of counts plus the length of the run, and [average] is a
    number of tenths between 1.0 and 5.0, within the schema's
    [min: 0, max: 5]. *)
Theorem rateAll_spec :
  forall (ratings : list Z) (this : Rating),
    Forall (fun r => 1 <= r <= 5) ratings ->
    nonnegCounts (breakdown this) ->
    let final := snd (rateAll ratings this) in
    fst (rateAll ratings this) = []
    /\ nonnegCounts (breakdown final)
    /\ (forall k, 1 <= k <= 5 ->
          getCount (breakdown final) k
          = getCount (breakdown this) k
            + Z.of_nat (count_occ Z.eq_dec ratings k))
    /\ (ratings <> [] ->
        totalReviews final
        = countSum (breakdown this) + Z.of_nat (List.length ratings)
        /\ totalReviews final = countSum (breakdown final)
        /\ exists n, average final = (inject_Z n / inject_Z 10)%Q
                     /\ 10 <= n <= 50).
Proof.
  induction ratings as [|r rest IH]; intros this Hall Hnn.
  - cbn [rateAll fst snd count_occ]. split; [reflexivity|].
    split; [exact Hnn|]. split; [intros; lia|]. intros H. now destruct H.
  - inversion Hall as [|? ? Hr Hrest]; subst.
    cbn [rateAll]. rewrite (updateRating_in_range this r Hr).
    cbn [thrown ratingAfter].
    set (b' := setCount (breakdown this) r (getCount (breakdown this) r + 1)).
    set (this' := {| average := _; totalReviews := countSum b';
                     breakdown := b' |}).
    destruct (setCount_effect (breakdown this) r Hr)
      as (Hget & Hsum & Hw & Hnn').
    fold b' in Hget, Hsum, Hw, Hnn'.
    specialize (IH this' Hrest (Hnn' Hnn)).
    destruct (rateAll rest this') as [errors final] eqn:Erun.
    cbn [fst snd] in IH |- *.
    destruct IH as (Herr & Hfin & Hcount & Htot).
    split; [exact Herr|]. split; [exact Hfin|]. split.
    + intros k Hk. rewrite (Hcount k Hk). cbn [breakdown this'].
      rewrite (Hget k Hk). cbn [count_occ].
      destruct (Z.eq_dec r k) as [->|Hne].
      * rewrite Z.eqb_refl. lia.
      * destruct (Z.eqb_spec k r); [congruence|lia].
    + intros _. destruct rest as [|r' rest'].
      * cbn in Erun. injection Erun as <- <-. cbn [totalReviews breakdown
          average this' List.length].
        split; [lia|]. split; [reflexivity|].
        assert (Hpos : 0 < countSum b').
        { destruct Hnn as (? & ? & ? & ? & ?).
          unfold countSum in Hsum |- *. unfold countSum. lia. }
        destruct (averageSetter_nearest_tenth (weightedSum b') (countSum b')
                    Hpos) as (n & Hn & Hb).
        exists n. split; [exact Hn|].
        pose proof (weightedSum_bounds b' (Hnn' Hnn)). nia.
      * destruct (Htot ltac:(discriminate)) as (Ht & Ht' & Havg).
        split; [|split; [exact Ht'|exact Havg]].
        rewrite Ht. cbn [breakdown this']. rewrite Hsum.
        cbn [List.length]. lia.
Qed.

End RatingRunFacts.

(** ** The availability switch of the doctor routes *)

Module DoctorRouteFacts.
Import DoctorRoutes.
#[local] Open Scope list_scope.


End DoctorRouteFacts.

(** ** Appointment routes and the no-double-booking invariant *)

Module AppointmentRouteFacts.
Import Appointment AppointmentWrites AppointmentRoutes.
#[local] Open Scope list_scope.

(** The two filters of [findConflicts] as one test. *)
Definition conflictTest (doctorId_ : string) (date : Z) (time : string)
    (duration_ : option Z) (exclude : option string) (apt : t) : bool :=
  (String.eqb (doctorId apt) doctorId_
   && (appointmentDate apt =? date)
   && JS.includes conflictStatuses (status apt)
   && match exclude with
      | Some ex => if JS.truthy (Some ex) then negb (String.eqb (_id apt) ex)
                   else true
      | None => true
      end)
  && (JS.lt (JS.minutesOf time)
            (JS.add (JS.minutesOf (appointmentTime apt))
                    (Some (aptDuration apt)))
      && JS.gt (JS.add (JS.minutesOf time)
                       (Some match duration_ with
                             | Some d => d
                             | None => 30
                             end))
               (JS.minutesOf (appointmentTime apt))).

Lemma findConflicts_as_filter c did date time dur ex :
  findConflicts c did date time dur ex
  = filter (conflictTest did date time dur ex) c.
Proof.
  unfold findConflicts. rewrite ConflictFacts.filter_filter.
  apply filter_ext. intros a. reflexivity.
Qed.


Lemma doubleBooked_sym a b : doubleBooked a b = doubleBooked b a.
Proof.
  unfold doubleBooked.
  rewrite (String.eqb_sym (_id a) (_id b)).
  rewrite (String.eqb_sym (doctorId a) (doctorId b)).
  rewrite (Z.eqb_sym (appointmentDate a) (appointmentDate b)).
  destruct (String.eqb (_id b) (_id a)),
           (String.eqb (doctorId b) (doctorId a)),
           (appointmentDate b =? appointmentDate a),
           (JS.includes conflictStatuses (status a)),
           (JS.includes conflictStatuses (status b));
    cbn [negb andb]; try reflexivity;
    destruct (JS.minutesOf (appointmentTime a)),
             (JS.minutesOf (appointmentTime b));
    try reflexivity; apply andb_comm.
Qed.

Lemma requiredString_some s v :
  Appointment.requiredString s = Some v -> s = Some v.
Proof.
  unfold Appointment.requiredString. destruct (JS.truthy s); congruence.
Qed.

(** What a document that passed validation owes to its draft. *)
Lemma validate_some newId dflt d a :
  validate newId dflt d = Some a ->
  _id a = newId
  /\ d_doctorId d = Some (doctorId a)
  /\ d_appointmentDate d = Some (appointmentDate a)
  /\ d_appointmentTime d = Some (appointmentTime a)
  /\ duration a = match d_duration d with Some n => n | None => 30 end
  /\ 15 <= duration a <= 120
  /\ status a = match d_status d with Some st => st | None => "scheduled" end.
Proof.
  unfold validate.
  destruct (Appointment.requiredString (d_patient d)); [|discriminate].
  destruct (Appointment.requiredString (d_patientId d)); [|discriminate].
  destruct (Appointment.requiredString (d_doctor d)); [|discriminate].
  destruct (Appointment.requiredString (d_doctorId d)) eqn:Ed;
    [|discriminate].
  destruct (d_appointmentDate d); [|discriminate].
  destruct (Appointment.requiredString (d_appointmentTime d)) eqn:Et;
    [|discriminate].
  destruct (Appointment.requiredString (option_map JS.trim (d_reason d)));
    [|discriminate].
  destruct (_ && _) eqn:Hc; [|discriminate].
  intros [= <-]. cbn.
  apply andb_prop in Hc as [Hc _]. apply andb_prop in Hc as [Hlo Hhi].
  apply Z.leb_le in Hlo, Hhi.
  apply requiredString_some in Ed, Et.
  repeat split; auto.
Qed.

Definition free (apts : list t) : Prop :=
  forall a b, In a apts -> In b apts -> doubleBooked a b = false.

Lemma doubleBooked_same_id a b : _id a = _id b -> doubleBooked a b = false.
Proof.
  intros E. unfold doubleBooked. now rewrite E, String.eqb_refl.
Qed.


Lemma free_replace apts id new :
  free apts ->
  _id new = id ->
  (forall old, In old apts -> _id old <> id -> doubleBooked new old = false) ->
  free (map (fun a => if String.eqb (_id a) id then new else a) apts).
Proof.
  intros Hfree Hid Hnew a b Ha Hb.
  apply in_map_iff in Ha as (a0 & <- & Ha0).
  apply in_map_iff in Hb as (b0 & <- & Hb0).
  destruct (String.eqb_spec (_id a0) id) as [Ea|Ea];
    destruct (String.eqb_spec (_id b0) id) as [Eb|Eb].
  - now apply doubleBooked_same_id.
  - now apply Hnew.
  - rewrite doubleBooked_sym. now apply Hnew.
  - now apply Hfree.
Qed.






Lemma findConflicts_other_doctor c did date time dur ex :
  (forall a, In a c -> doctorId a <> did) ->
  findConflicts c did date time dur ex = [].
Proof.
  intros H. rewrite findConflicts_as_filter.
  induction c as [|a c IH]; [reflexivity|]. cbn [filter].
  replace (conflictTest did date time dur ex a) with false.
  - apply IH. intros b Hb. apply H. now right.
  - unfold conflictTest.
    destruct (String.eqb_spec (doctorId a) did) as [E|_]; [|reflexivity].
    exfalso. apply (H a); [now left|exact E].
Qed.

(** X11: where no doctor's custom [doctorId] is also some doctor's [_id],
    and no stored appointment is filed under a doctor's [_id], the conflict
    check of [POST /] finds nothing: the route never answers 409, and the
    collection it leaves is again one in which no appointment is filed
    under a doctor's [_id]. *)
Theorem create_conflict_check_misses :
  forall (newId defaultAppointmentId : string) (doctors : list DoctorRef)
         (body : CreateBody) (db : Db),
    (forall d d', In d doctors -> In d' doctors ->
                  dr_doctorId d <> dr_id d') ->
    (forall a d, In a (appointments db) -> In d doctors ->
                 doctorId a <> dr_id d) ->
    fst (create newId defaultAppointmentId doctors body db) <> 409
    /\ (forall a d,
          In a (appointments
                  (snd (create newId defaultAppointmentId doctors body db))) ->
          In d doctors ->
          doctorId a <> dr_id d).
Proof.
  intros newId dflt doctors body db Hdoc Hfiled. unfold create.
  destruct (cb_patientId body) as [pid|]; [|split; [discriminate|exact Hfiled]].
  destruct (cb_doctorId body) as [did|]; [|split; [discriminate|exact Hfiled]].
  destruct (cb_appointmentDate body) as [date|];
    [|split; [discriminate|exact Hfiled]].
  destruct (cb_appointmentTime body) as [time|];
    [|split; [discriminate|exact Hfiled]].
  destruct (cb_reason body) as [reason|];
    [|split; [discriminate|exact Hfiled]].
  destruct (_ || _); [split; [discriminate|exact Hfiled]|].
  destruct (Patient.findOneByPatientId _ _) as [patient|];
    [|split; [discriminate|exact Hfiled]].
  destruct (findDoctorById doctors did) as [doctor|] eqn:Edoc;
    [|split; [discriminate|exact Hfiled]].
  unfold findDoctorById in Edoc. apply find_some in Edoc as [Hin Hid].
  apply String.eqb_eq in Hid.
  rewrite findConflicts_other_doctor
    by (intros a Ha; rewrite <- Hid; now apply Hfiled).
  unfold insert.
  destruct (validate _ _ _) as [new|] eqn:Hv;
    [|split; [discriminate|exact Hfiled]].
  destruct (existsb _ _); [split; [discriminate|exact Hfiled]|].
  split; [discriminate|].
  cbn [snd]. unfold withAppointments. cbn [appointments].
  intros a d Ha Hd. apply in_app_iff in Ha as [Ha|[<-|[]]].
  - now apply Hfiled.
  - apply validate_some in Hv as (_ & Hdid & _). cbn in Hdid.
    injection Hdid as <-. now apply Hdoc.
Qed.

Lemma cancelled_not_conflict did date time dur ex a :
  status a = "cancelled" -> conflictTest did date time dur ex a = false.
Proof.
  intros E. unfold conflictTest. rewrite E.
  replace (JS.includes conflictStatuses "cancelled") with false
    by reflexivity.
  now rewrite !andb_false_r.
Qed.

Lemma cancelled_not_doubleBooked a b :
  status a = "cancelled" -> doubleBooked a b = false.
Proof.
  intros E. unfold doubleBooked. rewrite E.
  replace (JS.includes conflictStatuses "cancelled") with false
    by reflexivity.
  now rewrite !andb_false_r.
Qed.

Lemma storedValid_validate a :
  storedValid a = true ->
  forall st, JS.includes statusEnum st = true ->
  exists a',
    validate (_id a) ""
      {| d_appointmentId := Some (appointmentId a);
         d_patient := Some (patient a);
         d_patientId := Some (patientId a);
         d_doctor := Some (doctor a);
         d_doctorId := Some (doctorId a);
         d_appointmentDate := Some (appointmentDate a);
         d_appointmentTime := Some (appointmentTime a);
         d_duration := Some (duration a);
         d_status := Some st;
         d_reason := Some (reason a) |} = Some a'.
Proof.
  unfold storedValid. intros H st Hst.
  apply andb_prop in H as [H _].
  apply andb_prop in H as [H Hhi]. apply andb_prop in H as [H Hlo].
  apply andb_prop in H as [H Hr]. apply andb_prop in H as [H Ht].
  apply andb_prop in H as [H Hd]. apply andb_prop in H as [H Hdoc].
  apply andb_prop in H as [Hp Hpid].
  unfold validate, Appointment.requiredString. cbn [d_patient d_patientId
    d_doctor d_doctorId d_appointmentDate d_appointmentTime d_reason
    d_duration d_status d_appointmentId option_map].
  rewrite Hp, Hpid, Hdoc, Hd, Ht, Hr, Hlo, Hhi, Hst. cbn [andb].
  eexists. reflexivity.
Qed.


(** X13: cancelling, without a reason, a stored appointment that passes
    the schema's validators answers 200, sets the status of the document
    to ['cancelled'], frees its slot (a later conflict check reports what
    it reported before, that appointment apart) and keeps the
    no-double-booking invariant. *)
Theorem cancel_frees_slot :
  forall (id : string) (reason : option string) (db : Db)
         (apt : Appointment.t),
    JS.truthy reason = false ->
    findById (appointments db) id = Some apt ->
    storedValid apt = true ->
    fst (cancel id reason db) = 200
    /\ (forall a, In a (appointments (snd (cancel id reason db))) ->
                  _id a = id -> status a = "cancelled")
    /\ (forall doctorId_ date time duration_ exclude,
          findConflicts (appointments (snd (cancel id reason db)))
                        doctorId_ date time duration_ exclude
          = filter (fun a => negb (String.eqb (_id a) id))
                   (findConflicts (appointments db) doctorId_ date time
                                  duration_ exclude))
    /\ (noDoubleBooking db -> noDoubleBooking (snd (cancel id reason db))).
Proof.
  intros id reason db apt Hr Ef Hvalid. unfold cancel. rewrite Ef, Hr.
  assert (Hid : _id apt = id).
  { unfold findById in Ef. apply find_some in Ef as [_ E].
    now apply String.eqb_eq in E. }
  unfold Appointment.update, draftOf.
  cbn [d_patient d_patientId d_doctor d_doctorId d_appointmentDate
       d_appointmentTime d_reason d_duration d_status d_appointmentId].
  destruct (storedValid_validate apt Hvalid "cancelled" eq_refl)
    as [new Hv].
  rewrite Hid in Hv. rewrite Hv.
  cbn [fst snd]. unfold withAppointments. cbn [appointments].
  apply validate_some in Hv as (Hnid & _ & _ & _ & _ & _ & Hst).
  cbn in Hst.
  split; [reflexivity|]. split; [|split].
  - intros a Ha Ea. apply in_map_iff in Ha as (a0 & <- & _).
    destruct (String.eqb_spec (_id a0) id) as [_|Hne]; [exact Hst|].
    destruct (String.eqb_spec (_id a0) id) as [E|_]; [contradiction|].
    contradiction.
  - intros did date time dur ex. rewrite !findConflicts_as_filter.
    clear Ef. induction (appointments db) as [|a c IH]; [reflexivity|].
    cbn [map filter].
    destruct (String.eqb (_id a) id) eqn:E.
    + rewrite (cancelled_not_conflict did date time dur ex new Hst).
      rewrite IH.
      destruct (conflictTest did date time dur ex a); [|reflexivity].
      cbn [filter]. now rewrite E.
    + rewrite IH.
      destruct (conflictTest did date time dur ex a); [|reflexivity].
      cbn [filter]. now rewrite E.
  - intros Hinv. apply free_replace; [exact Hinv|exact Hnid|].
    intros old _ _. now apply cancelled_not_doubleBooked.
Qed.

(** X14: the booking route of the patient routes never books: it builds
    the document without the required [doctor] path, so whatever the body
    the answer is 404 or 500 and the collection is left as it was. *)
Theorem book_always_refused :
  forall (newId generatedAppointmentId patientId : string) (body : BookBody)
         (db : Db),
    snd (book newId generatedAppointmentId patientId body db) = db
    /\ (fst (book newId generatedAppointmentId patientId body db) = 404
        \/ fst (book newId generatedAppointmentId patientId body db) = 500).
Proof.
  intros newId gen pid body db.
  split; [apply WriteFacts.book_never_persists|].
  unfold book. destruct (Patient.findOneByPatientId _ _) as [p|];
    [|now left].
  right. unfold insert, validate.
  cbn [d_patient d_patientId d_doctor].
  destruct (Appointment.requiredString (Some (Patient._id p)));
    destruct (Appointment.requiredString (Some (Patient.patientId p)));
    reflexivity.
Qed.

(** X15: the reschedule route of the patient routes never reschedules: it
    assigns the status ['rescheduled'], which the schema's enum does not
    list, so the answer is 404, 409 or 500 and the collection is left as
    it was. *)
Theorem reschedule_always_refused :
  forall (appointmentId : string) (newDate : Z) (newTime : string) (db : Db),
    snd (reschedule appointmentId newDate newTime db) = db
    /\ In (fst (reschedule appointmentId newDate newTime db))
          [404; 409; 500].
Proof.
  intros id newDate newTime db.
  split; [apply WriteFacts.reschedule_never_persists|].
  unfold reschedule.
  destruct (findById _ _) as [a|]; [|now left].
  destruct (find _ _); [right; now left|].
  right; right; left.
  unfold Appointment.update, validate, draftOf.
  cbn [d_patient d_patientId d_doctor d_doctorId d_appointmentDate
       d_appointmentTime d_reason d_duration d_status].
  destruct (Appointment.requiredString (Some (patient a))); [|reflexivity].
  destruct (Appointment.requiredString (Some (patientId a))); [|reflexivity].
  destruct (Appointment.requiredString (Some (doctor a))); [|reflexivity].
  destruct (Appointment.requiredString (Some (doctorId a))); [|reflexivity].
  destruct (Appointment.requiredString (Some newTime)); [|reflexivity].
  destruct (Appointment.requiredString
              (option_map JS.trim (Some (reason a))));
    [|reflexivity].
  replace (JS.includes statusEnum "rescheduled") with false by reflexivity.
  now rewrite andb_false_r.
Qed.

End AppointmentRouteFacts.

(** ** Payment methods: at most one primary method per patient *)

Module PaymentFacts.
Import PaymentMethod PaymentRoutes.
#[local] Open Scope list_scope.

(** Any two primary methods of one patient are the same document. *)
Definition onePrimary (methods : list t) : Prop :=
  forall a b, In a methods -> In b methods ->
              patientId a = patientId b ->
              isPrimary a = true -> isPrimary b = true ->
              _id a = _id b.

Lemma clearPrimary_In pid ms a :
  In a (clearPrimary pid ms) ->
  exists a0, In a0 ms /\ _id a = _id a0 /\ patientId a = patientId a0
             /\ type a = type a0 /\ status a = status a0
             /\ (patientId a0 = pid -> isPrimary a = false)
             /\ (patientId a0 <> pid -> a = a0).
Proof.
  unfold clearPrimary. intros H. apply in_map_iff in H as (a0 & <- & Hin).
  exists a0. destruct (String.eqb_spec (patientId a0) pid) as [E|E]; cbn;
    repeat split; auto; try contradiction.
Qed.

Lemma clearPrimary_onePrimary pid ms :
  onePrimary ms -> onePrimary (clearPrimary pid ms).
Proof.
  intros H a b Ha Hb Hp Hpa Hpb.
  apply clearPrimary_In in Ha as (a0 & Ha0 & Eia & Epa & _ & _ & Hca & Hna).
  apply clearPrimary_In in Hb as (b0 & Hb0 & Eib & Epb & _ & _ & Hcb & Hnb).
  destruct (String.eqb_spec (patientId a0) pid) as [E|E];
    [rewrite (Hca E) in Hpa; discriminate|].
  destruct (String.eqb_spec (patientId b0) pid) as [E'|E'];
    [rewrite (Hcb E') in Hpb; discriminate|].
  rewrite (Hna E) in *. rewrite (Hnb E') in *. now apply H.
Qed.

Lemma clearPrimary_cleared pid ms a :
  In a (clearPrimary pid ms) -> patientId a = pid -> isPrimary a = false.
Proof.
  intros Ha E.
  apply clearPrimary_In in Ha as (a0 & _ & _ & Epa & _ & _ & Hca & _).
  apply Hca. congruence.
Qed.

Lemma findById_some ms id m :
  findById ms id = Some m -> In m ms /\ _id m = id.
Proof.
  unfold findById. intros H. apply find_some in H as [Hin E].
  now apply String.eqb_eq in E.
Qed.

Lemma findById_map (g : t -> t) ms id :
  (forall x, _id (g x) = _id x) ->
  findById (map g ms) id = option_map g (findById ms id).
Proof.
  intros Hg. unfold findById.
  induction ms as [|x ms IH]; [reflexivity|].
  cbn [map find]. rewrite Hg.
  now destruct (String.eqb (_id x) id).
Qed.

(** What [save()] leaves after [isPrimary = true] on a method that was
    not primary. *)
Lemma savePrimary_In loaded ms ms' a :
  savePrimary loaded ms = Some ms' ->
  In a ms' ->
  exists a0, In a0 ms /\ _id a = _id a0 /\ patientId a = patientId a0
             /\ (isPrimary a = true ->
                 isPrimary a0 = true \/ _id a0 = _id loaded).
Proof.
  unfold savePrimary. destruct (storedValid loaded); [|discriminate].
  destruct (isPrimary loaded).
  - intros [= <-] Ha. exists a. repeat split; auto.
  - intros [= <-] Ha. apply in_map_iff in Ha as (a0 & <- & Hin).
    exists a0. destruct (String.eqb_spec (_id a0) (_id loaded)) as [E|E];
      cbn; repeat split; auto.
Qed.

Lemma NoDup_map_inj {A B : Type} (f : A -> B) (l : list A) a b :
  NoDup (map f l) -> In a l -> In b l -> f a = f b -> a = b.
Proof.
  induction l as [|x l IH]; [intros _ []|].
  cbn [map]. intros Hnd Ha Hb E. inversion Hnd as [|? ? Hx Hl]; subst.
  destruct Ha as [<-|Ha]; destruct Hb as [<-|Hb].
  - reflexivity.
  - exfalso. apply Hx. rewrite E. now apply in_map.
  - exfalso. apply Hx. rewrite <- E. now apply in_map.
  - now apply IH.
Qed.

Lemma clearPrimary_ids pid ms :
  map _id (clearPrimary pid ms) = map _id ms.
Proof.
  unfold clearPrimary. rewrite map_map. apply map_ext. intros m.
  now destruct (String.eqb (patientId m) pid).
Qed.

(** X16: [PUT /payment-methods/:methodId/primary] keeps the invariant that
    a patient has at most one primary payment method, whatever it answers,
    in a collection whose [_id]s are distinct. *)
Theorem setPrimary_keeps_onePrimary :
  forall (methodId : string) (methods : list t),
    NoDup (map _id methods) ->
    onePrimary methods ->
    onePrimary (snd (setPrimary methodId methods)).
Proof.
  intros id ms Hnd Hinv. unfold setPrimary.
  destruct (findById ms id) as [m|] eqn:Ef; [|exact Hinv].
  apply findById_some in Ef as [Hin Hid].
  pose proof (clearPrimary_onePrimary (patientId m) ms Hinv) as Hc.
  destruct (savePrimary m _) as [ms2|] eqn:Es; [|exact Hc].
  cbn [snd].
  assert (Hsame : forall x, In x (clearPrimary (patientId m) ms) ->
                            _id x = _id m -> patientId x = patientId m).
  { intros x Hx E.
    apply clearPrimary_In in Hx as (x0 & Hx0 & Eix & Epx & _).
    rewrite Epx. f_equal.
    apply (NoDup_map_inj _id ms); auto. congruence. }
  intros a b Ha Hb Hp Hpa Hpb.
  destruct (savePrimary_In _ _ _ _ Es Ha) as (a0 & Ha0 & Eia & Epa & Hoa).
  destruct (savePrimary_In _ _ _ _ Es Hb) as (b0 & Hb0 & Eib & Epb & Hob).
  destruct (Hoa Hpa) as [Pa|Ia]; destruct (Hob Hpb) as [Pb|Ib].
  - rewrite Eia, Eib. apply Hc; auto. congruence.
  - exfalso.
    assert (E : patientId a0 = patientId m)
      by (rewrite <- Epa, Hp, Epb; now apply Hsame).
    rewrite (clearPrimary_cleared _ _ _ Ha0 E) in Pa. discriminate.
  - exfalso.
    assert (E : patientId b0 = patientId m)
      by (rewrite <- Epb, <- Hp, Epa; now apply Hsame).
    rewrite (clearPrimary_cleared _ _ _ Hb0 E) in Pb. discriminate.
  - congruence.
Qed.

(** X17: selecting a stored, valid method that is not yet primary answers
    200 and leaves it the one primary method of its patient: it is
    primary, and every primary method of that patient carries its
    [_id]. *)
Theorem setPrimary_selects :
  forall (methodId : string) (methods : list t) (m : t),
    findById methods methodId = Some m ->
    storedValid m = true ->
    isPrimary m = false ->
    fst (setPrimary methodId methods) = 200
    /\ (exists a, In a (snd (setPrimary methodId methods))
                  /\ _id a = methodId /\ patientId a = patientId m
                  /\ isPrimary a = true)
    /\ (forall a, In a (snd (setPrimary methodId methods)) ->
                  patientId a = patientId m -> isPrimary a = true ->
                  _id a = methodId).
Proof.
  intros id ms m Ef Hv Hnp. unfold setPrimary. rewrite Ef.
  apply findById_some in Ef as [Hin Hid].
  unfold savePrimary. rewrite Hv, Hnp. cbn [fst snd].
  split; [reflexivity|]. split.
  - exists {| _id := _id m; patientId := patientId m; type := type m;
              isPrimary := true; status := status m |}.
    cbn. repeat split; auto.
    apply in_map_iff.
    exists {| _id := _id m; patientId := patientId m; type := type m;
              isPrimary := false; status := status m |}.
    cbn. rewrite String.eqb_refl. split; [reflexivity|].
    unfold clearPrimary. apply in_map_iff. exists m.
    now rewrite String.eqb_refl.
  - intros a Ha Hp Hpa. apply in_map_iff in Ha as (a0 & <- & Ha0).
    destruct (String.eqb_spec (_id a0) (_id m)) as [E|E].
    + cbn. congruence.
    + rewrite (clearPrimary_cleared _ _ _ Ha0 Hp) in Hpa. discriminate.
Qed.

(** X18: selecting a method that is primary already un-selects it.  The
    route first clears [isPrimary] on every method of the patient in the
    store; the assignment [isPrimary = true] on the loaded copy changes
    nothing, so [save()] writes nothing.  The answer is 200 and the
    patient is left without a primary method; in particular two equal
    requests in a row leave none. *)
Theorem setPrimary_again_unselects :
  forall (methodId : string) (methods : list t) (m : t),
    findById methods methodId = Some m ->
    storedValid m = true ->
    (isPrimary m = true ->
     fst (setPrimary methodId methods) = 200
     /\ forall a, In a (snd (setPrimary methodId methods)) ->
                  patientId a = patientId m -> isPrimary a = false)
    /\ (isPrimary m = false ->
        fst (setPrimary methodId (snd (setPrimary methodId methods))) = 200
        /\ forall a,
             In a (snd (setPrimary methodId
                          (snd (setPrimary methodId methods)))) ->
             patientId a = patientId m -> isPrimary a = false).
Proof.
  assert (Hagain : forall id ms m,
            findById ms id = Some m -> storedValid m = true ->
            isPrimary m = true ->
            fst (setPrimary id ms) = 200
            /\ forall a, In a (snd (setPrimary id ms)) ->
                         patientId a = patientId m -> isPrimary a = false).
  { intros id ms m Ef Hv Hp. unfold setPrimary. rewrite Ef.
    unfold savePrimary. rewrite Hv, Hp. cbn [fst snd].
    split; [reflexivity|]. intros a Ha E.
    now apply (clearPrimary_cleared (patientId m) ms). }
  intros id ms m Ef Hv. split; [now apply Hagain|].
  intros Hnp.
  set (m' := {| _id := _id m; patientId := patientId m; type := type m;
                isPrimary := true; status := status m |}).
  assert (Ef' : findById (snd (setPrimary id ms)) id = Some m').
  { unfold setPrimary. rewrite Ef. unfold savePrimary. rewrite Hv, Hnp.
    cbn [snd]. unfold clearPrimary.
    rewrite !findById_map, Ef.
    - cbn [option_map]. rewrite !String.eqb_refl. reflexivity.
    - intros x. now destruct (String.eqb (patientId x) (patientId m)).
    - intros x. now destruct (String.eqb (_id x) (_id m)). }
  apply (Hagain id _ m' Ef'); [|reflexivity].
  unfold storedValid in *. exact Hv.
Qed.

Lemma payment_validate_some newId d m :
  validate newId d = Some m ->
  _id m = newId
  /\ d_patientId d = Some (patientId m)
  /\ isPrimary m = match d_isPrimary d with Some b => b | None => false end.
Proof.
  unfold validate.
  destruct (d_patientId d) as [pid|]; [|discriminate].
  destruct (d_type d) as [ty|]; [|discriminate].
  destruct (_ && _); [|discriminate].
  intros [= <-]. cbn. auto.
Qed.

(** X19: [POST /:patientId/payment-methods] keeps the invariant that a
    patient has at most one primary payment method, whatever it answers,
    when the body names no patient or the patient of the route. *)
Theorem addPaymentMethod_keeps_onePrimary :
  forall (newId : string) (patients : list Patient.t) (patientId_ : string)
         (paymentData : PaymentData) (methods : list t),
    onePrimary methods ->
    pd_patientId paymentData = None
    \/ pd_patientId paymentData = Some patientId_ ->
    onePrimary
      (snd (addPaymentMethod newId patients patientId_ paymentData methods)).
Proof.
  intros newId patients pid body ms Hinv Hpid. unfold addPaymentMethod.
  destruct (Patient.findOneByPatientId patients pid) as [p|]; [|exact Hinv].
  set (ms1 := match pd_isPrimary body with
              | Some true => clearPrimary pid ms
              | _ => ms
              end).
  assert (H1 : onePrimary ms1).
  { unfold ms1. destruct (pd_isPrimary body) as [[|]|]; auto.
    now apply clearPrimary_onePrimary. }
  destruct (validate newId _) as [m|] eqn:Hv; [|exact H1].
  cbn [snd].
  apply payment_validate_some in Hv as (_ & Hp & Hprim). cbn in Hp, Hprim.
  assert (Hpm : patientId m = pid)
    by (destruct Hpid as [E|E]; rewrite E in Hp; congruence).
  assert (Hnew : forall a, In a ms1 -> patientId a = patientId m ->
                           isPrimary a = true -> isPrimary m = true ->
                           False).
  { intros a Ha Epa Hpa Hpm'. rewrite Hprim in Hpm'.
    unfold ms1 in Ha.
    destruct (pd_isPrimary body) as [[|]|]; try discriminate.
    rewrite (clearPrimary_cleared pid ms a Ha) in Hpa; congruence. }
  intros a b Ha Hb Epab Hpa Hpb.
  apply in_app_iff in Ha as [Ha|[<-|[]]];
    apply in_app_iff in Hb as [Hb|[<-|[]]].
  - now apply H1.
  - exfalso. now apply (Hnew a).
  - exfalso. now apply (Hnew b).
  - reflexivity.
Qed.

(** X20: a request that asks for a primary method and is then refused by
    validation (here: a [type] outside the schema's enum, or none) has
    changed the store all the same: it is answered 500 after the primary
    flag of every method of the patient has been cleared. *)
Theorem addPaymentMethod_refused_clears :
  forall (newId : string) (patients : list Patient.t) (patientId_ : string)
         (paymentData : PaymentData) (methods : list t) (p : Patient.t),
    Patient.findOneByPatientId patients patientId_ = Some p ->
    pd_isPrimary paymentData = Some true ->
    (forall ty, pd_type paymentData = Some ty ->
                JS.includes typeEnum ty = false) ->
    addPaymentMethod newId patients patientId_ paymentData methods
    = (500, clearPrimary patientId_ methods)
    /\ forall a, In a (clearPrimary patientId_ methods) ->
                 patientId a = patientId_ -> isPrimary a = false.
Proof.
  intros newId patients pid body ms p Ef Hprim Hty.
  split; [|intros a; apply clearPrimary_cleared].
  unfold addPaymentMethod. rewrite Ef, Hprim.
  unfold validate. cbn [d_patientId d_type d_status d_isPrimary].
  destruct (pd_type body) as [ty|].
  - rewrite (Hty ty eq_refl).
    destruct (pd_patientId body); rewrite !andb_false_r; reflexivity.
  - now destruct (pd_patientId body).
Qed.

Lemma typeEnum_truthy ty :
  JS.includes typeEnum ty = true -> JS.truthy (Some ty) = true.
Proof.
  destruct ty; [discriminate|reflexivity].
Qed.

(** X21: a [patientId] in the body replaces the one of the route in the
    stored document, while the primary flags are cleared for the patient
    of the route.  A primary method added that way for another patient
    who has a primary method already is answered 200 and leaves that
    patient with two. *)
Theorem addPaymentMethod_foreign_patient :
  forall (newId : string) (patients : list Patient.t) (patientId_ : string)
         (paymentData : PaymentData) (methods : list t) (p : Patient.t)
         (other ty : string) (a : t),
    Patient.findOneByPatientId patients patientId_ = Some p ->
    pd_patientId paymentData = Some other ->
    other <> patientId_ -> other <> "" ->
    pd_type paymentData = Some ty ->
    JS.includes typeEnum ty = true ->
    pd_status paymentData = None ->
    pd_isPrimary paymentData = Some true ->
    In a methods -> patientId a = other -> isPrimary a = true ->
    _id a <> newId ->
    fst (addPaymentMethod newId patients patientId_ paymentData methods)
    = 200
    /\ (exists m,
          In m (snd (addPaymentMethod newId patients patientId_ paymentData
                                      methods))
          /\ _id m = newId /\ patientId m = other /\ isPrimary m = true)
    /\ In a (snd (addPaymentMethod newId patients patientId_ paymentData
                                   methods))
    /\ ~ onePrimary
           (snd (addPaymentMethod newId patients patientId_ paymentData
                                  methods)).
Proof.
  intros newId patients pid body ms p q ty a Ef Hq Hne Hq0 Hty Hin Hst
         Hprim Ha Hpa Hia Hida.
  unfold addPaymentMethod. rewrite Ef, Hq, Hty, Hst, Hprim.
  unfold validate. cbn [d_patientId d_type d_status d_isPrimary].
  rewrite Hin, (typeEnum_truthy ty Hin).
  replace (JS.truthy (Some q)) with true
    by (destruct q; [contradiction|reflexivity]).
  replace (JS.includes statusEnum "active") with true by reflexivity.
  cbn [andb fst snd].
  set (m := {| _id := newId; patientId := q; type := ty; isPrimary := true;
               status := "active" |}).
  assert (Hm : In m (clearPrimary pid ms ++ [m]))
    by (apply in_app_iff; right; now left).
  assert (Ha' : In a (clearPrimary pid ms ++ [m])).
  { apply in_app_iff. left. unfold clearPrimary. apply in_map_iff.
    exists a. split; [|exact Ha].
    destruct (String.eqb_spec (patientId a) pid); [congruence|reflexivity]. }
  split; [reflexivity|]. split; [|split].
  - exists m. now repeat split.
  - exact Ha'.
  - intros Hone. apply Hida.
    apply (Hone a m Ha' Hm); auto.
Qed.

End PaymentFacts.

(** ** The role guards *)

Module GuardFacts.
Import Auth AuthGuards.

Ltac role_cases r :=
  repeat match goal with
         | |- context [String.eqb r ?k] =>
             destruct (String.eqb_spec r k) as [->|?]; cbn
         end.

(** X22: how the role guards nest on an authenticated request.  Whoever
    passes [medicalStaffOnly] passes [receptionistOrHigher], and whoever
    passes that passes [canAccessPatient]; [patientOnly], [doctorOnly]
    and [staffOnly] admit disjoint sets of users; [medicalStaffOnly]
    admits exactly the users [authorize('doctor', 'nurse')] admits; and
    [requireDepartment] lets every patient through, whatever the
    departments required. *)
Theorem guards_nest :
  forall (u : ReqUser) (kind : IdKind) (patientIdParam : string)
         (departments : list string) (department : option string),
    (admitted (medicalStaffOnly (Some u)) = true ->
     admitted (receptionistOrHigher (Some u)) = true)
    /\ (admitted (receptionistOrHigher (Some u)) = true ->
        admitted (canAccessPatient (Some u) kind patientIdParam) = true)
    /\ (admitted (patientOnly (Some u)) = true ->
        admitted (doctorOnly (Some u)) = false
        /\ admitted (staffOnly (Some u)) = false
        /\ admitted (receptionistOrHigher (Some u)) = false)
    /\ (admitted (doctorOnly (Some u)) = true ->
        admitted (staffOnly (Some u)) = false)
    /\ admitted (medicalStaffOnly (Some u))
       = admitted (authorize ["doctor"; "nurse"] (Some u))
    /\ (admitted (patientOnly (Some u)) = true ->
        requireDepartment departments (Some u) department = Next u).
Proof.
  intros [id [r|]] kind param departments department;
    unfold medicalStaffOnly, receptionistOrHigher, canAccessPatient,
      patientOnly, doctorOnly, staffOnly, authorize, requireDepartment,
      roleIs, roleIncluded, JS.includes;
    cbn [u_role u_id existsb orb negb admitted].
  - role_cases r; repeat split; intros; try reflexivity; try discriminate;
      try congruence.
  - cbn. repeat split; intros; try reflexivity; discriminate.
Qed.

(** X23: behind [auth], which stores the account's ObjectId in
    [req.user.id], [canAccessPatient] admits doctors, nurses and
    receptionists and nobody else: the strict comparison of that id with
    the [patientId] of the route never holds, so a patient is answered 403
    for every record, their own included. *)
Theorem canAccessPatient_behind_auth :
  forall (u : ReqUser) (patientIdParam : string),
    admitted (canAccessPatient (Some u) ObjectIdValue patientIdParam)
    = roleIncluded ["doctor"; "nurse"; "receptionist"] (u_role u)
    /\ (u_role u = Some "patient" ->
        statusOf (canAccessPatient (Some u) ObjectIdValue patientIdParam)
        = Some 403).
Proof.
  intros [id [r|]] param;
    unfold canAccessPatient, roleIs, roleIncluded, JS.includes,
      strictEqualsParam;
    cbn [u_role u_id existsb orb negb admitted andb].
  - split.
    + rewrite andb_false_r. role_cases r; reflexivity.
    + intros [= ->]. reflexivity.
  - split; [reflexivity|discriminate].
Qed.

Fixpoint noSpace (s : string) : bool :=
  match s with
  | EmptyString => true
  | String c rest => negb (Ascii.eqb c " ") && noSpace rest
  end.

Lemma split_noSpace s : noSpace s = true -> JS.split " " s = [s].
Proof.
  induction s as [|c s IH]; [reflexivity|].
  cbn [noSpace JS.split]. intros H. apply andb_prop in H as [Hc Hs].
  apply negb_true_iff in Hc. rewrite Hc, (IH Hs). reflexivity.
Qed.

Lemma split_first_word s rest :
  noSpace s = true ->
  JS.split " " (s ++ String " " rest) = s :: JS.split " " rest.
Proof.
  induction s as [|c s IH]; [reflexivity|].
  cbn [noSpace]. intros H. apply andb_prop in H as [Hc Hs].
  apply negb_true_iff in Hc.
  change (String c s ++ String " " rest)%string
    with (String c (s ++ String " " rest)).
  cbn [JS.split]. rewrite Hc, (IH Hs). reflexivity.
Qed.

Section WithJwt.

Variable verify : string -> Verified.
Variable findById : option string -> string -> option Account.

(** X24: both token guards read the token as the second
    space-separated word of the header.  [Bearer <token>] yields the
    token; [authenticateToken] does not look at the first word at all, so
    any scheme in front of the same token is treated alike; and [auth]
    takes the second word of every header that starts with [Bearer]. *)
Theorem token_is_second_word :
  forall (token : string),
    noSpace token = true ->
    tokenOfHeader (Some ("Bearer " ++ token)) = Some token
    /\ tokenOfAuthorization (Some ("Bearer " ++ token)) = Some token
    /\ (forall scheme, noSpace scheme = true ->
          authenticateToken verify (Some (scheme ++ " " ++ token))
          = authenticateToken verify (Some ("Bearer " ++ token)))
    /\ (forall suffix, noSpace suffix = true ->
          auth verify findById (Some ("Bearer" ++ suffix ++ " " ++ token))
          = auth verify findById (Some ("Bearer " ++ token))).
Proof.
  intros token Htok.
  assert (Hword : forall scheme, noSpace scheme = true ->
            tokenOfHeader (Some (scheme ++ " " ++ token)) = Some token).
  { intros scheme Hs. unfold tokenOfHeader.
    change (" " ++ token)%string with (String " " token).
    rewrite (split_first_word scheme token Hs), (split_noSpace token Htok).
    destruct scheme; reflexivity. }
  assert (Hauth : forall suffix, noSpace suffix = true ->
            tokenOfAuthorization (Some ("Bearer" ++ suffix ++ " " ++ token))
            = Some token).
  { intros suffix Hs. unfold tokenOfAuthorization.
    change (" " ++ token)%string with (String " " token).
    replace (JS.startsWith "Bearer" ("Bearer" ++ suffix ++ String " " token))
      with true by (cbn; now destruct suffix).
    replace (JS.truthy (Some ("Bearer" ++ suffix ++ String " " token)))
      with true by reflexivity.
    cbn [andb].
    change ("Bearer" ++ suffix ++ String " " token)%string
      with (("Bearer" ++ suffix) ++ String " " token)%string.
    rewrite split_first_word, (split_noSpace token Htok); [reflexivity|].
    cbn. exact Hs. }
  assert (Hb : tokenOfHeader (Some ("Bearer " ++ token)) = Some token)
    by exact (Hword "Bearer" eq_refl).
  assert (Ha : tokenOfAuthorization (Some ("Bearer " ++ token)) = Some token)
    by exact (Hauth "" eq_refl).
  split; [exact Hb|]. split; [exact Ha|]. split.
  - intros scheme Hs. unfold authenticateToken.
    now rewrite (Hword scheme Hs), Hb.
  - intros suffix Hs. unfold auth.
    now rewrite (Hauth suffix Hs), Ha.
Qed.

End WithJwt.
End GuardFacts.

(** ** Minors and blood types *)

Module PatientMethodFacts.
Import JS Patient PatientMethods.
Import DoctorVirtuals(upperChar).

Section Calendar.

Variables getFullYear getMonth getDate : Z -> Z.

(** X25: [isMinor] answers true for a patient without a date of birth
    (the null age compares as 0), and otherwise exactly when the 18th
    birthday is still after today. *)
Theorem isMinor_spec :
  forall (now : Z) (this : Patient.t),
    (dateOfBirth this = None ->
     isMinor getFullYear getMonth getDate now this = true)
    /\ (forall birth, dateOfBirth this = Some birth ->
          (isMinor getFullYear getMonth getDate now this = true <->
           ~ AgeFacts.dayLe
               (getFullYear birth + 18, getMonth birth, getDate birth)
               (getFullYear now, getMonth now, getDate now))).
Proof.
  intros now this. unfold isMinor, Patient.age. split.
  - intros ->. reflexivity.
  - intros birth ->. cbv zeta. unfold AgeFacts.dayLe.
    destruct (Z.ltb_spec (getMonth now - getMonth birth) 0);
      destruct (Z.eqb_spec (getMonth now - getMonth birth) 0);
      destruct (Z.ltb_spec (getDate now) (getDate birth));
      cbn [orb andb]; rewrite Z.ltb_lt; lia.
Qed.

End Calendar.

Lemma lower_upperChar c : lowerChar (upperChar c) = lowerChar c.
Proof. destruct c as [[|] [|] [|] [|] [|] [|] [|] [|]]; reflexivity. Qed.

Lemma upper_lowerChar c : upperChar (lowerChar c) = upperChar c.
Proof. destruct c as [[|] [|] [|] [|] [|] [|] [|] [|]]; reflexivity. Qed.

Lemma upperChar_idem c : upperChar (upperChar c) = upperChar c.
Proof. destruct c as [[|] [|] [|] [|] [|] [|] [|] [|]]; reflexivity. Qed.

Lemma isSpace_upperChar c : isSpace (upperChar c) = isSpace c.
Proof. destruct c as [[|] [|] [|] [|] [|] [|] [|] [|]]; reflexivity. Qed.

Lemma toLowerCase_toUpperCase s :
  toLowerCase (toUpperCase s) = toLowerCase s.
Proof.
  induction s as [|c s IH]; [reflexivity|]. cbn [toLowerCase toUpperCase].
  now rewrite lower_upperChar, IH.
Qed.

Lemma toUpperCase_toLowerCase s :
  toUpperCase (toLowerCase s) = toUpperCase s.
Proof.
  induction s as [|c s IH]; [reflexivity|]. cbn [toLowerCase toUpperCase].
  now rewrite upper_lowerChar, IH.
Qed.

Lemma toUpperCase_idem s : toUpperCase (toUpperCase s) = toUpperCase s.
Proof.
  induction s as [|c s IH]; [reflexivity|]. cbn [toUpperCase].
  now rewrite upperChar_idem, IH.
Qed.

Lemma toUpperCase_trimStart s :
  toUpperCase (trimStart s) = trimStart (toUpperCase s).
Proof.
  induction s as [|c s IH]; [reflexivity|]. cbn [toUpperCase trimStart].
  rewrite isSpace_upperChar. now destruct (isSpace c).
Qed.

Lemma toUpperCase_trimEnd s :
  toUpperCase (trimEnd s) = trimEnd (toUpperCase s).
Proof.
  induction s as [|c s IH]; [reflexivity|]. cbn [toUpperCase trimEnd].
  rewrite <- IH. destruct (trimEnd s) as [|c' r]; cbn [toUpperCase].
  - rewrite isSpace_upperChar. now destruct (isSpace c).
  - reflexivity.
Qed.

Lemma toUpperCase_trim s : toUpperCase (trim s) = trim (toUpperCase s).
Proof.
  unfold trim. now rewrite toUpperCase_trimEnd, toUpperCase_trimStart.
Qed.

Lemma toUpperCase_empty s : (toUpperCase s =? "")%string = (s =? "")%string.
Proof. now destruct s. Qed.

Lemma toLowerCase_empty s : (toLowerCase s =? "")%string = (s =? "")%string.
Proof. now destruct s. Qed.

Lemma toLowerCase_length s :
  String.length (toLowerCase s) = String.length s.
Proof.
  induction s as [|c s IH]; [reflexivity|]. cbn. now rewrite IH.
Qed.

Lemma trimStart_shorter s :
  trimStart s = s \/ (String.length (trimStart s) < String.length s)%nat.
Proof.
  induction s as [|c s IH]; [now left|]. cbn [trimStart].
  destruct (isSpace c); [|now left].
  right. cbn [String.length]. destruct IH as [->|IH]; lia.
Qed.

Lemma trimEnd_shorter s :
  trimEnd s = s \/ (String.length (trimEnd s) < String.length s)%nat.
Proof.
  induction s as [|c s IH]; [now left|]. cbn [trimEnd].
  destruct IH as [E|IH].
  - rewrite E. destruct s as [|c' r]; [|now left].
    destruct (isSpace c); [right; cbn; lia|now left].
  - right. destruct (trimEnd s) as [|c' r].
    + destruct (isSpace c); cbn [String.length] in *; lia.
    + cbn [String.length] in *. lia.
Qed.

Lemma trim_same_length s :
  String.length (trim s) = String.length s -> trim s = s.
Proof.
  unfold trim. intros H.
  destruct (trimStart_shorter s) as [E|L].
  - rewrite E in *. destruct (trimEnd_shorter s) as [E'|L']; [exact E'|lia].
  - destruct (trimEnd_shorter (trimStart s)) as [E'|L']; [rewrite E' in H|];
      lia.
Qed.

(** The table of [normalizeBloodType] alone: the lower-cased input looked
    up, ['Unknown'] when it is not listed. *)
Definition tableBloodType (s : string) : string :=
  match lookup (toLowerCase s) bloodTypeMap with
  | Some v => v
  | None => "Unknown"
  end.

Lemma tableBloodType_valid s :
  In (tableBloodType s) validBloodTypes.
Proof.
  unfold tableBloodType, bloodTypeMap. cbn [lookup].
  repeat match goal with
         | |- context [String.eqb ?k (toLowerCase s)] =>
             destruct (String.eqb k (toLowerCase s));
             [cbn; tauto|]
         end.
  cbn; tauto.
Qed.

(** The [toUpperCase] fallback never produces a valid blood type. *)
Lemma fallback_invalid s :
  lookup (toLowerCase s) bloodTypeMap = None ->
  JS.includes validBloodTypes (toUpperCase s) = false.
Proof.
  intros Hl.
  destruct (JS.includes validBloodTypes (toUpperCase s)) eqn:Hi;
    [exfalso|reflexivity].
  apply ConflictFacts.includes_In in Hi.
  assert (Hlow : forall v, toUpperCase s = v ->
                           toLowerCase s = toLowerCase v).
  { intros v <-. now rewrite toLowerCase_toUpperCase. }
  cbn [validBloodTypes In] in Hi.
  repeat (destruct Hi as [Hi|Hi];
          [symmetry in Hi; apply Hlow in Hi; rewrite Hi in Hl;
           discriminate Hl|]);
    try contradiction.
Qed.

Lemma fallback_not_Unknown s : toUpperCase s <> "Unknown".
Proof.
  intros E. pose proof (toUpperCase_idem s) as H. rewrite E in H.
  discriminate H.
Qed.

Lemma normalizeBloodType_table s :
  normalizeBloodType (Some s)
  = if (trim s =? "")%string then "Unknown" else tableBloodType s.
Proof.
  unfold normalizeBloodType, tableBloodType.
  destruct s as [|c s]; [reflexivity|].
  cbn [JS.truthy negb orb].
  destruct (trim (String c s) =? "")%string; [reflexivity|].
  destruct (lookup (toLowerCase (String c s)) bloodTypeMap) as [v|] eqn:Hl.
  - assert (Hv : In v validBloodTypes).
    { pose proof (tableBloodType_valid (String c s)) as H.
      unfold tableBloodType in H. now rewrite Hl in H. }
    apply ConflictFacts.includes_In in Hv. now rewrite Hv.
  - now rewrite (fallback_invalid _ Hl).
Qed.

(** X26: [normalizeBloodType] returns a value of the schema's enum for
    every input, present or not; it is idempotent; and the value it
    returns is stored unchanged: the setter of the path and the
    [pre('save')] hook leave it as it is. *)
Theorem normalizeBloodType_valid :
  forall (bloodType : option string),
    JS.includes validBloodTypes (normalizeBloodType bloodType) = true
    /\ normalizeBloodType (Some (normalizeBloodType bloodType))
       = normalizeBloodType bloodType
    /\ storedBloodType (Some (normalizeBloodType bloodType))
       = normalizeBloodType bloodType.
Proof.
  intros bloodType.
  assert (Hin : In (normalizeBloodType bloodType) validBloodTypes).
  { destruct bloodType as [s|]; [|cbn; tauto].
    rewrite normalizeBloodType_table.
    destruct (trim s =? "")%string; [cbn; tauto|].
    apply tableBloodType_valid. }
  split; [now apply ConflictFacts.includes_In|].
  cbn [validBloodTypes In] in Hin.
  repeat (destruct Hin as [Hin|Hin]; [rewrite <- Hin; now vm_compute|]).
  contradiction.
Qed.

(** X27: [normalizeBloodType] does not depend on the case of its input,
    and its [toUpperCase] fallback never decides the result: the value is
    the entry of the table for the lower-cased input, and ['Unknown'] for
    a blank input or one the table does not list (surrounding blanks are
    not removed before the lookup). *)
Theorem normalizeBloodType_case_insensitive :
  forall (s : string),
    normalizeBloodType (Some (toLowerCase s)) = normalizeBloodType (Some s)
    /\ normalizeBloodType (Some (toUpperCase s)) = normalizeBloodType (Some s)
    /\ normalizeBloodType (Some s)
       = (if (trim s =? "")%string then "Unknown" else tableBloodType s)
    /\ (trim s <> s -> normalizeBloodType (Some s) = "Unknown").
Proof.
  intros s. rewrite !normalizeBloodType_table.
  split; [|split; [|split]].
  - rewrite <- PatientRouteFacts.toLowerCase_trim, toLowerCase_empty.
    unfold tableBloodType. now rewrite PatientRouteFacts.toLowerCase_idem.
  - rewrite <- toUpperCase_trim, toUpperCase_empty.
    unfold tableBloodType. now rewrite toLowerCase_toUpperCase.
  - reflexivity.
  - intros Hne. destruct (trim s =? "")%string; [reflexivity|].
    unfold tableBloodType.
    destruct (lookup (toLowerCase s) bloodTypeMap) as [v|] eqn:Hl;
      [exfalso|reflexivity].
    apply Hne. apply trim_same_length.
    rewrite <- (toLowerCase_length (trim s)), <- (toLowerCase_length s).
    rewrite PatientRouteFacts.toLowerCase_trim.
    f_equal. unfold bloodTypeMap in Hl. cbn [lookup] in Hl.
    repeat match type of Hl with
           | context [String.eqb ?k (toLowerCase s)] =>
               destruct (String.eqb_spec k (toLowerCase s)) as [E|_];
               [rewrite <- E; reflexivity|]
           end.
    discriminate Hl.
Qed.

End PatientMethodFacts.

(** ** Worked examples for the routes *)

Module RouteExamples.
Import Samples RouteSamples.
#[local] Open Scope list_scope.


Lemma sample_methods_onePrimary : PaymentFacts.onePrimary methods.
Proof.
  intros a b Ha Hb. cbn in Ha, Hb.
  destruct Ha as [<-|[<-|[<-|[]]]]; destruct Hb as [<-|[<-|[<-|[]]]];
    intros; try reflexivity; discriminate.
Qed.

Lemma sample_methods_NoDup : NoDup (map PaymentMethod._id methods).
Proof.
  repeat constructor; cbn; intuition discriminate.
Qed.

Lemma timeString_round_trip_witness :
  0 <= 570
  /\ JS.minutesOf (Doctor.timeString 570) = Some 570.
Proof.
  assert (H : 0 <= 570) by lia.
  split; [exact H|exact (proj1 (LabelFacts.timeString_round_trip 570 H))].
Defined.

Lemma generated_slots_are_available_witness :
  Doctor.validAvailability (Doctor.availability doctor) = true
  /\ Doctor.checkAvailability Z weekdayOfDay doctor 1 "09:30"
     = {| Doctor.available := true; Doctor.reason := None |}.
Proof.
  split; [reflexivity|].
  apply (generated_slots_are_available Z weekdayOfDay doctor 1 40
           ["09:00"; "09:30"; "10:00"; "10:30"; "11:00"; "11:30"; "12:00";
            "12:30"; "14:00"; "14:30"; "15:00"; "15:30"; "16:00"; "16:30"]
           "09:30");
    try reflexivity.
  right. left. reflexivity.
Defined.

Lemma nextAvailable_now_witness :
  Doctor.validAvailability (Doctor.availability doctor) = true
  /\ DoctorVirtuals.nextAvailable Z weekdayOfDay morningHours morningMinutes
       1 doctor = Some "Available Now".
Proof.
  split; [reflexivity|].
  destruct (NextAvailableFacts.nextAvailable_now Z weekdayOfDay morningHours
              morningMinutes 1 doctor eq_refl)
    as (start & fin & bs & be & Hs & Hf & Hbs & Hbe & _ & Hnow & _).
  apply Hnow. vm_compute in Hs, Hf, Hbs, Hbe.
  injection Hs as <-. injection Hf as <-.
  injection Hbs as <-. injection Hbe as <-.
  split; [reflexivity|]. split; [reflexivity|].
  unfold morningHours, morningMinutes. split; lia.
Defined.

Lemma nextAvailable_not_available_witness :
  Doctor.isAvailable doctor = true
  /\ In (weekdayOfDay 1) DoctorVirtuals.days
  /\ JS.includes (Doctor.workingDays (Doctor.availability doctor)) "tuesday"
     = true.
Proof.
  assert (Hday : In (weekdayOfDay 1) DoctorVirtuals.days)
    by (right; left; reflexivity).
  split; [reflexivity|]. split; [exact Hday|].
  apply (proj2 (NextAvailableFacts.nextAvailable_not_available Z weekdayOfDay
                  eveningHours eveningMinutes 1 doctor eq_refl Hday)).
  - right; right; left; reflexivity.
  - reflexivity.
Defined.

Lemma rateAll_spec_witness :
  Forall (fun r => 1 <= r <= 5) [5; 4; 1]
  /\ RatingFacts.nonnegCounts (Doctor.breakdown (Doctor.rating doctor))
  /\ fst (DoctorVirtuals.rateAll [5; 4; 1] (Doctor.rating doctor)) = [].
Proof.
  assert (Hr : Forall (fun r => 1 <= r <= 5) [5; 4; 1])
    by (repeat constructor; lia).
  assert (Hn : RatingFacts.nonnegCounts
                 (Doctor.breakdown (Doctor.rating doctor)))
    by (repeat split; discriminate).
  split; [exact Hr|]. split; [exact Hn|].
  exact (proj1 (RatingRunFacts.rateAll_spec [5; 4; 1] (Doctor.rating doctor)
                  Hr Hn)).
Defined.





(** Under a doctor whose custom id differs from its [_id], a request for
    09:00, where the same doctor has a scheduled appointment, is answered
    201. *)
Lemma create_conflict_check_misses_witness :
  fst (AppointmentRoutes.create "a4" "APT000004" doctorsCustomId
         (createBody "d1" "09:00") db) = 201
  /\ fst (AppointmentRoutes.create "a4" "APT000004" doctorsCustomId
            (createBody "d1" "09:00") db) <> 409.
Proof.
  split; [reflexivity|].
  apply (AppointmentRouteFacts.create_conflict_check_misses "a4" "APT000004"
           doctorsCustomId (createBody "d1" "09:00") db).
  - intros d d' [<-|[]] [<-|[]]. discriminate.
  - intros a d Ha [<-|[]]. cbn in Ha.
    destruct Ha as [<-|[<-|[<-|[]]]]; discriminate.
Defined.


Lemma cancel_frees_slot_witness :
  Appointment.findById (AppointmentWrites.appointments db) "a1"
  = Some (appointment "a1" "09:00" "scheduled" 30)
  /\ fst (AppointmentRoutes.cancel "a1" None db) = 200.
Proof.
  assert (H : Appointment.findById (AppointmentWrites.appointments db) "a1"
              = Some (appointment "a1" "09:00" "scheduled" 30))
    by reflexivity.
  split; [exact H|].
  exact (proj1 (AppointmentRouteFacts.cancel_frees_slot "a1" None db
                  (appointment "a1" "09:00" "scheduled" 30)
                  eq_refl H eq_refl)).
Defined.

Lemma setPrimary_keeps_onePrimary_witness :
  NoDup (map PaymentMethod._id methods)
  /\ PaymentFacts.onePrimary methods
  /\ PaymentFacts.onePrimary (snd (PaymentRoutes.setPrimary "m2" methods)).
Proof.
  split; [exact sample_methods_NoDup|].
  split; [exact sample_methods_onePrimary|].
  exact (PaymentFacts.setPrimary_keeps_onePrimary "m2" methods
           sample_methods_NoDup sample_methods_onePrimary).
Defined.

Lemma setPrimary_selects_witness :
  PaymentMethod.findById methods "m2"
  = Some (method "m2" "PAT000001" false)
  /\ fst (PaymentRoutes.setPrimary "m2" methods) = 200.
Proof.
  assert (H : PaymentMethod.findById methods "m2"
              = Some (method "m2" "PAT000001" false)) by reflexivity.
  split; [exact H|].
  exact (proj1 (PaymentFacts.setPrimary_selects "m2" methods
                  (method "m2" "PAT000001" false) H eq_refl eq_refl)).
Defined.

(** The patient's primary method selected once more: none is left. *)
Lemma setPrimary_again_unselects_witness :
  PaymentMethod.findById methods "m1" = Some (method "m1" "PAT000001" true)
  /\ fst (PaymentRoutes.setPrimary "m1" methods) = 200
  /\ map PaymentMethod.isPrimary (snd (PaymentRoutes.setPrimary "m1" methods))
     = [false; false; true].
Proof.
  assert (H : PaymentMethod.findById methods "m1"
              = Some (method "m1" "PAT000001" true)) by reflexivity.
  split; [exact H|].
  split; [|reflexivity].
  exact (proj1 (proj1 (PaymentFacts.setPrimary_again_unselects "m1" methods
                         (method "m1" "PAT000001" true) H eq_refl)
                  eq_refl)).
Defined.

Lemma addPaymentMethod_keeps_onePrimary_witness :
  PaymentFacts.onePrimary methods
  /\ fst (PaymentRoutes.addPaymentMethod "m4" [patient] "PAT000001"
            (paymentData None "mobile") methods) = 200
  /\ PaymentFacts.onePrimary
       (snd (PaymentRoutes.addPaymentMethod "m4" [patient] "PAT000001"
               (paymentData None "mobile") methods)).
Proof.
  split; [exact sample_methods_onePrimary|]. split; [reflexivity|].
  apply PaymentFacts.addPaymentMethod_keeps_onePrimary.
  - exact sample_methods_onePrimary.
  - left. reflexivity.
Defined.

Lemma addPaymentMethod_refused_clears_witness :
  Patient.findOneByPatientId [patient] "PAT000001" = Some patient
  /\ PaymentRoutes.addPaymentMethod "m4" [patient] "PAT000001"
       (paymentData None "paypal") methods
     = (500, PaymentMethod.clearPrimary "PAT000001" methods).
Proof.
  assert (H : Patient.findOneByPatientId [patient] "PAT000001"
              = Some patient) by reflexivity.
  split; [exact H|].
  apply (PaymentFacts.addPaymentMethod_refused_clears "m4" [patient]
           "PAT000001" (paymentData None "paypal") methods patient H
           eq_refl).
  intros ty [= <-]. reflexivity.
Defined.

Lemma addPaymentMethod_foreign_patient_witness :
  Patient.findOneByPatientId [patient] "PAT000001" = Some patient
  /\ In (method "m3" "PAT000002" true) methods
  /\ fst (PaymentRoutes.addPaymentMethod "m4" [patient] "PAT000001"
            (paymentData (Some "PAT000002") "mobile") methods) = 200.
Proof.
  assert (H : Patient.findOneByPatientId [patient] "PAT000001"
              = Some patient) by reflexivity.
  assert (Hin : In (method "m3" "PAT000002" true) methods)
    by (right; right; left; reflexivity).
  split; [exact H|]. split; [exact Hin|].
  apply (PaymentFacts.addPaymentMethod_foreign_patient "m4" [patient]
           "PAT000001" (paymentData (Some "PAT000002") "mobile") methods
           patient "PAT000002" "mobile" (method "m3" "PAT000002" true));
    try reflexivity; try discriminate.
  exact Hin.
Defined.

Lemma token_is_second_word_witness :
  GuardFacts.noSpace "good" = true
  /\ Auth.tokenOfHeader (Some "Bearer good") = Some "good"
  /\ Auth.authenticateToken verify (Some "Basic good")
     = Auth.authenticateToken verify (Some "Bearer good").
Proof.
  assert (H : GuardFacts.noSpace "good" = true) by reflexivity.
  destruct (GuardFacts.token_is_second_word verify findById "good" H)
    as (Hb & _ & Hscheme & _).
  split; [exact H|]. split; [exact Hb|].
  exact (Hscheme "Basic" eq_refl).
Defined.

End RouteExamples.
